(** * LeapUniRankBot: rate-limited data acquisition and score estimation

  A shallow embedding of the core of [src/ranking/pkUniRankBot.py], of the
  parts of [src/ranking/pkWAUniRankBot.py] that differ from it, and of the
  tier classifier of [src/ranking/rank.py], followed by the properties of
  that code.

  Conventions of the embedding:
  - Python [str] is [string] (a sequence of bytes; case mapping and
    whitespace are the ASCII ones);
  - Python numbers used as scores are exact rationals [Q]; [round(v, 1)]
    is rounding of the exact value, half to even;
  - [datetime] values are integers, microseconds since the epoch, and a
    [timedelta] is a number of microseconds;
  - a Python function with effects is a function in the monad [M] over
    the record [World], which holds the mutable objects of the program
    (call logs, result cache) and the environment it talks to (clock,
    network, random number generator). *)

From Stdlib Require Import ZArith QArith Qround Qminmax String Ascii List Bool Lia Lqa.
From stdpp Require Import base gmap strings pretty.
Import ListNotations.

Local Open Scope string_scope.
Local Open Scope list_scope.
Local Open Scope Z_scope.

(** ** Python built-ins used by the program *)
Module Py.

Definition is_upper (c : ascii) : bool :=
  let n := N_of_ascii c in ((65 <=? n) && (n <=? 90))%N.

Definition is_lower (c : ascii) : bool :=
  let n := N_of_ascii c in ((97 <=? n) && (n <=? 122))%N.

Definition is_digit (c : ascii) : bool :=
  let n := N_of_ascii c in ((48 <=? n) && (n <=? 57))%N.

(** [str.isspace] on one ASCII character. *)
Definition is_space (c : ascii) : bool :=
  let n := N_of_ascii c in
  (((9 <=? n) && (n <=? 13)) || ((28 <=? n) && (n <=? 32)))%N.

Definition lower_ascii (c : ascii) : ascii :=
  if is_upper c then ascii_of_N (N_of_ascii c + 32) else c.

Definition upper_ascii (c : ascii) : ascii :=
  if is_lower c then ascii_of_N (N_of_ascii c - 32) else c.

Fixpoint map_string (f : ascii -> ascii) (s : string) : string :=
  match s with
  | EmptyString => EmptyString
  | String c r => String (f c) (map_string f r)
  end.

(** [s.lower()] and [s.upper()] *)
Definition lower (s : string) : string := map_string lower_ascii s.
Definition upper (s : string) : string := map_string upper_ascii s.

(** [sub in s] for two strings *)
Fixpoint contains (sub s : string) : bool :=
  if String.prefix sub s then true
  else match s with
       | EmptyString => false
       | String _ r => contains sub r
       end.

(** [s.startswith(p)] *)
Definition startswith (s p : string) : bool := String.prefix p s.

(** [any(w in s for w in words)] *)
Definition any_in (words : list string) (s : string) : bool :=
  existsb (fun w => contains w s) words.

Fixpoint lstrip (s : string) : string :=
  match s with
  | String c r => if is_space c then lstrip r else s
  | EmptyString => EmptyString
  end.

Fixpoint rstrip (s : string) : string :=
  match s with
  | EmptyString => EmptyString
  | String c r =>
      match rstrip r with
      | EmptyString => if is_space c then EmptyString else String c EmptyString
      | r' => String c r'
      end
  end.

(** [s.strip()] *)
Definition strip (s : string) : string := rstrip (lstrip s).

(** [s[:n]] *)
Definition take (n : nat) (s : string) : string := String.substring 0 n s.

(** [bool(s)] of a string *)
Definition truthy (s : string) : bool :=
  match s with EmptyString => false | _ => true end.

(** [s.split('\n')] *)
Fixpoint split_lines_aux (cur : string) (s : string) : list string :=
  match s with
  | EmptyString => [cur]
  | String c r =>
      if Ascii.eqb c "010"%char then cur :: split_lines_aux EmptyString r
      else split_lines_aux (cur +:+ String c EmptyString) r
  end.
Definition split_lines (s : string) : list string := split_lines_aux EmptyString s.

(** [x in l] for a list of strings *)
Definition mem (x : string) (l : list string) : bool :=
  existsb (String.eqb x) l.

(** Look-up in a dict literal, kept as the list of its items in source
    order. *)
Fixpoint assoc {V : Type} (k : string) (d : list (string * V)) : option V :=
  match d with
  | [] => None
  | (k', v) :: r => if String.eqb k k' then Some v else assoc k r
  end.

(** Comparisons, [min], [max] and [round(v, 1)] on numbers. *)
Definition Qltb (a b : Q) : bool := negb (Qle_bool b a).

(** [min(a, b)]: the first of the smallest. *)
Definition min (a b : Q) : Q := if Qltb b a then b else a.
(** [max(a, b)]: the first of the largest. *)
Definition max (a b : Q) : Q := if Qltb a b then b else a.

(** Nearest integer, ties to the even one. *)
Definition round_half_even (q : Q) : Z :=
  let f := Qfloor q in
  let d := (q - inject_Z f)%Q in
  if Qltb d (1 # 2) then f
  else if Qltb (1 # 2) d then f + 1
  else if Z.even f then f else f + 1.

(** [round(v, 1)] *)
Definition round1 (v : Q) : Q := Qmake (round_half_even (v * 10)) 10.

End Py.

(** ** [rank.py]: the classifier of [FixedTierRankingSystem] *)
Module Rank.

Inductive tier := Aplus | A | B | Cplus | C | D.

Definition get_tier (score : Q) : tier :=
  if Qle_bool 85 score then Aplus
  else if Qle_bool 75 score then A
  else if Qle_bool 65 score then B
  else if Qle_bool 55 score then Cplus
  else if Qle_bool 45 score then C
  else D.

End Rank.

Export Rank (tier(..)).

(** ** [hashlib.md5], as far as the program uses it *)
Module Hashlib.

Definition mask32 (x : Z) : Z := Z.land x 0xffffffff.
Definition add32 (x y : Z) : Z := mask32 (x + y).
Definition not32 (x : Z) : Z := Z.lxor x 0xffffffff.
Definition rotl32 (x c : Z) : Z :=
  mask32 (Z.lor (Z.shiftl x c) (Z.shiftr x (32 - c))).

Definition shifts : list Z :=
  [7; 12; 17; 22; 7; 12; 17; 22; 7; 12; 17; 22; 7; 12; 17; 22;
   5; 9; 14; 20; 5; 9; 14; 20; 5; 9; 14; 20; 5; 9; 14; 20;
   4; 11; 16; 23; 4; 11; 16; 23; 4; 11; 16; 23; 4; 11; 16; 23;
   6; 10; 15; 21; 6; 10; 15; 21; 6; 10; 15; 21; 6; 10; 15; 21].

Definition sines : list Z :=
  [0xd76aa478; 0xe8c7b756; 0x242070db; 0xc1bdceee;
   0xf57c0faf; 0x4787c62a; 0xa8304613; 0xfd469501;
   0x698098d8; 0x8b44f7af; 0xffff5bb1; 0x895cd7be;
   0x6b901122; 0xfd987193; 0xa679438e; 0x49b40821;
   0xf61e2562; 0xc040b340; 0x265e5a51; 0xe9b6c7aa;
   0xd62f105d; 0x02441453; 0xd8a1e681; 0xe7d3fbc8;
   0x21e1cde6; 0xc33707d6; 0xf4d50d87; 0x455a14ed;
   0xa9e3e905; 0xfcefa3f8; 0x676f02d9; 0x8d2a4c8a;
   0xfffa3942; 0x8771f681; 0x6d9d6122; 0xfde5380c;
   0xa4beea44; 0x4bdecfa9; 0xf6bb4b60; 0xbebfbc70;
   0x289b7ec6; 0xeaa127fa; 0xd4ef3085; 0x04881d05;
   0xd9d4d039; 0xe6db99e5; 0x1fa27cf8; 0xc4ac5665;
   0xf4292244; 0x432aff97; 0xab9423a7; 0xfc93a039;
   0x655b59c3; 0x8f0ccc92; 0xffeff47d; 0x85845dd1;
   0x6fa87e4f; 0xfe2ce6e0; 0xa3014314; 0x4e0811a1;
   0xf7537e82; 0xbd3af235; 0x2ad7d2bb; 0xeb86d391].

(** [s.encode()]: the bytes of the string. *)
Fixpoint encode (s : string) : list Z :=
  match s with
  | EmptyString => []
  | String c r => Z.of_N (N_of_ascii c) :: encode r
  end.

(** Little-endian bytes of a number, [n] of them. *)
Fixpoint le_bytes (n : nat) (x : Z) : list Z :=
  match n with
  | O => []
  | S k => Z.land x 0xff :: le_bytes k (Z.shiftr x 8)
  end.

Fixpoint le_word (bytes : list Z) : Z :=
  match bytes with
  | [] => 0
  | b :: r => Z.lor b (Z.shiftl (le_word r) 8)
  end.

(** The message, one bit, zeros up to 56 modulo 64, the bit length. *)
Definition pad (msg : list Z) : list Z :=
  let len := Z.of_nat (length msg) in
  let zeros := Z.to_nat ((55 - len) mod 64) in
  msg ++ [0x80] ++ List.repeat 0 zeros ++ le_bytes 8 (len * 8).

(** The words of a block, four bytes each. *)
Fixpoint words (n : nat) (bytes : list Z) : list Z :=
  match n with
  | O => []
  | S k => le_word (List.firstn 4 bytes) :: words k (List.skipn 4 bytes)
  end.

Record state := { sa : Z; sb : Z; sc : Z; sd : Z }.

Definition round (m : list Z) (st : state) (i : Z) : state :=
  let '(f, g) :=
    if i <? 16 then
      (Z.lor (Z.land (sb st) (sc st)) (Z.land (not32 (sb st)) (sd st)), i)
    else if i <? 32 then
      (Z.lor (Z.land (sd st) (sb st)) (Z.land (not32 (sd st)) (sc st)), (5 * i + 1) mod 16)
    else if i <? 48 then
      (Z.lxor (sb st) (Z.lxor (sc st) (sd st)), (3 * i + 5) mod 16)
    else
      (Z.lxor (sc st) (Z.lor (sb st) (not32 (sd st))), (7 * i) mod 16) in
  let f := add32 (add32 (add32 f (sa st)) (List.nth (Z.to_nat i) sines 0))
                 (List.nth (Z.to_nat g) m 0) in
  {| sa := sd st; sd := sc st; sc := sb st;
     sb := add32 (sb st) (rotl32 f (List.nth (Z.to_nat i) shifts 0)) |}.

Definition block (st : state) (bytes : list Z) : state :=
  let m := words 16 bytes in
  let r := List.fold_left (round m) (List.map Z.of_nat (List.seq 0 64)) st in
  {| sa := add32 (sa st) (sa r); sb := add32 (sb st) (sb r);
     sc := add32 (sc st) (sc r); sd := add32 (sd st) (sd r) |}.

Fixpoint blocks (n : nat) (st : state) (bytes : list Z) : state :=
  match n with
  | O => st
  | S k => blocks k (block st (List.firstn 64 bytes)) (List.skipn 64 bytes)
  end.

(** [hashlib.md5(data).digest()] *)
Definition md5 (data : list Z) : list Z :=
  let p := pad data in
  let st := blocks (Nat.div (length p) 64) 
              {| sa := 0x67452301; sb := 0xefcdab89; sc := 0x98badcfe; sd := 0x10325476 |} p in
  le_bytes 4 (sa st) ++ le_bytes 4 (sb st) ++ le_bytes 4 (sc st) ++ le_bytes 4 (sd st).

(** [int(hashlib.md5(data).hexdigest()[:8], 16)]: the first four bytes of
    the digest, read as one big-endian number. *)
Definition hexdigest8_int (data : list Z) : Z :=
  List.fold_left (fun acc b => acc * 256 + b) (List.firstn 4 (md5 data)) 0.

End Hashlib.

(** ** [pkUniRankBot.py] *)
Module UniRank.

(** *** Time *)
Definition timedelta_seconds (n : Z) : Z := n * 1000000.
Definition timedelta_minutes (n : Z) : Z := timedelta_seconds (60 * n).
Definition timedelta_hours (n : Z) : Z := timedelta_minutes (60 * n).
Definition timedelta_days (n : Z) : Z := timedelta_hours (24 * n).

(** [str(dt)] and [dt.isoformat()]: the calendar rendering is replaced by
    the decimal count of microseconds. *)
Definition str_datetime (t : Z) : string := pretty t.

(** *** [class APIType(Enum)] *)
Inductive APIType :=
  WIKIPEDIA | GOOGLE_SEARCH | WEBOMETRICS | QS_RANKINGS | THE_RANKINGS | GOVERNMENT_API.

#[global] Instance APIType_eq_dec : EqDecision APIType.
Proof. solve_decision. Defined.

Definition APIType_value (a : APIType) : string :=
  match a with
  | WIKIPEDIA => "wikipedia"
  | GOOGLE_SEARCH => "google_search"
  | WEBOMETRICS => "webometrics"
  | QS_RANKINGS => "qs_rankings"
  | THE_RANKINGS => "the_rankings"
  | GOVERNMENT_API => "government_api"
  end.

(** *** Exceptions *)
Record RateLimitExceededException := {
  api_type : APIType;
  reset_time : Z;
  limit_details : string
}.

Definition message (e : RateLimitExceededException) : string :=
  "Rate limit exceeded for " +:+ APIType_value (api_type e)
    +:+ ". Resets at " +:+ str_datetime (reset_time e).

(** Every exception of the program derives from [Exception]; the handlers
    tell apart the rate-limit one and the two of the [wikipedia] package. *)
Inductive exn :=
| RateLimitExceeded (e : RateLimitExceededException)
| WikipediaDisambiguation (options : list string)
| WikipediaPageError
| OtherException (what : string).

(** *** [@dataclass RateLimitInfo] *)
Record RateLimitInfo := {
  requests_per_minute : Z;
  requests_per_hour : Z;
  requests_per_day : Z;
  reset_interval_minutes : Z;
  reset_interval_hours : Z;
  reset_interval_days : Z
}.

(** The constructor call [RateLimitInfo(requests_per_minute=m, ...)]: the
    reset intervals keep their defaults 1, 1 and 24. *)
Definition mkRateLimitInfo (m h d : Z) : RateLimitInfo :=
  {| requests_per_minute := m; requests_per_hour := h; requests_per_day := d;
     reset_interval_minutes := 1; reset_interval_hours := 1;
     reset_interval_days := 24 |}.

(** [RateLimiter.limits] *)
Definition limits (a : APIType) : RateLimitInfo :=
  match a with
  | WIKIPEDIA => mkRateLimitInfo 100 2000 10000
  | GOOGLE_SEARCH => mkRateLimitInfo 10 100 1000
  | WEBOMETRICS => mkRateLimitInfo 30 500 5000
  | QS_RANKINGS => mkRateLimitInfo 20 200 2000
  | THE_RANKINGS => mkRateLimitInfo 20 200 2000
  | GOVERNMENT_API => mkRateLimitInfo 5 50 500
  end.

(** *** The outside world of the fetchers *)
Record WikipediaPage := {
  page_summary : string;
  page_url : string;
  page_categories : list string;
  page_content : string
}.

(** What [wikipedia.page(...)] does: it returns a page or raises. *)
Inductive wiki_result :=
| PageFound (p : WikipediaPage)
| DisambiguationError (options : list string)
| PageError
| WikipediaFailure (what : string).

(** An HTTP response: [anchors] is what [link.get('href')] gives for the
    elements of [soup.find_all('a')] over [text], [retry_after] is
    [headers.get('Retry-After')]. *)
Record Response := {
  status_code : Z;
  text : string;
  anchors : list (option string);
  retry_after : option string
}.

(** What [requests.get] and [session.get] do: a response, or an exception
    (connection error, timeout). *)
Inductive http_result :=
| Responded (r : Response)
| RequestFailure (what : string).

Inductive request :=
| WikipediaPageCall (title : string) (auto_suggest : bool)
| HttpGet (url : string).

(** *** Data returned by the fetchers *)
Record WikiData := {
  wd_summary : string;
  wd_url : string;
  wd_categories : list string;
  wd_fetch_time : Z;
  wd_rankings : option (list string);
  wd_note : option string
}.

Record WebData := {
  web_url : string;
  web_status : string;
  web_content_length : nat;
  web_note : string
}.

(** Values of the [all_data] dict. *)
Inductive value :=
| VWikipedia (d : WikiData)
| VGoogle (results : list (string * list string))
| VWebometrics (d : WebData)
| VSources (l : list string)
| VRanking (n : Z).

(** The dict built by [get_api_status]. *)
Record ApiStatus := {
  st_api : string;
  calls_last_minute : Z;
  calls_last_hour : Z;
  calls_last_day : Z;
  minute_limit : Z;
  hourly_limit : Z;
  daily_limit : Z;
  available_minute : Z;
  available_hour : Z;
  available_day : Z
}.

(** Entries of the [rate_limit_info] list. *)
Inductive rate_info :=
| Status (s : ApiStatus)
| RateLimited (api : string) (reset : Z) (msg : string)
| Internal (api : string)
| CacheHit (timestamp : string).

(** *** The state of the program and of its environment

    [clock] gives the successive readings of the system clock, [reads]
    counts the readings made; [wikipedia_site] and [web] answer the
    request made after [n] earlier ones, [requests] logs the requests
    made; [rng] gives the successive unit draws of numpy's global
    generator; [calls] is [RateLimiter.trackers[api].calls]; [recorded]
    is the sequence of the lines "Recorded API call for ..." that
    [record_call] writes to the log; [real_data_cache] is the attribute
    of that name. *)
Record World := {
  clock : nat -> Z;
  reads : nat;
  wikipedia_site : nat -> string -> bool -> wiki_result;
  web : nat -> string -> http_result;
  requests : list request;
  rng : nat -> Q;
  draws : nat;
  calls : APIType -> list Z;
  recorded : list APIType;
  real_data_cache : gmap string (gmap string value * list rate_info)
}.

Definition set_reads (n : nat) (w : World) : World :=
  {| clock := clock w; reads := n; wikipedia_site := wikipedia_site w;
     web := web w; requests := requests w; rng := rng w; draws := draws w;
     calls := calls w; recorded := recorded w;
     real_data_cache := real_data_cache w |}.

Definition set_requests (l : list request) (w : World) : World :=
  {| clock := clock w; reads := reads w; wikipedia_site := wikipedia_site w;
     web := web w; requests := l; rng := rng w; draws := draws w;
     calls := calls w; recorded := recorded w;
     real_data_cache := real_data_cache w |}.

Definition set_draws (n : nat) (w : World) : World :=
  {| clock := clock w; reads := reads w; wikipedia_site := wikipedia_site w;
     web := web w; requests := requests w; rng := rng w; draws := n;
     calls := calls w; recorded := recorded w;
     real_data_cache := real_data_cache w |}.

Definition set_calls (c : APIType -> list Z) (w : World) : World :=
  {| clock := clock w; reads := reads w; wikipedia_site := wikipedia_site w;
     web := web w; requests := requests w; rng := rng w; draws := draws w;
     calls := c; recorded := recorded w;
     real_data_cache := real_data_cache w |}.

Definition set_recorded (l : list APIType) (w : World) : World :=
  {| clock := clock w; reads := reads w; wikipedia_site := wikipedia_site w;
     web := web w; requests := requests w; rng := rng w; draws := draws w;
     calls := calls w; recorded := l;
     real_data_cache := real_data_cache w |}.

Definition set_real_data_cache
    (c : gmap string (gmap string value * list rate_info)) (w : World) : World :=
  {| clock := clock w; reads := reads w; wikipedia_site := wikipedia_site w;
     web := web w; requests := requests w; rng := rng w; draws := draws w;
     calls := calls w; recorded := recorded w; real_data_cache := c |}.

(** *** The monad of effects and exceptions *)
Inductive outcome (A : Type) :=
| Return (a : A)
| Raise (e : exn).
Arguments Return {A} a.
Arguments Raise {A} e.

Definition M (A : Type) : Type := World -> outcome A * World.

#[global] Instance M_ret : MRet M := fun A a w => (Return a, w).
#[global] Instance M_bind : MBind M := fun A B f m w =>
  match m w with
  | (Return a, w') => f a w'
  | (Raise e, w') => (Raise e, w')
  end.

Definition raise {A : Type} (e : exn) : M A := fun w => (Raise e, w).

(** [try: body except Exception as e: handler(e)] *)
Definition try_except {A : Type} (body : M A) (handler : exn -> M A) : M A :=
  fun w =>
    match body w with
    | (Return a, w') => (Return a, w')
    | (Raise e, w') => handler e w'
    end.

Definition get {A : Type} (f : World -> A) : M A := fun w => (Return (f w), w).
Definition modify (f : World -> World) : M unit := fun w => (Return tt, f w).

(** [datetime.now()] and [time.time()] *)
Definition datetime_now : M Z :=
  fun w => (Return (clock w (reads w)), set_reads (S (reads w)) w).
Definition time_time : M Z := datetime_now.

(** [np.random.uniform(low, high)] *)
Definition np_random_uniform (low high : Q) : M Q :=
  fun w => (Return (low + (high - low) * rng w (draws w))%Q,
            set_draws (S (draws w)) w).

(** [wikipedia.page(title, auto_suggest=...)] *)
Definition wikipedia_page (title : string) (auto_suggest : bool) : M WikipediaPage :=
  fun w =>
    let w' := set_requests (requests w ++ [WikipediaPageCall title auto_suggest]) w in
    match wikipedia_site w (length (requests w)) title auto_suggest with
    | PageFound p => (Return p, w')
    | DisambiguationError options => (Raise (WikipediaDisambiguation options), w')
    | PageError => (Raise WikipediaPageError, w')
    | WikipediaFailure what => (Raise (OtherException what), w')
    end.

(** [requests.get(url, ...)] and [self.session.get(url, ...)] *)
Definition http_get (url : string) : M Response :=
  fun w =>
    let w' := set_requests (requests w ++ [HttpGet url]) w in
    match web w (length (requests w)) url with
    | Responded r => (Return r, w')
    | RequestFailure what => (Raise (OtherException what), w')
    end.

(** [urllib.parse.quote(s)] with its default [safe='/']. *)
Definition hex_digit (n : N) : ascii :=
  ascii_of_N (if (n <? 10)%N then 48 + n else 55 + n).

Definition quote_ascii (c : ascii) : string :=
  if Py.is_upper c || Py.is_lower c || Py.is_digit c
     || existsb (Ascii.eqb c) ["_"; "."; "-"; "~"; "/"]%char
  then String c EmptyString
  else let n := N_of_ascii c in
       String "%" (String (hex_digit (n / 16)) (String (hex_digit (n mod 16)) EmptyString)).

Fixpoint quote (s : string) : string :=
  match s with
  | EmptyString => EmptyString
  | String c r => quote_ascii c +:+ quote r
  end.

(** [l[0]] *)
Definition first_item (l : list string) : M string :=
  match l with
  | x :: _ => mret x
  | [] => raise (OtherException "IndexError")
  end.

(** [int(s)] for a string: surrounding whitespace, an optional sign,
    decimal digits with single underscores between them. *)
Fixpoint parse_digits (acc : Z) (after_digit : bool) (s : string) : option Z :=
  match s with
  | EmptyString => if after_digit then Some acc else None
  | String c r =>
      if Py.is_digit c
      then parse_digits (acc * 10 + Z.of_N (N_of_ascii c - 48)) true r
      else if Ascii.eqb c "_"%char && after_digit
           then match r with
                | String d _ => if Py.is_digit d then parse_digits acc false r else None
                | EmptyString => None
                end
           else None
  end.

Definition parse_int (s : string) : option Z :=
  match Py.strip s with
  | String "-" r => Z.opp <$> parse_digits 0 false r
  | String "+" r => parse_digits 0 false r
  | r => parse_digits 0 false r
  end.

Definition int (s : string) : M Z :=
  match parse_int s with
  | Some n => mret n
  | None => raise (OtherException "ValueError")
  end.

(** *** [RateLimitInfo.get_reset_time] *)
Definition get_reset_time (self : RateLimitInfo) (time_unit : string) : M Z :=
  now ← datetime_now;
  if String.eqb time_unit "minute"
  then mret (now + timedelta_minutes (reset_interval_minutes self))
  else if String.eqb time_unit "hour"
  then mret (now + timedelta_hours (reset_interval_hours self))
  else if String.eqb time_unit "day"
  then mret (now + timedelta_days (reset_interval_days self))
  else mret now.

(** *** [APICallTracker] *)

(** [[call for call in calls if call > cutoff]] *)
Definition newer (cutoff : Z) (l : list Z) : list Z :=
  List.filter (fun call => cutoff <? call) l.

Definition update_calls (a : APIType) (l : list Z) (c : APIType -> list Z)
  : APIType -> list Z :=
  fun b => if decide (b = a) then l else c b.

Definition add_call (a : APIType) : M unit :=
  now ← datetime_now;
  modify (fun w => set_calls (update_calls a (calls w a ++ [now]) (calls w)) w);;
  now' ← datetime_now;
  let cutoff := now' - timedelta_hours 24 in
  modify (fun w => set_calls (update_calls a (newer cutoff (calls w a)) (calls w)) w).

Definition get_recent_calls (a : APIType) (minutes : Z) : M Z :=
  now ← datetime_now;
  let cutoff := now - timedelta_minutes minutes in
  l ← get (fun w => calls w a);
  mret (Z.of_nat (length (newer cutoff l))).

Definition get_hourly_calls (a : APIType) : M Z :=
  now ← datetime_now;
  let cutoff := now - timedelta_hours 1 in
  l ← get (fun w => calls w a);
  mret (Z.of_nat (length (newer cutoff l))).

Definition get_daily_calls (a : APIType) : M Z :=
  now ← datetime_now;
  let cutoff := now - timedelta_hours 24 in
  l ← get (fun w => calls w a);
  mret (Z.of_nat (length (newer cutoff l))).

(** *** [RateLimiter] *)
Definition check_rate_limit (a : APIType) : M bool :=
  let limits := limits a in
  recent_calls ← get_recent_calls a 1;
  if requests_per_minute limits <=? recent_calls then
    reset_time ← get_reset_time limits "minute";
    raise (RateLimitExceeded
             {| api_type := a; reset_time := reset_time;
                limit_details :=
                  "Minute limit: " +:+ pretty (requests_per_minute limits) +:+ " calls" |})
  else
  hourly_calls ← get_hourly_calls a;
  if requests_per_hour limits <=? hourly_calls then
    reset_time ← get_reset_time limits "hour";
    raise (RateLimitExceeded
             {| api_type := a; reset_time := reset_time;
                limit_details :=
                  "Hourly limit: " +:+ pretty (requests_per_hour limits) +:+ " calls" |})
  else
  daily_calls ← get_daily_calls a;
  if requests_per_day limits <=? daily_calls then
    reset_time ← get_reset_time limits "day";
    raise (RateLimitExceeded
             {| api_type := a; reset_time := reset_time;
                limit_details :=
                  "Daily limit: " +:+ pretty (requests_per_day limits) +:+ " calls" |})
  else mret true.

Definition record_call (a : APIType) : M unit :=
  add_call a;;
  (* logger.debug(f"Recorded API call for {api_type.value}") *)
  modify (fun w => set_recorded (recorded w ++ [a]) w).

Definition get_api_status (a : APIType) : M ApiStatus :=
  let limits := limits a in
  recent_calls ← get_recent_calls a 1;
  hourly_calls ← get_hourly_calls a;
  daily_calls ← get_daily_calls a;
  mret {| st_api := APIType_value a;
          calls_last_minute := recent_calls;
          calls_last_hour := hourly_calls;
          calls_last_day := daily_calls;
          minute_limit := requests_per_minute limits;
          hourly_limit := requests_per_hour limits;
          daily_limit := requests_per_day limits;
          available_minute := Z.max 0 (requests_per_minute limits - recent_calls);
          available_hour := Z.max 0 (requests_per_hour limits - hourly_calls);
          available_day := Z.max 0 (requests_per_day limits - daily_calls) |}.

(** *** [class UserConfiguration] *)
Record UserConfiguration := {
  user_id : option string;
  enable_wikipedia : bool;
  enable_google_search : bool;
  enable_webometrics : bool;
  timestamp : Z
}.

(** [UserConfiguration(user_id)] *)
Definition UserConfiguration_init (uid : option string) : M UserConfiguration :=
  now ← datetime_now;
  mret {| user_id := uid; enable_wikipedia := true;
          enable_google_search := false; enable_webometrics := false;
          timestamp := now |}.

(** *** [RateLimitedDataFetcher]

    The [user_id] argument of the fetchers and of [check_rate_limit], which
    only goes to the log, is left out; [wikipedia.page] stands for the call
    and for the reading of the attributes of the page it returns. *)

(** The lines of the page kept in [data['rankings']]. *)
Definition ranking_lines (content : string) : list string :=
  List.firstn 5
    (List.map (Py.take 200)
       (List.filter
          (fun line =>
             Py.any_in ["rank"; "ranking"; "rated"; "#"; "top"] line
             && (Py.contains "university" line || Py.contains "college" line))
          (Py.split_lines content))).

Definition safe_fetch_wikipedia (university_name : string)
  : M (option (gmap string value)) :=
  try_except
    (check_rate_limit WIKIPEDIA;;
     let search_query := university_name +:+ " university" in
     start_time ← time_time;
     returned ←
       try_except
         (page ← wikipedia_page search_query true;
          now ← time_time;
          let content := Py.lower (page_content page) in
          let data :=
            {| wd_summary := Py.take 500 (page_summary page);
               wd_url := page_url page;
               wd_categories := page_categories page;
               wd_fetch_time := now - start_time;
               wd_rankings := Some (ranking_lines content);
               wd_note := None |} in
          record_call WIKIPEDIA;;
          mret (Some ({[ "wikipedia" := VWikipedia data ]} : gmap string value)))
         (fun e =>
            match e with
            | WikipediaDisambiguation options =>
                try_except
                  (first_option ← first_item options;
                   page ← wikipedia_page first_option true;
                   now ← time_time;
                   let data :=
                     {| wd_summary := Py.take 500 (page_summary page);
                        wd_url := page_url page;
                        wd_categories := page_categories page;
                        wd_fetch_time := now - start_time;
                        wd_rankings := None;
                        wd_note := Some ("Used disambiguation: " +:+ first_option) |} in
                   record_call WIKIPEDIA;;
                   mret (Some ({[ "wikipedia" := VWikipedia data ]} : gmap string value)))
                  (fun _ => mret None)
            | WikipediaPageError => mret None
            | _ => raise e
            end);
     match returned with
     | Some d => mret (Some d)
     | None =>
         (* Record call even if page not found *)
         record_call WIKIPEDIA;;
         mret None
     end)
    (fun e =>
       match e with
       | RateLimitExceeded _ => raise e
       | _ => mret None
       end).

(** The links kept from a results page. *)
Definition result_links (hrefs : list (option string)) : list string :=
  omap (fun href =>
          match href with
          | Some h =>
              if Py.truthy h && Py.startswith h "http"
                 && negb (Py.contains "google.com" h)
              then Some h else None
          | None => None
          end) hrefs.

Definition safe_google_search (query : string) : M (list string) :=
  try_except
    (check_rate_limit GOOGLE_SEARCH;;
     (* time.sleep(2) *)
     let search_url := "https://www.google.com/search?q=" +:+ quote query in
     response ← http_get search_url;
     let results :=
       if status_code response =? 200 then result_links (anchors response) else [] in
     record_call GOOGLE_SEARCH;;
     mret (List.firstn 3 results))
    (fun _ =>
       record_call GOOGLE_SEARCH;;
       mret []).

Definition safe_fetch_webometrics (university_name : string)
  : M (option (gmap string value)) :=
  try_except
    (check_rate_limit WEBOMETRICS;;
     let search_query := quote university_name in
     let url := "https://www.webometrics.info/en/search/site/" +:+ search_query in
     response ← http_get url;
     record_call WEBOMETRICS;;
     if status_code response =? 200 then
       let data :=
         {| web_url := url; web_status := "success";
            web_content_length := String.length (text response);
            web_note := "Scraped from Webometrics website" |} in
       mret (Some ({[ "webometrics" := VWebometrics data ]} : gmap string value))
     else if status_code response =? 429 then
       let retry := default "60" (retry_after response) in
       now ← datetime_now;
       seconds ← int retry;
       raise (RateLimitExceeded
                {| api_type := WEBOMETRICS;
                   reset_time := now + timedelta_seconds seconds;
                   limit_details := "HTTP 429: Retry after " +:+ retry +:+ " seconds" |})
     else mret None)
    (fun e =>
       match e with
       | RateLimitExceeded _ => raise e
       | _ =>
           (* Still record the attempt *)
           record_call WEBOMETRICS;;
           mret None
       end).

(** [d[k] = v] on a dict kept as the list of its items. *)
Fixpoint dict_set {V : Type} (k : string) (v : V) (d : list (string * V))
  : list (string * V) :=
  match d with
  | [] => [(k, v)]
  | (k', v') :: r => if String.eqb k k' then (k, v) :: r else (k', v') :: dict_set k v r
  end.

(** The locals [all_data], [rate_limit_info] and [data_sources_used] of
    [fetch_all_data]. *)
Record fetch_state := {
  all_data : gmap string value;
  rate_limit_info : list rate_info;
  data_sources_used : list string
}.

Definition rate_limited_note (api : string) (e : RateLimitExceededException) : rate_info :=
  RateLimited api (reset_time e) (message e).

(** The loop over the search queries; [inr] is the [break]. *)
Fixpoint google_queries (queries : list string)
    (google_results : list (string * list string)) (info : list rate_info)
  : M (list (string * list string) * list rate_info) :=
  match queries with
  | [] => mret (google_results, info)
  | query :: rest =>
      step ←
        try_except
          (results ← safe_google_search query;
           let google_results :=
             match results with
             | [] => google_results
             | _ => dict_set query results google_results
             end in
           st ← get_api_status GOOGLE_SEARCH;
           mret (inl (google_results, info ++ [Status st])))
          (fun e =>
             match e with
             | RateLimitExceeded e' =>
                 mret (inr (info ++ [rate_limited_note "google_search" e']))
             | _ => raise e
             end);
      match step with
      | inl (google_results, info) => google_queries rest google_results info
      | inr info => mret (google_results, info)
      end
  end.

Definition fetch_all_data (university_name country : string)
    (uid : option string) (user_config : option UserConfiguration)
  : M (gmap string value * list rate_info) :=
  let s := {| all_data := ∅; rate_limit_info := []; data_sources_used := [] |} in
  user_config ←
    match user_config with
    | None => UserConfiguration_init uid
    | Some c => mret c
    end;
  s ←
    (if enable_wikipedia user_config then
       try_except
         (wiki_data ← safe_fetch_wikipedia university_name;
          match wiki_data with
          | Some d =>
              st ← get_api_status WIKIPEDIA;
              mret {| all_data := d ∪ all_data s;
                      rate_limit_info := rate_limit_info s ++ [Status st];
                      data_sources_used := data_sources_used s ++ ["wikipedia"] |}
          | None => mret s
          end)
         (fun e =>
            match e with
            | RateLimitExceeded e' =>
                mret {| all_data := all_data s;
                        rate_limit_info :=
                          rate_limit_info s ++ [rate_limited_note "wikipedia" e'];
                        data_sources_used := data_sources_used s |}
            | _ => raise e
            end)
     else mret s);
  s ←
    (if enable_google_search user_config then
       let queries :=
         [ university_name +:+ " QS World University Rankings";
           university_name +:+ " Times Higher Education ranking";
           university_name +:+ " ARWU ranking" ] in
       '(google_results, info) ← google_queries queries [] (rate_limit_info s);
       match google_results with
       | [] => mret {| all_data := all_data s; rate_limit_info := info;
                       data_sources_used := data_sources_used s |}
       | _ => mret {| all_data := <["google_search" := VGoogle google_results]> (all_data s);
                      rate_limit_info := info;
                      data_sources_used := data_sources_used s ++ ["google_search"] |}
       end
     else mret s);
  s ←
    (if enable_webometrics user_config then
       try_except
         (web_data ← safe_fetch_webometrics university_name;
          match web_data with
          | Some d =>
              st ← get_api_status WEBOMETRICS;
              mret {| all_data := d ∪ all_data s;
                      rate_limit_info := rate_limit_info s ++ [Status st];
                      data_sources_used := data_sources_used s ++ ["webometrics"] |}
          | None => mret s
          end)
         (fun e =>
            match e with
            | RateLimitExceeded e' =>
                mret {| all_data := all_data s;
                        rate_limit_info :=
                          rate_limit_info s ++ [rate_limited_note "webometrics" e'];
                        data_sources_used := data_sources_used s |}
            | _ => raise e
            end)
     else mret s);
  let all_data :=
    match data_sources_used s with
    | [] => all_data s
    | used => <["data_sources_used" := VSources used]> (all_data s)
    end in
  mret (all_data, rate_limit_info s).

(** *** [class UniversityRankingSystem] *)
Local Open Scope Q_scope.

(** A [scores] dict: its six keys, in their insertion order. *)
Record Scores := mkScores {
  academic : Q;
  graduate : Q;
  roi : Q;
  fsr : Q;
  transparency : Q;
  visibility : Q
}.

(** [self.parameters[key]['max']] for the six keys, in the same order. *)
Definition parameters_max : Scores := mkScores 25 25 20 15 10 5.

(** [{k: f(v) for k, v in scores.items()}] *)
Definition map_scores (f : Q -> Q) (s : Scores) : Scores :=
  mkScores (f (academic s)) (f (graduate s)) (f (roi s)) (f (fsr s))
           (f (transparency s)) (f (visibility s)).

(** [self.tiers], in the order of the dict literal (the pictograph that
    starts each description is left out). *)
Definition tiers : list (tier * (Q * Q * string)) :=
  [ (Aplus, (85, 100, "WORLD-CLASS"));
    (A, (75, 84.999, "EXCELLENT"));
    (B, (65, 74.999, "GOOD"));
    (Cplus, (55, 64.999, "AVERAGE"));
    (C, (45, 54.999, "BELOW AVERAGE"));
    (D, (0, 44.999, "POOR")) ]%Q.

Inductive uni_type :=
| RESEARCH_UNIVERSITY
| TEACHING_UNIVERSITY
| COLLEGE_POLYTECHNIC
| APPLIED_UNIVERSITY
| SPECIALIST_SCHOOL.

#[global] Instance uni_type_eq_dec : EqDecision uni_type.
Proof. solve_decision. Defined.

Record db_entry := {
  db_country : string;
  db_type : uni_type;
  db_scores : Scores
}.

(** [load_university_database()]: name, country, type and scores of each
    entry (the description and the rationale texts are left out). *)
Definition university_db : list (string * db_entry) :=
  [
    ("bryant university",
     {| db_country := "USA"; db_type := TEACHING_UNIVERSITY;
        db_scores := mkScores 12 22 16 13 8 3 |});
    ("massachusetts institute of technology",
     {| db_country := "USA"; db_type := RESEARCH_UNIVERSITY;
        db_scores := mkScores 25 24 22 14 9 5 |});
    ("harvard university",
     {| db_country := "USA"; db_type := RESEARCH_UNIVERSITY;
        db_scores := mkScores 25 24 20 13 10 5 |});
    ("stanford university",
     {| db_country := "USA"; db_type := RESEARCH_UNIVERSITY;
        db_scores := mkScores 24 23 21 14 9 5 |});
    ("university of toronto",
     {| db_country := "Canada"; db_type := RESEARCH_UNIVERSITY;
        db_scores := mkScores 22 21 18 13 9 4 |});
    ("university of oxford",
     {| db_country := "UK"; db_type := RESEARCH_UNIVERSITY;
        db_scores := mkScores 25 24 19 14 10 5 |});
    ("conestoga college",
     {| db_country := "Canada"; db_type := COLLEGE_POLYTECHNIC;
        db_scores := mkScores 4 20 18 13 7 4 |});
    ("algonquin college",
     {| db_country := "Canada"; db_type := COLLEGE_POLYTECHNIC;
        db_scores := mkScores 4 19 17 12 6 3 |});
    ("north dakota state university",
     {| db_country := "USA"; db_type := RESEARCH_UNIVERSITY;
        db_scores := mkScores 16 15 16 11 9 4 |});
    ("university of tokyo",
     {| db_country := "Japan"; db_type := RESEARCH_UNIVERSITY;
        db_scores := mkScores 23 21 18 13 8 4 |});
    ("university of sydney",
     {| db_country := "Australia"; db_type := RESEARCH_UNIVERSITY;
        db_scores := mkScores 21 20 17 12 8 4 |});
    ("community college of philadelphia",
     {| db_country := "USA"; db_type := COLLEGE_POLYTECHNIC;
        db_scores := mkScores 3 16 18 11 5 2 |});
    ("california institute of technology",
     {| db_country := "USA"; db_type := RESEARCH_UNIVERSITY;
        db_scores := mkScores 25 24 23 14 9 5 |});
    ("university of cape town",
     {| db_country := "South Africa"; db_type := RESEARCH_UNIVERSITY;
        db_scores := mkScores 18 17 15 11 7 3 |})
  ].

(** [self.country_multipliers], in the order of the dict literal. *)
Definition country_multipliers : list (string * Q) :=
  [ ("USA", 1.2); ("UK", 1.15);
    ("CANADA", 1.1); ("CAN", 1.1); ("AUSTRALIA", 1.1); ("AUS", 1.1);
    ("GERMANY", 1.1); ("DEU", 1.1); ("SWITZERLAND", 1.15); ("CHE", 1.15);
    ("SWEDEN", 1.05); ("SWE", 1.05); ("NETHERLANDS", 1.05); ("NLD", 1.05);
    ("DENMARK", 1.05); ("DNK", 1.05); ("FINLAND", 1.05); ("FIN", 1.05);
    ("NORWAY", 1.05); ("NOR", 1.05);
    ("FRANCE", 1.0); ("FRA", 1.0); ("ITALY", 0.95); ("ITA", 0.95);
    ("SPAIN", 0.95); ("ESP", 0.95); ("PORTUGAL", 0.9); ("PRT", 0.9);
    ("GREECE", 0.9); ("GRC", 0.9);
    ("JAPAN", 1.05); ("JPN", 1.05); ("SOUTH KOREA", 1.05); ("KOR", 1.05);
    ("SINGAPORE", 1.1); ("SGP", 1.1); ("HONG KONG", 1.1); ("HKG", 1.1);
    ("CHINA", 0.9); ("CHN", 0.9); ("INDIA", 0.85); ("IND", 0.85);
    ("BRAZIL", 0.85); ("BRA", 0.85); ("RUSSIA", 0.85); ("RUS", 0.85);
    ("SOUTH AFRICA", 0.85); ("ZAF", 0.85); ("MEXICO", 0.85); ("MEX", 0.85);
    ("IRELAND", 1.0); ("IRL", 1.0); ("NEW ZEALAND", 1.0); ("NZL", 1.0);
    ("NEWZEALAND", 1.0);
    ("GLOBAL", 1.0) ]%Q.

Definition load_qs_rankings : list (string * Z) :=
  [ ("massachusetts institute of technology", 1);
    ("university of cambridge", 2);
    ("university of oxford", 3);
    ("harvard university", 4);
    ("stanford university", 5);
    ("imperial college london", 6);
    ("california institute of technology", 7);
    ("university college london", 8);
    ("eth zurich", 9);
    ("university of chicago", 10) ]%Z.

Definition load_the_rankings : list (string * Z) :=
  [ ("university of oxford", 1);
    ("harvard university", 2);
    ("university of cambridge", 3);
    ("stanford university", 4);
    ("massachusetts institute of technology", 5);
    ("california institute of technology", 6);
    ("princeton university", 7);
    ("university of california berkeley", 8);
    ("yale university", 9);
    ("imperial college london", 10) ]%Z.

Definition classify_university_type (name : string) : uni_type :=
  let name_lower := Py.lower name in
  if Py.any_in ["business school"; "medical school"; "law school"] name_lower
  then SPECIALIST_SCHOOL
  else if Py.any_in ["college"; "community college"; "polytechnic"] name_lower
  then COLLEGE_POLYTECHNIC
  else if Py.any_in ["technical"; "applied"; "technology"] name_lower
  then APPLIED_UNIVERSITY
  else if Py.contains "university" name_lower
  then if Py.any_in ["research"; "institute"; "tech"] name_lower
       then RESEARCH_UNIVERSITY
       else TEACHING_UNIVERSITY
  else TEACHING_UNIVERSITY.

Definition classify_university_type_by_name (name_lower : string) : uni_type :=
  if Py.any_in ["business school"; "medical school"; "law school";
                "dental school"; "nursing school"; "art school"] name_lower
  then SPECIALIST_SCHOOL
  else if Py.any_in ["community college"; "technical college";
                     "vocational college"; "career college"] name_lower
  then COLLEGE_POLYTECHNIC
  else if Py.any_in ["college"; "polytechnic"; "institute of technology"] name_lower
  then COLLEGE_POLYTECHNIC
  else if Py.any_in ["technical"; "applied"; "technology"; "engineering"] name_lower
  then if Py.contains "university" name_lower
       then APPLIED_UNIVERSITY
       else COLLEGE_POLYTECHNIC
  else if Py.contains "university" name_lower
  then if Py.any_in ["research"; "institute"; "tech"; "polytechnic";
                     "state"; "national"; "federal"] name_lower
       then RESEARCH_UNIVERSITY
       else TEACHING_UNIVERSITY
  else TEACHING_UNIVERSITY.

Definition _get_base_scores_by_type (name_lower : string) : Scores :=
  match classify_university_type_by_name name_lower with
  | RESEARCH_UNIVERSITY => mkScores 18 17 15 11 8 4
  | TEACHING_UNIVERSITY => mkScores 12 15 14 11 7 3
  | COLLEGE_POLYTECHNIC => mkScores 6 16 16 10 6 2
  | APPLIED_UNIVERSITY => mkScores 10 18 17 11 7 3
  | SPECIALIST_SCHOOL => mkScores 14 19 16 11 7 3
  end.

(** The loop of the partial matches, over the items of the dict. *)
Fixpoint partial_match (country_upper : string) (items : list (string * Q)) : option Q :=
  match items with
  | [] => None
  | (known_country, multiplier) :: r =>
      if Py.contains country_upper known_country || Py.contains known_country country_upper
      then Some multiplier
      else partial_match country_upper r
  end.

Definition _get_country_multiplier (country_upper : string) : Q :=
  match Py.assoc country_upper country_multipliers with
  | Some m => m
  | None =>
      match partial_match country_upper country_multipliers with
      | Some m => m
      | None => 1
      end
  end.

Definition _apply_name_pattern_adjustments (name_lower : string) (scores : Scores) : Scores :=
  if Py.any_in ["harvard"; "stanford"; "mit"; "massachusetts institute";
                "oxford"; "cambridge"; "caltech"; "princeton"; "yale"] name_lower
  then mkScores 25 24 22 14 10 5
  else if Py.any_in ["columbia"; "cornell"; "dartmouth"; "brown"; "upenn";
                     "imperial college"; "university college london";
                     "eth zurich"] name_lower
  then mkScores 24 23 21 13 9 5
  else if Py.any_in ["university of california"; "ucla"; "uc berkeley"; "umich";
                     "university of michigan"; "university of texas";
                     "ut austin"] name_lower
  then mkScores 22 21 19 12 8 4
  else if Py.contains "state university" name_lower || Py.contains "state uni" name_lower
  then mkScores (academic scores + 3) (graduate scores) (roi scores + 2) (fsr scores)
                (transparency scores + 1) (visibility scores + 1)
  else if Py.contains "university" name_lower && negb (Py.contains "state" name_lower)
  then mkScores (academic scores + 2) (graduate scores) (roi scores) (fsr scores)
                (transparency scores) (visibility scores + 1)
  else if Py.contains "college" name_lower && negb (Py.contains "university" name_lower)
  then mkScores (academic scores) (graduate scores + 3) (roi scores + 2) (fsr scores + 2)
                (transparency scores) (visibility scores)
  else if Py.any_in ["international"; "global"; "world"] name_lower
  then mkScores (academic scores) (graduate scores) (roi scores) (fsr scores)
                (transparency scores + 1) (visibility scores + 1)
  else scores.

(** The offset of the [i]-th key: four bits of the hash, mapped to
    [-3, 3]. *)
Definition variation (hash_int : Z) (i : Z) : Q :=
  let hash_part := Z.land (Z.shiftr hash_int (i * 4)) 0xF%Z in
  (inject_Z hash_part / 15 * 6 - 3)%Q.

Definition _add_meaningful_variation (name_lower : string) (scores : Scores) : Scores :=
  let hash_int := Hashlib.hexdigest8_int (Hashlib.encode name_lower) in
  mkScores (academic scores + variation hash_int 0 * 1.5)
           (graduate scores + variation hash_int 1 * 1.5)
           (roi scores + variation hash_int 2)
           (fsr scores + variation hash_int 3)
           (transparency scores + variation hash_int 4 * 0.5)
           (visibility scores + variation hash_int 5 * 0.5).

Definition _ensure_score_bounds (scores : Scores) : Scores :=
  mkScores (Py.max 0 (Py.min (academic parameters_max) (academic scores)))
           (Py.max 0 (Py.min (graduate parameters_max) (graduate scores)))
           (Py.max 0 (Py.min (roi parameters_max) (roi scores)))
           (Py.max 0 (Py.min (fsr parameters_max) (fsr scores)))
           (Py.max 0 (Py.min (transparency parameters_max) (transparency scores)))
           (Py.max 0 (Py.min (visibility parameters_max) (visibility scores))).

(** The country multiplier on the four keys of the loop. *)
Definition apply_country_multiplier (country_mult : Q) (scores : Scores) : Scores :=
  mkScores (Py.min (academic parameters_max) (academic scores * country_mult))
           (Py.min (graduate parameters_max) (graduate scores * country_mult))
           (Py.min (roi parameters_max) (roi scores * country_mult))
           (Py.min (fsr parameters_max) (fsr scores * country_mult))
           (transparency scores)
           (visibility scores).

Definition estimate_scores (name country : string) : Scores :=
  let name_lower := Py.lower name in
  let country_upper :=
    if Py.truthy country then Py.strip (Py.upper country) else "GLOBAL" in
  let base_scores := _get_base_scores_by_type name_lower in
  let country_mult := _get_country_multiplier country_upper in
  let adjusted_scores := _apply_name_pattern_adjustments name_lower base_scores in
  let adjusted_scores := apply_country_multiplier country_mult adjusted_scores in
  let varied_scores := _add_meaningful_variation name_lower adjusted_scores in
  let final_scores := _ensure_score_bounds varied_scores in
  map_scores Py.round1 final_scores.

(** [sum(scores.values())] *)
Definition sum_scores (s : Scores) : Q :=
  0 + academic s + graduate s + roi s + fsr s + transparency s + visibility s.

Definition calculate_composite_score (scores : Scores) : Q :=
  Py.round1 (sum_scores scores).

(** The loop of [get_tier] over the items of [self.tiers]. *)
Fixpoint first_band (bands : list (tier * (Q * Q * string))) (score : Q)
  : option (tier * string) :=
  match bands with
  | [] => None
  | (t, (low, high, description)) :: r =>
      if Qle_bool low score && Qle_bool score high
      then Some (t, description)
      else first_band r score
  end.

Definition get_tier (score : Q) : tier * string :=
  match first_band tiers score with
  | Some r => r
  | None => (D, "POOR")
  end.

Definition calculate_error_margin (university_name country : string)
    (data_sources_used : list string) : M Q :=
  let name_lower := Py.lower university_name in
  match Py.assoc name_lower university_db with
  | Some _ =>
      u ← np_random_uniform 1 3;
      mret (Py.round1 u)
  | None =>
      let base_error : Q := if Py.mem "wikipedia" data_sources_used then 5 else 10 in
      let base_error :=
        if (2 <=? Z.of_nat (length data_sources_used))%Z then base_error * 0.7
        else base_error in
      let base_error :=
        if Py.truthy country
        then base_error / default 1 (Py.assoc (Py.upper country) country_multipliers)
        else base_error in
      let base_error :=
        if Py.contains "university" name_lower then base_error * 0.9
        else if Py.contains "college" name_lower then base_error * 1.1
        else base_error in
      u ← np_random_uniform (-2) 2;
      mret (Py.round1 (Py.min 15 (Py.max 3 (base_error + u))))
  end.

(** *** [class EnhancedUniversityRankingSystem] *)

Definition qs_rankings : list (string * Z) := load_qs_rankings.
Definition the_rankings : list (string * Z) := load_the_rankings.

Definition cache_key (university_name country : string) : string :=
  Py.lower university_name +:+ "_" +:+ Py.lower country.

(** [bool(d)] of a dict *)
Definition dict_truthy (d : gmap string value) : bool :=
  negb (Nat.eqb (size d) 0).

Definition fetch_real_data (university_name country : string)
    (uid : option string) (user_config : option UserConfiguration)
  : M (gmap string value * list rate_info) :=
  let cache_key := cache_key university_name country in
  cache ← get real_data_cache;
  match cache !! cache_key with
  | Some (cached_data, cached_rate_info) =>
      let rate_info := match cached_rate_info with [] => [] | l => l end in
      now ← datetime_now;
      mret (cached_data, (rate_info ++ [CacheHit (str_datetime now)])%list)
  | None =>
      '(all_data, rate_limit_info) ←
        fetch_all_data university_name country uid user_config;
      let name_lower := Py.lower university_name in
      let '(all_data, rate_limit_info) :=
        match Py.assoc name_lower qs_rankings with
        | Some rank =>
            (<["qs_ranking" := VRanking rank]> all_data,
             (rate_limit_info ++ [Internal "qs_rankings"])%list)
        | None => (all_data, rate_limit_info)
        end in
      let '(all_data, rate_limit_info) :=
        match Py.assoc name_lower the_rankings with
        | Some rank =>
            (<["the_ranking" := VRanking rank]> all_data,
             (rate_limit_info ++ [Internal "the_rankings"])%list)
        | None => (all_data, rate_limit_info)
        end in
      (* Cache the results (only if we got some data) *)
      (if dict_truthy all_data
       then modify (fun w =>
              set_real_data_cache
                (<[cache_key := (all_data, rate_limit_info)]> (real_data_cache w)) w)
       else mret tt);;
      mret (all_data, rate_limit_info)
  end.

(** [sum(1 for keyword in keywords if keyword in summary)] *)
Definition count_keywords (keywords : list string) (summary : string) : Z :=
  Z.of_nat (length (List.filter (fun keyword => Py.contains keyword summary) keywords)).

Definition calculate_scores_from_real_data (university_name country : string)
    (real_data : gmap string value) : Scores :=
  let scores := mkScores 12 15 14 11 7 3 in
  let scores :=
    match real_data !! "qs_ranking" with
    | Some (VRanking qs_rank) =>
        if (qs_rank <=? 10)%Z then
          mkScores 25 24 (roi scores) (fsr scores) (transparency scores) 5
        else if (qs_rank <=? 50)%Z then
          mkScores 22 21 (roi scores) (fsr scores) (transparency scores) 4.5
        else if (qs_rank <=? 100)%Z then
          mkScores 20 19 (roi scores) (fsr scores) (transparency scores) 4
        else if (qs_rank <=? 200)%Z then
          mkScores 18 17 (roi scores) (fsr scores) (transparency scores) 3.5
        else scores
    | _ => scores
    end in
  let scores :=
    match real_data !! "the_ranking" with
    | Some (VRanking the_rank) =>
        if (the_rank <=? 10)%Z then
          mkScores (Py.max (academic scores) 24) (graduate scores) (roi scores)
                   (fsr scores) (Py.max (transparency scores) 9) (visibility scores)
        else if (the_rank <=? 100)%Z then
          mkScores (Py.max (academic scores) (academic scores * 1.1)) (graduate scores)
                   (roi scores) (fsr scores) (transparency scores) (visibility scores)
        else scores
    | _ => scores
    end in
  let scores :=
    match real_data !! "wikipedia" with
    | Some (VWikipedia wiki_data) =>
        let summary := Py.lower (wd_summary wiki_data) in
        let research_count :=
          count_keywords ["research"; "publication"; "citation"; "nobel"; "faculty"]
                         summary in
        let scores :=
          if (3 <=? research_count)%Z then
            mkScores (Py.min 25 (academic scores + 3)) (graduate scores) (roi scores)
                     (fsr scores) (transparency scores) (visibility scores)
          else scores in
        let employ_count :=
          count_keywords ["employment"; "graduate"; "career"; "salary"; "placement"]
                         summary in
        if (2 <=? employ_count)%Z then
          mkScores (academic scores) (Py.min 25 (graduate scores + 2)) (roi scores)
                   (fsr scores) (transparency scores) (visibility scores)
        else scores
    | _ => scores
    end in
  let scores :=
    if Py.truthy country then
      let country_mult := default 1 (Py.assoc (Py.upper country) country_multipliers) in
      apply_country_multiplier country_mult scores
    else scores in
  let scores :=
    match classify_university_type university_name with
    | RESEARCH_UNIVERSITY =>
        mkScores (Py.min 25 (academic scores + 3)) (graduate scores) (roi scores)
                 (fsr scores) (transparency scores) (visibility scores)
    | COLLEGE_POLYTECHNIC =>
        mkScores (academic scores) (Py.min 25 (graduate scores + 2))
                 (Py.min 20 (roi scores + 2)) (fsr scores) (transparency scores)
                 (visibility scores)
    | _ => scores
    end in
  map_scores Py.round1 scores.

(** [@dataclass UniversityData], without the rationale and citation
    texts. *)
Record UniversityData := {
  ud_name : string;
  ud_country : string;
  ud_type : uni_type;
  ud_scores : Scores;
  ud_composite : Q;
  ud_tier : tier;
  ud_error_margin : Q;
  ud_timestamp : string;
  ud_is_estimated : bool;
  ud_rate_limit_info : list rate_info;
  ud_data_sources_used : list string
}.

(** [real_data.get('data_sources_used', []) if real_data else []] *)
Definition sources_of (real_data : gmap string value) : list string :=
  match real_data !! "data_sources_used" with
  | Some (VSources l) => l
  | _ => []
  end.

(** The choice of the scoring path in [rank_university]: the scores, the
    country and [is_estimated]. *)
Definition choose_scores (university_name country : string)
    (real_data : gmap string value) : Scores * string * bool :=
  let name_lower := Py.lower university_name in
  let data_sources_used := sources_of real_data in
  let has_real_data :=
    dict_truthy real_data && match data_sources_used with [] => false | _ => true end in
  if has_real_data then
    (calculate_scores_from_real_data university_name country real_data, country, false)
  else
    match Py.assoc name_lower university_db with
    | Some data => (db_scores data, db_country data, false)
    | None => (estimate_scores university_name country, country, true)
    end.

Definition rank_university (university_name country : string)
    (uid : option string) (user_config : option UserConfiguration)
  : M UniversityData :=
  user_config ←
    match user_config with
    | None => UserConfiguration_init uid
    | Some c => mret c
    end;
  '(real_data, rate_limit_info) ←
    fetch_real_data university_name country uid (Some user_config);
  let data_sources_used := sources_of real_data in
  let '(scores, country, is_estimated) :=
    choose_scores university_name country real_data in
  let composite := calculate_composite_score scores in
  let '(tier, tier_desc) := get_tier composite in
  error_margin ← calculate_error_margin university_name country data_sources_used;
  let error_margin :=
    match data_sources_used with
    | [] => error_margin
    | _ => Py.max 1 (error_margin * 0.7)
    end in
  now ← datetime_now;
  mret {| ud_name := university_name;
          ud_country := country;
          ud_type := classify_university_type university_name;
          ud_scores := scores;
          ud_composite := composite;
          ud_tier := tier;
          ud_error_margin := error_margin;
          ud_timestamp := str_datetime now;
          ud_is_estimated := is_estimated;
          ud_rate_limit_info := rate_limit_info;
          ud_data_sources_used := data_sources_used |}.

End UniRank.

(** ** [pkWAUniRankBot.py]: where it differs from [pkUniRankBot.py]

  The rate limiter, the fetchers, [fetch_real_data], [get_tier], the
  real-data scoring and [calculate_error_margin] of this file are written
  as in [pkUniRankBot.py] (without [GOVERNMENT_API], without the status
  entries of [fetch_all_data], and over the tables below); its heuristic
  estimation is its own. *)
Module WA.
Import UniRank.
Local Open Scope Q_scope.

Definition country_multipliers : list (string * Q) :=
  [ ("USA", 1.2); ("UK", 1.15); ("Canada", 1.1); ("Australia", 1.1);
    ("Germany", 1.1); ("Switzerland", 1.15); ("Singapore", 1.1);
    ("Japan", 1.05); ("Netherlands", 1.05); ("Sweden", 1.05);
    ("France", 1.0); ("Italy", 0.95); ("Spain", 0.95);
    ("China", 0.9); ("India", 0.85); ("Brazil", 0.85);
    ("Russia", 0.85); ("South Africa", 0.85);
    ("Ireland", 1.0); ("NewZealand", 1.0); ("New Zealand", 1.0) ].

Definition university_db : list (string * db_entry) :=
  [
    ("bryant university",
     {| db_country := "USA"; db_type := TEACHING_UNIVERSITY;
        db_scores := mkScores 12 22 16 13 8 3 |});
    ("massachusetts institute of technology",
     {| db_country := "USA"; db_type := RESEARCH_UNIVERSITY;
        db_scores := mkScores 24 23 22 14 9 5 |});
    ("harvard university",
     {| db_country := "USA"; db_type := RESEARCH_UNIVERSITY;
        db_scores := mkScores 25 24 20 13 10 5 |});
    ("stanford university",
     {| db_country := "USA"; db_type := RESEARCH_UNIVERSITY;
        db_scores := mkScores 24 23 21 14 9 5 |});
    ("university of toronto",
     {| db_country := "Canada"; db_type := RESEARCH_UNIVERSITY;
        db_scores := mkScores 22 21 18 13 9 4 |});
    ("university of oxford",
     {| db_country := "UK"; db_type := RESEARCH_UNIVERSITY;
        db_scores := mkScores 25 24 19 14 10 5 |});
    ("conestoga college",
     {| db_country := "Canada"; db_type := COLLEGE_POLYTECHNIC;
        db_scores := mkScores 4 20 17.5 12.5 6.5 3.5 |});
    ("algonquin college",
     {| db_country := "Canada"; db_type := COLLEGE_POLYTECHNIC;
        db_scores := mkScores 3.5 19 17 12 6 3 |});
    ("north dakota state university",
     {| db_country := "USA"; db_type := RESEARCH_UNIVERSITY;
        db_scores := mkScores 15.6 15 16.1 11 9 4 |});
    ("university of tokyo",
     {| db_country := "Japan"; db_type := RESEARCH_UNIVERSITY;
        db_scores := mkScores 23 21 18 13 8 4 |});
    ("university of sydney",
     {| db_country := "Australia"; db_type := RESEARCH_UNIVERSITY;
        db_scores := mkScores 21 20 17 12 8 4 |})
  ].

(** The scores after the name patterns. *)
Definition name_pattern_scores (name_lower : string) : Scores :=
  let scores := mkScores 12 15 14 11 7 3 in
  if Py.contains "mit" name_lower || Py.contains "massachusetts institute" name_lower
  then mkScores 24 23 22 14 9 5
  else if Py.contains "harvard" name_lower
  then mkScores 25 24 20 13 10 5
  else if Py.contains "stanford" name_lower
  then mkScores 24 23 21 14 9 5
  else if Py.contains "oxford" name_lower || Py.contains "cambridge" name_lower
  then mkScores 25 24 19 14 10 5
  else if Py.contains "university" name_lower && Py.contains "state" name_lower
  then mkScores 15 (graduate scores) 16 (fsr scores) 9 4
  else if Py.contains "university" name_lower
  then mkScores 18 (graduate scores) (roi scores) (fsr scores) 8 4
  else if Py.contains "college" name_lower
  then mkScores 8 17 16 12 (transparency scores) (visibility scores)
  else scores.

(** One turn of the loop that adds the estimation error. *)
Definition perturb (max_score : Q) (wide : bool) (score : Q) : M Q :=
  variation ← (if wide then np_random_uniform (-2) 2
               else np_random_uniform (-0.5) 0.5);
  mret (Py.max 0 (Py.min max_score (score + variation))).

Definition estimate_scores (name country : string) : M Scores :=
  let name_lower := Py.lower name in
  let country_upper := if Py.truthy country then Py.upper country else "GLOBAL" in
  let scores := name_pattern_scores name_lower in
  let scores :=
    if negb (String.eqb country_upper "GLOBAL") then
      let country_mult := default 1 (Py.assoc country_upper country_multipliers) in
      apply_country_multiplier country_mult scores
    else scores in
  a ← perturb (academic parameters_max) true (academic scores);
  g ← perturb (graduate parameters_max) true (graduate scores);
  r ← perturb (roi parameters_max) true (roi scores);
  f ← perturb (fsr parameters_max) true (fsr scores);
  t ← perturb (transparency parameters_max) false (transparency scores);
  v ← perturb (visibility parameters_max) false (visibility scores);
  mret (map_scores Py.round1 (mkScores a g r f t v)).

End WA.

(** ** Concrete worlds, for the examples *)
Module Scenario.
Import UniRank.

(** A clock that starts on 2026-01-01 and gains a millisecond at each
    reading. *)
Definition new_year : Z := 1767225600000000.
Definition ticking (n : nat) : Z := Z.of_N (N.of_nat n * 1000 + Z.to_N new_year).

(** No page is found, no host answers, every draw is one half, nothing
    has been called or cached. *)
Definition quiet : World :=
  {| clock := ticking; reads := 0;
     wikipedia_site := fun _ _ _ => PageError;
     web := fun _ _ => RequestFailure "ConnectionError";
     requests := [];
     rng := fun _ => 1 # 2; draws := 0;
     calls := fun _ => []; recorded := [];
     real_data_cache := ∅ |}.

Definition with_calls (a : APIType) (l : list Z) (w : World) : World :=
  set_calls (update_calls a l (calls w)) w.

Definition with_wikipedia (site : nat -> string -> bool -> wiki_result) (w : World)
  : World :=
  {| clock := clock w; reads := reads w; wikipedia_site := site;
     web := web w; requests := requests w; rng := rng w; draws := draws w;
     calls := calls w; recorded := recorded w;
     real_data_cache := real_data_cache w |}.

Definition with_rng (r : nat -> Q) (w : World) : World :=
  {| clock := clock w; reads := reads w; wikipedia_site := wikipedia_site w;
     web := web w; requests := requests w; rng := r; draws := draws w;
     calls := calls w; recorded := recorded w;
     real_data_cache := real_data_cache w |}.

(** [n] calls, one per second, the last one a second before the clock
    starts. *)
Definition recent_calls (n : nat) : list Z :=
  List.map (fun i => new_year - timedelta_seconds (Z.of_nat (n - i))) (List.seq 0 n).

Definition user (wikipedia google webometrics : bool) : UserConfiguration :=
  {| user_id := Some "user"; enable_wikipedia := wikipedia;
     enable_google_search := google; enable_webometrics := webometrics;
     timestamp := new_year |}.

(** A site that has one page, whatever the title. *)
Definition one_page : WikipediaPage :=
  {| page_summary := "A public research university with a large faculty.";
     page_url := "https://en.wikipedia.org/wiki/Example";
     page_categories := ["Universities"];
     page_content := "History" |}.

(** Draws that change after the sixth. *)
Definition two_phase (n : nat) : Q := if (n <? 6)%nat then 1 # 4 else 3 # 4.

(** The quiet world, with that page on the site. *)
Definition library : World :=
  with_wikipedia (fun _ _ _ => PageFound one_page) quiet.

(** The value returned, when there is one. *)
Definition returned {A : Type} (dflt : A) (r : outcome A * World) : A :=
  match fst r with
  | Return a => a
  | Raise _ => dflt
  end.

End Scenario.


(** ** Vocabulary of the properties *)
Module Vocabulary.
Import UniRank.

(** What no fetcher touches: the cache, the generator and the
    environment. *)
Definition same_env (w w' : World) : Prop :=
  real_data_cache w' = real_data_cache w
  /\ rng w' = rng w /\ draws w' = draws w
  /\ clock w' = clock w /\ wikipedia_site w' = wikipedia_site w /\ web w' = web w.

(** [ensures m P]: from any world, [m] ends in an outcome that satisfies
    [P] and leaves the environment as it was. *)
Definition ensures {A : Type} (m : M A) (P : outcome A -> Prop) : Prop :=
  forall w, P (fst (m w)) /\ same_env w (snd (m w)).

Definition anything {A : Type} (o : outcome A) : Prop := True.

Definition returns {A : Type} (o : outcome A) : Prop :=
  exists a, o = Return a.

Definition returns_or_limited {A : Type} (o : outcome A) : Prop :=
  (exists a, o = Return a) \/ (exists e, o = Raise (RateLimitExceeded e)).

(** The locals of [fetch_all_data] hold data only from the sources they
    list. *)
Definition sources_listed (s : fetch_state) : Prop :=
  data_sources_used s = [] -> all_data s = ∅.

(** The payload and the rate information of [fetch_real_data] after the
    two merges from the static tables. *)
Definition merged (name_lower : string) (data : gmap string value) : gmap string value :=
  let data :=
    match Py.assoc name_lower qs_rankings with
    | Some rank => <["qs_ranking" := VRanking rank]> data
    | None => data
    end in
  match Py.assoc name_lower the_rankings with
  | Some rank => <["the_ranking" := VRanking rank]> data
  | None => data
  end.

Definition merged_info (name_lower : string) (info : list rate_info) : list rate_info :=
  let info :=
    match Py.assoc name_lower qs_rankings with
    | Some _ => info ++ [Internal "qs_rankings"]
    | None => info
    end in
  match Py.assoc name_lower the_rankings with
  | Some _ => info ++ [Internal "the_rankings"]
  | None => info
  end.

(** Every field of a score vector is between 0 and its maximum. *)
Definition in_bounds (s : Scores) : Prop :=
  (0 <= academic s <= academic parameters_max
   /\ 0 <= graduate s <= graduate parameters_max
   /\ 0 <= roi s <= roi parameters_max
   /\ 0 <= fsr s <= fsr parameters_max
   /\ 0 <= transparency s <= transparency parameters_max
   /\ 0 <= visibility s <= visibility parameters_max)%Q.

(** The lowering of the error margin at the end of [rank_university]. *)
Definition lowered (data_sources_used : list string) (error_margin : Q) : Q :=
  match data_sources_used with
  | [] => error_margin
  | _ => Py.max 1 (error_margin * 0.7)
  end.

End Vocabulary.

(** ** [pkUniRankBot.py]: more of the rate limiter, the user
    configurations and the formatting of durations *)
Module UniRankMore.
Import UniRank.

(** *** [RateLimiter.get_next_reset_time] *)
Definition get_next_reset_time (a : APIType) : M (option Z) :=
  let limits := limits a in
  recent_calls ← get_recent_calls a 1;
  if requests_per_minute limits <=? recent_calls then
    reset_time ← get_reset_time limits "minute";
    mret (Some reset_time)
  else
  hourly_calls ← get_hourly_calls a;
  if requests_per_hour limits <=? hourly_calls then
    reset_time ← get_reset_time limits "hour";
    mret (Some reset_time)
  else
  daily_calls ← get_daily_calls a;
  if requests_per_day limits <=? daily_calls then
    reset_time ← get_reset_time limits "day";
    mret (Some reset_time)
  else mret None.

(** *** [UserConfiguration.update_source] and [get_enabled_sources] *)
Definition update_source (self : UserConfiguration) (source : string) (enabled : bool)
  : M UserConfiguration :=
  let self :=
    if String.eqb source "wikipedia" then
      {| user_id := user_id self; enable_wikipedia := enabled;
         enable_google_search := enable_google_search self;
         enable_webometrics := enable_webometrics self;
         timestamp := timestamp self |}
    else if String.eqb source "google_search" then
      {| user_id := user_id self; enable_wikipedia := enable_wikipedia self;
         enable_google_search := enabled;
         enable_webometrics := enable_webometrics self;
         timestamp := timestamp self |}
    else if String.eqb source "webometrics" then
      {| user_id := user_id self; enable_wikipedia := enable_wikipedia self;
         enable_google_search := enable_google_search self;
         enable_webometrics := enabled;
         timestamp := timestamp self |}
    else self in
  now ← datetime_now;
  mret {| user_id := user_id self; enable_wikipedia := enable_wikipedia self;
          enable_google_search := enable_google_search self;
          enable_webometrics := enable_webometrics self;
          timestamp := now |}.

Definition get_enabled_sources (self : UserConfiguration) : list string :=
  let sources := [] in
  let sources := if enable_wikipedia self then sources ++ ["wikipedia"] else sources in
  let sources :=
    if enable_google_search self then sources ++ ["google_search"] else sources in
  let sources := if enable_webometrics self then sources ++ ["webometrics"] else sources in
  sources.

(** *** [EnhancedUniRankBot.get_user_config] and [update_user_config]

    [self.user_configurations] is passed in and returned; the configuration
    that [update_source] changes is the object held in the dict, so the
    dict holds the changed configuration afterwards. *)
Definition get_user_config (user_configurations : gmap string UserConfiguration)
    (uid : string) : M (UserConfiguration * gmap string UserConfiguration) :=
  match user_configurations !! uid with
  | None =>
      config ← UserConfiguration_init (Some uid);
      mret (config, <[uid := config]> user_configurations)
  | Some config => mret (config, user_configurations)
  end.

Definition update_user_config (user_configurations : gmap string UserConfiguration)
    (uid source : string) (enabled : bool)
  : M (UserConfiguration * gmap string UserConfiguration) :=
  '(config, user_configurations) ← get_user_config user_configurations uid;
  config ← update_source config source enabled;
  mret (config, <[uid := config]> user_configurations).

(** *** [ProgressTracker._format_time], which is also
    [ExcelProcessingThread.format_time] *)

(** [int(x)] for a number: towards zero. *)
Definition int_of (x : Q) : Z := if Qle_bool 0 x then Qfloor x else Qceiling x.

(** [x % m] for numbers, [m] positive. *)
Definition fmod (x : Q) (m : Z) : Q := (x - inject_Z (m * Qfloor (x / inject_Z m)))%Q.

Definition _format_time (seconds : Q) : string :=
  if Py.Qltb seconds 60 then
    pretty (int_of seconds) +:+ " seconds"
  else if Py.Qltb seconds 3600 then
    let minutes := int_of (seconds / 60) in
    let seconds := int_of (fmod seconds 60) in
    pretty minutes +:+ "m " +:+ pretty seconds +:+ "s"
  else
    let hours := int_of (seconds / 3600) in
    let minutes := int_of (fmod seconds 3600 / 60) in
    pretty hours +:+ "h " +:+ pretty minutes +:+ "m".

End UniRankMore.

(** ** [rank.py]: the rest of [FixedTierRankingSystem] *)
Module RankMore.
Import UniRank.
Local Open Scope Q_scope.

Definition parameter_names : list string :=
  ["academic"; "graduate"; "roi"; "fsr"; "transparency"; "visibility"].

(** An entry of [self.institution_data]: the six scores under their keys,
    the type and the composite. *)
Record institution := {
  inst_scores : gmap string Q;
  inst_type : uni_type;
  inst_composite : Q
}.

(** A dict with the six keys. *)
Definition scores_dict (a g r f t v : Q) : gmap string Q :=
  {[ "academic" := a; "graduate" := g; "roi" := r; "fsr" := f;
     "transparency" := t; "visibility" := v ]}.

(** [self.institution_data] *)
Definition institution_data : list (string * institution) :=
  [ ("north dakota state university",
     {| inst_scores := scores_dict 15.6 15.0 16.1 11.0 9.0 4.0;
        inst_type := RESEARCH_UNIVERSITY; inst_composite := 70.7 |});
    ("bryant university",
     {| inst_scores := scores_dict 12 22 16 13 8 3;
        inst_type := TEACHING_UNIVERSITY; inst_composite := 74 |});
    ("massachusetts institute of technology",
     {| inst_scores := scores_dict 24 23 22 14 9 5;
        inst_type := RESEARCH_UNIVERSITY; inst_composite := 97 |});
    ("harvard university",
     {| inst_scores := scores_dict 25 24 20 13 10 5;
        inst_type := RESEARCH_UNIVERSITY; inst_composite := 97 |}) ].

(** The loop of [calculate_composite_score]: [total += scores.get(param, 0)]. *)
Fixpoint total_of (params : list string) (scores : gmap string Q) (total : Q) : Q :=
  match params with
  | [] => total
  | param :: rest => total_of rest scores (total + default 0 (scores !! param))
  end.

Definition calculate_composite_score (scores : gmap string Q) : Q :=
  Py.round1 (total_of parameter_names scores 0).

(** [institution_type.replace('_', ' ').title()] *)
Definition type_title (t : uni_type) : string :=
  match t with
  | RESEARCH_UNIVERSITY => "Research University"
  | TEACHING_UNIVERSITY => "Teaching University"
  | APPLIED_UNIVERSITY => "Applied University"
  | COLLEGE_POLYTECHNIC => "College Polytechnic"
  | SPECIALIST_SCHOOL => "Specialist School"
  end.

(** The dict returned by [rank_institution]. *)
Record results := {
  res_institution : string;
  res_country : string;
  res_type : string;
  res_scores : gmap string Q;
  res_composite : Q;
  res_tier : tier;
  res_timestamp : string
}.

Definition rank_institution (institution_name country : string) : M results :=
  let name_lower := Py.lower institution_name in
  '(scores, composite, institution_type) ←
    match Py.assoc name_lower institution_data with
    | Some data =>
        (* scores = {k: data[k] for k in [...]} *)
        mret (inst_scores data, inst_composite data, inst_type data)
    | None =>
        a ← np_random_uniform 10 20;
        g ← np_random_uniform 12 22;
        r ← np_random_uniform 12 18;
        f ← np_random_uniform 10 14;
        t ← np_random_uniform 7 10;
        v ← np_random_uniform 3 5;
        let scores :=
          scores_dict (Py.round1 a) (Py.round1 g) (Py.round1 r)
                      (Py.round1 f) (Py.round1 t) (Py.round1 v) in
        mret (scores, calculate_composite_score scores, TEACHING_UNIVERSITY)
    end;
  let tier := Rank.get_tier composite in
  now ← datetime_now;
  mret {| res_institution := institution_name;
          res_country := if Py.truthy country then country else "Unknown";
          res_type := type_title institution_type;
          res_scores := scores;
          res_composite := composite;
          res_tier := tier;
          res_timestamp := str_datetime now |}.

End RankMore.

(** ** [pkWAUniRankBot.py]: the conversation states of the bot *)
Module WAMore.
Import UniRank.

(** A value of [self.user_states]: the state name and its data. *)
Record user_state := {
  state : string;
  data : gmap string string
}.

Definition get_user_state (user_states : gmap string user_state) (uid : string)
  : user_state * gmap string user_state :=
  match user_states !! uid with
  | None =>
      let fresh := {| state := "idle"; data := ∅ |} in
      (fresh, <[uid := fresh]> user_states)
  | Some s => (s, user_states)
  end.

(** [data or {}]: [None] and the empty dict both give the empty dict. *)
Definition set_user_state (user_states : gmap string user_state) (uid st : string)
    (d : option (gmap string string)) : gmap string user_state :=
  <[uid := {| state := st; data := default ∅ d |}]> user_states.

Definition clear_user_state (user_states : gmap string user_state) (uid : string)
  : gmap string user_state :=
  match user_states !! uid with
  | Some _ => delete uid user_states
  | None => user_states
  end.

End WAMore.

(** ** More vocabulary of the properties *)
Module Harness.
Import UniRank.

(** [n] calls of [record_call], one after the other. *)
Fixpoint record_n (a : APIType) (n : nat) : M unit :=
  match n with
  | O => mret tt
  | S k => record_call a;; record_n a k
  end.

(** From [w] to [w'], calls were recorded of the interfaces in [P] only,
    the call logs of the other interfaces are as they were, and requests
    were sent of the kinds in [R] only. *)
Definition within (P : APIType -> Prop) (R : request -> Prop) (w w' : World) : Prop :=
  (exists l, recorded w' = recorded w ++ l /\ Forall P l)
  /\ (exists rs, requests w' = requests w ++ rs /\ Forall R rs)
  /\ (forall a, ~ P a -> calls w' a = calls w a).

Definition touches_only {A : Type} (P : APIType -> Prop) (R : request -> Prop)
    (m : M A) : Prop :=
  forall w, within P R w (snd (m w)).

(** The configuration that [fetch_all_data] works with: the one given, or
    the default one. *)
Definition enabled (user_config : option UserConfiguration) : bool * bool * bool :=
  match user_config with
  | Some c => (enable_wikipedia c, enable_google_search c, enable_webometrics c)
  | None => (true, false, false)
  end.

(** The interface behind a source that is enabled. *)
Definition enabled_api (flags : bool * bool * bool) (a : APIType) : Prop :=
  let '(wikipedia, google, webometrics) := flags in
  (a = WIKIPEDIA /\ wikipedia = true)
  \/ (a = GOOGLE_SEARCH /\ google = true)
  \/ (a = WEBOMETRICS /\ webometrics = true).

(** A request to the site of a source that is enabled. *)
Definition enabled_request (flags : bool * bool * bool) (r : request) : Prop :=
  let '(wikipedia, google, webometrics) := flags in
  match r with
  | WikipediaPageCall _ _ => wikipedia = true
  | HttpGet url =>
      (google = true /\ Py.startswith url "https://www.google.com/search?q=" = true)
      \/ (webometrics = true
          /\ Py.startswith url "https://www.webometrics.info/en/search/site/" = true)
  end.

(** The name of a source that is enabled. *)
Definition enabled_source (flags : bool * bool * bool) (source : string) : Prop :=
  let '(wikipedia, google, webometrics) := flags in
  (source = "wikipedia" /\ wikipedia = true)
  \/ (source = "google_search" /\ google = true)
  \/ (source = "webometrics" /\ webometrics = true).

(** The locals of [fetch_all_data]: the keys of [all_data] are the sources
    listed, which are enabled and come in the order of [order]. *)
Definition tagged (flags : bool * bool * bool) (order : list string) (s : fetch_state)
  : Prop :=
  (forall k, is_Some (all_data s !! k) <-> In k (data_sources_used s))
  /\ sublist (data_sources_used s) order
  /\ Forall (enabled_source flags) (data_sources_used s).

(** What [safe_fetch_wikipedia] returns when it returns data. *)
Definition wikipedia_payload (d : gmap string value) : Prop :=
  exists data,
    d = {[ "wikipedia" := VWikipedia data ]}
    /\ (String.length (wd_summary data) <= 500)%nat
    /\ match wd_rankings data with
       | Some lines =>
           (length lines <= 5)%nat
           /\ Forall (fun line => (String.length line <= 200)%nat) lines
       | None => True
       end.

(** [any(c.islower() for c in s)] over ASCII letters. *)
Fixpoint has_lower (s : string) : bool :=
  match s with
  | EmptyString => false
  | String c r => Py.is_lower c || has_lower r
  end.

End Harness.

(** ** The steps of [calculate_scores_from_real_data] *)
Module Stages.
Import UniRank.
Local Open Scope Q_scope.

(** The successive values of [scores] in
    [calculate_scores_from_real_data], each as a function of the one
    before. *)
Definition qs_stage (real_data : gmap string value) (scores : Scores) : Scores :=
  match real_data !! "qs_ranking" with
  | Some (VRanking qs_rank) =>
      if (qs_rank <=? 10)%Z then
        mkScores 25 24 (roi scores) (fsr scores) (transparency scores) 5
      else if (qs_rank <=? 50)%Z then
        mkScores 22 21 (roi scores) (fsr scores) (transparency scores) 4.5
      else if (qs_rank <=? 100)%Z then
        mkScores 20 19 (roi scores) (fsr scores) (transparency scores) 4
      else if (qs_rank <=? 200)%Z then
        mkScores 18 17 (roi scores) (fsr scores) (transparency scores) 3.5
      else scores
  | _ => scores
  end.

Definition the_stage (real_data : gmap string value) (scores : Scores) : Scores :=
  match real_data !! "the_ranking" with
  | Some (VRanking the_rank) =>
      if (the_rank <=? 10)%Z then
        mkScores (Py.max (academic scores) 24) (graduate scores) (roi scores)
                 (fsr scores) (Py.max (transparency scores) 9) (visibility scores)
      else if (the_rank <=? 100)%Z then
        mkScores (Py.max (academic scores) (academic scores * 1.1)) (graduate scores)
                 (roi scores) (fsr scores) (transparency scores) (visibility scores)
      else scores
  | _ => scores
  end.

Definition wikipedia_stage (real_data : gmap string value) (scores : Scores) : Scores :=
  match real_data !! "wikipedia" with
  | Some (VWikipedia wiki_data) =>
      let summary := Py.lower (wd_summary wiki_data) in
      let research_count :=
        count_keywords ["research"; "publication"; "citation"; "nobel"; "faculty"]
                       summary in
      let scores :=
        if (3 <=? research_count)%Z then
          mkScores (Py.min 25 (academic scores + 3)) (graduate scores) (roi scores)
                   (fsr scores) (transparency scores) (visibility scores)
        else scores in
      let employ_count :=
        count_keywords ["employment"; "graduate"; "career"; "salary"; "placement"]
                       summary in
      if (2 <=? employ_count)%Z then
        mkScores (academic scores) (Py.min 25 (graduate scores + 2)) (roi scores)
                 (fsr scores) (transparency scores) (visibility scores)
      else scores
  | _ => scores
  end.

Definition country_stage (country : string) (scores : Scores) : Scores :=
  if Py.truthy country then
    let country_mult := default 1 (Py.assoc (Py.upper country) country_multipliers) in
    apply_country_multiplier country_mult scores
  else scores.

Definition type_stage (university_name : string) (scores : Scores) : Scores :=
  match classify_university_type university_name with
  | RESEARCH_UNIVERSITY =>
      mkScores (Py.min 25 (academic scores + 3)) (graduate scores) (roi scores)
               (fsr scores) (transparency scores) (visibility scores)
  | COLLEGE_POLYTECHNIC =>
      mkScores (academic scores) (Py.min 25 (graduate scores + 2))
               (Py.min 20 (roi scores + 2)) (fsr scores) (transparency scores)
               (visibility scores)
  | _ => scores
  end.

End Stages.

(** * Properties *)

Import UniRank Vocabulary.

(** ** The MD5 model agrees with the published test vectors *)
Example md5_empty :
Hashlib.md5 (Hashlib.encode "")
= [0xd4; 0x1d; 0x8c; 0xd9; 0x8f; 0x00; 0xb2; 0x04;
   0xe9; 0x80; 0x09; 0x98; 0xec; 0xf8; 0x42; 0x7e].
Proof. vm_compute. reflexivity. Qed.

Example md5_abc :
Hashlib.md5 (Hashlib.encode "abc")
= [0x90; 0x01; 0x50; 0x98; 0x3c; 0xd2; 0x4f; 0xb0;
   0xd6; 0x96; 0x3f; 0x7d; 0x28; 0xe1; 0x7f; 0x72].
Proof. vm_compute. reflexivity. Qed.

Example md5_two_blocks :
Hashlib.hexdigest8_int (List.repeat 120 64) = 0xc1bb4f81.
Proof. vm_compute. reflexivity. Qed.

(** ** Tier classification *)
Section Tiers.
Local Open Scope Q_scope.

Lemma Qle_bool_false (x y : Q) : Qle_bool x y = false <-> y < x.
Proof.
  split; intros H.
  - apply Qnot_le_lt. intros Hle. apply Qle_bool_iff in Hle. congruence.
  - destruct (Qle_bool x y) eqn:E; [|reflexivity].
    apply Qle_bool_iff in E. exfalso. apply (Qlt_not_le _ _ H E).
Qed.

(** The classifier of [rank.py] is the ordered threshold check: its six
    bands partition the line, so also [0, 100]. *)
Lemma rank_get_tier_bands (c : Q) :
  (Rank.get_tier c = Aplus <-> 85 <= c)
  /\ (Rank.get_tier c = A <-> 75 <= c < 85)
  /\ (Rank.get_tier c = B <-> 65 <= c < 75)
  /\ (Rank.get_tier c = Cplus <-> 55 <= c < 65)
  /\ (Rank.get_tier c = C <-> 45 <= c < 55)
  /\ (Rank.get_tier c = D <-> c < 45).
Proof.
  unfold Rank.get_tier.
  destruct (Qle_bool 85 c) eqn:E85;
    [apply Qle_bool_iff in E85 | apply Qle_bool_false in E85];
  [| destruct (Qle_bool 75 c) eqn:E75;
    [apply Qle_bool_iff in E75 | apply Qle_bool_false in E75];
  [| destruct (Qle_bool 65 c) eqn:E65;
    [apply Qle_bool_iff in E65 | apply Qle_bool_false in E65];
  [| destruct (Qle_bool 55 c) eqn:E55;
    [apply Qle_bool_iff in E55 | apply Qle_bool_false in E55];
  [| destruct (Qle_bool 45 c) eqn:E45;
    [apply Qle_bool_iff in E45 | apply Qle_bool_false in E45]]]]];
  repeat split; intros; try discriminate; try lra.
Qed.

(** On a score with one decimal, which is what
    [calculate_composite_score] returns, the range table of
    [pkUniRankBot.py] gives the tier of the threshold check. *)
Lemma get_tier_one_decimal (n : Z) :
  (0 <= n <= 1000)%Z ->
  fst (get_tier (n # 10)) = Rank.get_tier (n # 10).
Proof.
  intros Hn. unfold get_tier, Rank.get_tier, first_band, tiers, Qle_bool. simpl.
  repeat match goal with
         | |- context [(?a <=? ?b)%Z] => destruct (Z.leb_spec a b); simpl
         end; try reflexivity; lia.
Qed.

(** C1 (the code departs from the claim). The claim: every composite in
    [75, 85) classifies as A, 84.9995 included. The range table of
    [get_tier] has inclusive upper ends 84.999, 74.999, ...: the score
    84.9995 lies in [75, 85), matches no band, and falls through to the
    default D; the threshold check of [rank.py] gives A. *)
Theorem get_tier_gap_84_9995 :
  75 <= 84.9995 < 85
  /\ first_band tiers 84.9995 = None
  /\ fst (get_tier 84.9995) = D
  /\ Rank.get_tier 84.9995 = A.
Proof. repeat split; vm_compute; congruence. Qed.

(** The same happens under each of the other upper ends, where the
    default D hides the next band down. *)
Example get_tier_gaps :
  map (fun c => fst (get_tier c)) [74.9995; 64.9995; 54.9995; 44.9995] = [D; D; D; D]
  /\ map Rank.get_tier [74.9995; 64.9995; 54.9995; 44.9995] = [B; Cplus; C; D].
Proof. split; reflexivity. Qed.

(** The cases of [test_tier_assignment] and of [test_tier_logic]. *)
Example get_tier_tests :
  map (fun c => fst (get_tier c))
      [95; 80; 70; 60; 50; 30; 84.2; 84.9; 85; 74.9; 64.9; 54.9; 44.9; 100; 0]
  = [Aplus; A; B; Cplus; C; D; A; A; Aplus; B; Cplus; C; D; Aplus; D].
Proof. reflexivity. Qed.

End Tiers.

(** ** The rate limiter *)
Lemma newer_le (c c' : Z) (l : list Z) :
  c <= c' -> (length (newer c' l) <= length (newer c l))%nat.
Proof.
  intros Hc. induction l as [|x l IH]; simpl; [lia|].
  destruct (Z.ltb_spec c' x), (Z.ltb_spec c x); simpl; lia.
Qed.

(** A call that was inside the window and is outside the later one makes
    the later count strictly smaller. *)
Lemma newer_aged_out (c c' x : Z) (l : list Z) :
  c <= c' -> In x l -> c < x <= c' ->
  (length (newer c' l) < length (newer c l))%nat.
Proof.
  intros Hc Hin Hx. induction l as [|y l IH]; simpl in *; [contradiction|].
  destruct Hin as [->|Hin].
  - pose proof (newer_le c c' l Hc).
    destruct (Z.ltb_spec c' x), (Z.ltb_spec c x); simpl; lia.
  - specialize (IH Hin).
    destruct (Z.ltb_spec c' y), (Z.ltb_spec c y); simpl; lia.
Qed.

(** What [check_rate_limit] returns or raises, from the clock readings
    and the call log. *)
Lemma check_rate_limit_outcome (a : APIType) (w : World) :
  let lim := limits a in
  let now (i : nat) := clock w (i + reads w)%nat in
  let count (t span : Z) := Z.of_nat (length (newer (t - span) (calls w a))) in
  let refuse (t : Z) (details : string) :=
    Raise (RateLimitExceeded
             {| api_type := a; reset_time := t; limit_details := details |}) in
  fst (check_rate_limit a w)
  = (if requests_per_minute lim <=? count (now 0%nat) (timedelta_minutes 1)
     then refuse (now 1%nat + timedelta_minutes (reset_interval_minutes lim))
                 ("Minute limit: " +:+ pretty (requests_per_minute lim) +:+ " calls")
     else if requests_per_hour lim <=? count (now 1%nat) (timedelta_hours 1)
     then refuse (now 2%nat + timedelta_hours (reset_interval_hours lim))
                 ("Hourly limit: " +:+ pretty (requests_per_hour lim) +:+ " calls")
     else if requests_per_day lim <=? count (now 2%nat) (timedelta_hours 24)
     then refuse (now 3%nat + timedelta_days (reset_interval_days lim))
                 ("Daily limit: " +:+ pretty (requests_per_day lim) +:+ " calls")
     else Return true).
Proof.
  intros lim now count refuse.
  unfold check_rate_limit, get_recent_calls, get_hourly_calls, get_daily_calls,
    get_reset_time, datetime_now, get, raise, mbind, M_bind, mret, M_ret.
  fold lim. cbn [reads set_reads clock calls fst snd String.eqb Ascii.eqb Bool.eqb].
  change (clock w (reads w)) with (now 0%nat).
  fold (count (now 0%nat) (timedelta_minutes 1)).
  destruct (requests_per_minute lim <=? _);
    cbn [reads set_reads clock calls fst snd]; [reflexivity|].
  change (clock w (S (reads w))) with (now 1%nat).
  fold (count (now 1%nat) (timedelta_hours 1)).
  destruct (requests_per_hour lim <=? _);
    cbn [reads set_reads clock calls fst snd]; [reflexivity|].
  change (clock w (S (S (reads w)))) with (now 2%nat).
  fold (count (now 2%nat) (timedelta_hours 24)).
  destruct (requests_per_day lim <=? _); reflexivity.
Qed.

(** [check_rate_limit] only reads the clock. *)
Lemma check_rate_limit_world (a : APIType) (w : World) :
  exists n : nat, snd (check_rate_limit a w) = set_reads n w.
Proof.
  unfold check_rate_limit, get_recent_calls, get_hourly_calls, get_daily_calls,
    get_reset_time, datetime_now, get, raise, mbind, M_bind, mret, M_ret.
  cbn [reads set_reads clock calls fst snd String.eqb Ascii.eqb Bool.eqb].
  repeat match goal with
         | |- context [if ?b then _ else _] =>
             destruct b; cbn [reads set_reads clock calls fst snd]
         end; eexists; reflexivity.
Qed.

(** C2. [check_rate_limit] compares, in this order, the count of the
    calls of the last minute with the minute ceiling, that of the last
    hour with the hour ceiling and that of the last 24 hours with the day
    ceiling; at the first ceiling reached it raises the exception with the
    clock reading plus that window's reset interval and the text of that
    limit, and it returns [True] when none is reached. It changes neither
    the call logs nor the record log. When a count equals its ceiling and
    one of the counted calls is no longer inside the window at a later
    time, the count at that time is below the ceiling. *)
Theorem check_rate_limit_windows (a : APIType) (w : World) :
  let lim := limits a in
  let now (i : nat) := clock w (i + reads w)%nat in
  let count (t span : Z) := Z.of_nat (length (newer (t - span) (calls w a))) in
  let refuse (t : Z) (details : string) :=
    Raise (RateLimitExceeded
             {| api_type := a; reset_time := t; limit_details := details |}) in
  fst (check_rate_limit a w)
  = (if requests_per_minute lim <=? count (now 0%nat) (timedelta_minutes 1)
     then refuse (now 1%nat + timedelta_minutes (reset_interval_minutes lim))
                 ("Minute limit: " +:+ pretty (requests_per_minute lim) +:+ " calls")
     else if requests_per_hour lim <=? count (now 1%nat) (timedelta_hours 1)
     then refuse (now 2%nat + timedelta_hours (reset_interval_hours lim))
                 ("Hourly limit: " +:+ pretty (requests_per_hour lim) +:+ " calls")
     else if requests_per_day lim <=? count (now 2%nat) (timedelta_hours 24)
     then refuse (now 3%nat + timedelta_days (reset_interval_days lim))
                 ("Daily limit: " +:+ pretty (requests_per_day lim) +:+ " calls")
     else Return true)
  /\ calls (snd (check_rate_limit a w)) = calls w
  /\ recorded (snd (check_rate_limit a w)) = recorded w
  /\ (forall (span ceiling t t' c : Z),
        t <= t' -> count t span = ceiling ->
        In c (calls w a) -> t - span < c <= t' - span ->
        count t' span < ceiling).
Proof.
  intros lim now count refuse.
  destruct (check_rate_limit_world a w) as [n Hn].
  split; [apply check_rate_limit_outcome|].
  rewrite Hn. split; [reflexivity|split; [reflexivity|]].
  intros span ceiling t t' c Ht Hcount Hin Hc. subst ceiling. unfold count.
  apply inj_lt.
  apply (newer_aged_out (t - span) (t' - span) c); [lia | exact Hin | lia].
Qed.

(** The Government API, five calls in the last five seconds: the sixth
    is refused for a minute; 56 seconds later the oldest call is a minute
    old and the count is four. *)
Lemma check_rate_limit_windows_witness :
  let w := Scenario.with_calls GOVERNMENT_API (Scenario.recent_calls 5) Scenario.quiet in
  fst (check_rate_limit GOVERNMENT_API w)
  = Raise (RateLimitExceeded
             {| api_type := GOVERNMENT_API;
                reset_time := Scenario.new_year + 1000 + 60000000;
                limit_details := "Minute limit: 5 calls" |})
  /\ Z.of_nat (length (newer (Scenario.new_year + 56000000 - 60000000)
                             (calls w GOVERNMENT_API))) < 5.
Proof.
  intros w.
  destruct (check_rate_limit_windows GOVERNMENT_API w) as (Hout & _ & _ & Hage).
  split.
  - rewrite Hout. vm_compute. reflexivity.
  - apply (Hage 60000000 5 Scenario.new_year (Scenario.new_year + 56000000)
                (Scenario.new_year - 5000000)).
    + vm_compute. discriminate.
    + vm_compute. reflexivity.
    + vm_compute. left. reflexivity.
    + vm_compute. split; [reflexivity | discriminate].
Defined.


(** ** Reasoning about the effects *)
Lemma bind_run {A B : Type} (m : M A) (f : A -> M B) (w : World) :
  (m ≫= f) w
  = match m w with
    | (Return a, w') => f a w'
    | (Raise e, w') => (Raise e, w')
    end.
Proof. reflexivity. Qed.

Lemma same_env_refl (w : World) : same_env w w.
Proof. repeat split. Qed.

Lemma same_env_trans (w1 w2 w3 : World) :
  same_env w1 w2 -> same_env w2 w3 -> same_env w1 w3.
Proof.
  intros (H1 & H2 & H3 & H4 & H5 & H6) (K1 & K2 & K3 & K4 & K5 & K6).
  repeat split; congruence.
Qed.

Lemma ensures_weaken {A : Type} (m : M A) (P Q : outcome A -> Prop) :
  ensures m P -> (forall o, P o -> Q o) -> ensures m Q.
Proof. intros Hm HPQ w. destruct (Hm w). split; auto. Qed.

Lemma ensures_ret {A : Type} (a : A) (P : outcome A -> Prop) :
  P (Return a) -> ensures (mret a) P.
Proof. intros H w. split; [exact H | apply same_env_refl]. Qed.

Lemma ensures_raise {A : Type} (e : exn) (P : outcome A -> Prop) :
  P (Raise e) -> ensures (raise e) P.
Proof. intros H w. split; [exact H | apply same_env_refl]. Qed.

Lemma ensures_bind {A B : Type} (m : M A) (f : A -> M B)
    (P : outcome A -> Prop) (Q : outcome B -> Prop) :
  ensures m P ->
  (forall a, P (Return a) -> ensures (f a) Q) ->
  (forall e, P (Raise e) -> Q (Raise e)) ->
  ensures (m ≫= f) Q.
Proof.
  intros Hm Hf He w. rewrite bind_run.
  destruct (Hm w) as [HP Henv]. destruct (m w) as [[a|e] w']; simpl in *.
  - destruct (Hf a HP w') as [HQ Henv']. split; [exact HQ|].
    eapply same_env_trans; eassumption.
  - split; [apply He; exact HP | exact Henv].
Qed.

Lemma ensures_try {A : Type} (body : M A) (handler : exn -> M A)
    (P Q : outcome A -> Prop) :
  ensures body P ->
  (forall a, P (Return a) -> Q (Return a)) ->
  (forall e, P (Raise e) -> ensures (handler e) Q) ->
  ensures (try_except body handler) Q.
Proof.
  intros Hm Hr Hh w. unfold try_except.
  destruct (Hm w) as [HP Henv]. destruct (body w) as [[a|e] w']; simpl in *.
  - split; [apply Hr; exact HP | exact Henv].
  - destruct (Hh e HP w') as [HQ Henv']. split; [exact HQ|].
    eapply same_env_trans; eassumption.
Qed.

Lemma ensures_get {A : Type} (f : World -> A) : ensures (get f) returns.
Proof. intros w. split; [eexists; reflexivity | apply same_env_refl]. Qed.

Lemma ensures_datetime_now : ensures datetime_now returns.
Proof. intros w. split; [eexists; reflexivity | repeat split]. Qed.

Lemma ensures_wikipedia_page (title : string) (auto_suggest : bool) :
  ensures (wikipedia_page title auto_suggest) anything.
Proof.
  intros w. unfold wikipedia_page.
  destruct (wikipedia_site w _ title auto_suggest); repeat split.
Qed.

Lemma ensures_http_get (url : string) : ensures (http_get url) anything.
Proof. intros w. unfold http_get. destruct (web w _ url); repeat split. Qed.

Lemma ensures_add_call (a : APIType) : ensures (add_call a) returns.
Proof. intros w. split; [eexists; reflexivity | repeat split]. Qed.

Lemma ensures_record_call (a : APIType) : ensures (record_call a) returns.
Proof. intros w. split; [eexists; reflexivity | repeat split]. Qed.

Lemma ensures_check_rate_limit (a : APIType) :
  ensures (check_rate_limit a) returns_or_limited.
Proof.
  intros w. split.
  - rewrite check_rate_limit_outcome.
    repeat match goal with
           | |- context [if ?b then _ else _] => destruct b
           end; [right | right | right | left]; eexists; reflexivity.
  - destruct (check_rate_limit_world a w) as [n ->]. repeat split.
Qed.

Lemma ensures_get_api_status (a : APIType) : ensures (get_api_status a) returns.
Proof. intros w. split; [eexists; reflexivity | repeat split]. Qed.

Lemma ensures_int (s : string) : ensures (int s) anything.
Proof. unfold int. destruct (parse_int s); [apply ensures_ret | apply ensures_raise]; exact I. Qed.

(** The effects of a term of the monad, whatever its outcome. *)
Ltac effects :=
  repeat first
    [ apply ensures_ret; exact I
    | apply ensures_raise; exact I
    | eapply ensures_weaken; [apply ensures_datetime_now | intros; exact I]
    | eapply ensures_weaken; [apply ensures_record_call | intros; exact I]
    | eapply ensures_weaken; [apply ensures_check_rate_limit | intros; exact I]
    | eapply ensures_weaken; [apply ensures_get_api_status | intros; exact I]
    | apply ensures_wikipedia_page
    | apply ensures_http_get
    | apply ensures_int
    | eapply ensures_bind with (P := anything); [| intros ? _ | intros; exact I]
    | eapply ensures_try with (P := anything); [| intros; exact I | intros ? _]
    | match goal with
      | |- ensures (match ?x with _ => _ end) _ => destruct x
      end ].

Lemma ensures_safe_fetch_wikipedia (university_name : string) :
  ensures (safe_fetch_wikipedia university_name) returns_or_limited.
Proof.
  unfold safe_fetch_wikipedia, time_time, first_item.
  eapply ensures_try with (P := anything).
  - effects.
  - intros a _. left. eexists; reflexivity.
  - intros e _. destruct e.
    + apply ensures_raise. right. eexists; reflexivity.
    + apply ensures_ret. left. eexists; reflexivity.
    + apply ensures_ret. left. eexists; reflexivity.
    + apply ensures_ret. left. eexists; reflexivity.
Qed.

Lemma returns_not_raise {A : Type} (e : exn) : ~ @returns A (Raise e).
Proof. intros [a Ha]. discriminate. Qed.

Lemma ensures_safe_google_search (query : string) :
  ensures (safe_google_search query) returns.
Proof.
  unfold safe_google_search.
  eapply ensures_try with (P := anything).
  - effects.
  - intros a _. eexists; reflexivity.
  - intros e _. eapply ensures_bind; [apply ensures_record_call | |].
    + intros _ _. apply ensures_ret. eexists; reflexivity.
    + intros e' He'. destruct (returns_not_raise _ He').
Qed.

Lemma ensures_safe_fetch_webometrics (university_name : string) :
  ensures (safe_fetch_webometrics university_name) returns_or_limited.
Proof.
  unfold safe_fetch_webometrics.
  eapply ensures_try with (P := anything).
  - effects.
  - intros a _. left. eexists; reflexivity.
  - intros e _. destruct e; try (apply ensures_raise; right; eexists; reflexivity).
    all: eapply ensures_bind; [apply ensures_record_call | |];
      [ intros _ _; apply ensures_ret; left; eexists; reflexivity
      | intros e' He'; destruct (returns_not_raise _ He') ].
Qed.

Lemma ensures_google_queries (queries : list string)
    (google_results : list (string * list string)) (info : list rate_info) :
  ensures (google_queries queries google_results info) returns.
Proof.
  revert google_results info.
  induction queries as [|query rest IH]; intros google_results info; simpl.
  - apply ensures_ret. eexists; reflexivity.
  - eapply ensures_bind with (P := returns).
    + eapply ensures_try with (P := returns).
      * eapply ensures_bind; [apply ensures_safe_google_search | |].
        -- intros results _.
           eapply ensures_bind; [apply ensures_get_api_status | |].
           ++ intros st _. apply ensures_ret. eexists; reflexivity.
           ++ intros e He. destruct (returns_not_raise _ He).
        -- intros e He. destruct (returns_not_raise _ He).
      * intros a Ha. exact Ha.
      * intros e He. destruct (returns_not_raise _ He).
    + intros [[g i]|i] _; [apply IH | apply ensures_ret; eexists; reflexivity].
    + intros e He. destruct (returns_not_raise _ He).
Qed.

(** A stage of [fetch_all_data] for one source keeps [sources_listed]. *)
Lemma ensures_source_stage (fetch : M (option (gmap string value)))
    (a : APIType) (label : string) (s : fetch_state) :
  ensures fetch returns_or_limited ->
  sources_listed s ->
  ensures
    (try_except
       (found ← fetch;
        match found with
        | Some d =>
            st ← get_api_status a;
            mret {| all_data := d ∪ all_data s;
                    rate_limit_info := rate_limit_info s ++ [Status st];
                    data_sources_used := data_sources_used s ++ [label] |}
        | None => mret s
        end)
       (fun e =>
          match e with
          | RateLimitExceeded e' =>
              mret {| all_data := all_data s;
                      rate_limit_info := rate_limit_info s ++ [rate_limited_note label e'];
                      data_sources_used := data_sources_used s |}
          | _ => raise e
          end))
    (fun o => exists s', o = Return s' /\ sources_listed s').
Proof.
  intros Hfetch Hs.
  eapply ensures_try
    with (P := fun o => (exists s', o = Return s' /\ sources_listed s')
                        \/ exists e, o = Raise (RateLimitExceeded e)).
  - eapply ensures_bind; [exact Hfetch | |].
    + intros [d|] _.
      * eapply ensures_bind; [apply ensures_get_api_status | |].
        -- intros st _. apply ensures_ret. left. eexists; split; [reflexivity|].
           intros Hnil. simpl in Hnil. destruct (data_sources_used s); discriminate.
        -- intros e He. destruct (returns_not_raise _ He).
      * apply ensures_ret. left. eexists; split; [reflexivity | exact Hs].
    + intros e [[x Hx]|[e' He']]; [discriminate|].
      injection He' as ->. right. eexists; reflexivity.
  - intros s' [(s'' & Hs'' & Hl)|(e & He)]; [|discriminate].
    exists s''. split; [exact Hs'' | exact Hl].
  - intros e [(s'' & Hs'' & Hl)|(e' & He')]; [discriminate|].
    injection He' as ->. apply ensures_ret. eexists; split; [reflexivity | exact Hs].
Qed.

Lemma sources_of_insert_other (k : string) (v : value) (d : gmap string value) :
  k <> "data_sources_used" -> sources_of (<[k := v]> d) = sources_of d.
Proof. intros Hk. unfold sources_of. rewrite lookup_insert_ne; [reflexivity | exact Hk]. Qed.

(** [fetch_all_data] always returns; a payload that lists no source is
    empty, and a payload that lists sources is not. *)
Lemma ensures_fetch_all_data (university_name country : string)
    (uid : option string) (user_config : option UserConfiguration) :
  ensures (fetch_all_data university_name country uid user_config)
    (fun o => exists data info,
         o = Return (data, info) /\ (sources_of data = [] <-> data = ∅)).
Proof.
  unfold fetch_all_data.
  eapply ensures_bind with (P := returns).
  { destruct user_config; [apply ensures_ret; eexists; reflexivity|].
    unfold UserConfiguration_init.
    eapply ensures_bind; [apply ensures_datetime_now | |].
    - intros now _. apply ensures_ret. eexists; reflexivity.
    - intros e He. destruct (returns_not_raise _ He). }
  2: { intros e He. destruct (returns_not_raise _ He). }
  intros cfg _.
  eapply ensures_bind
    with (P := fun o => exists s', o = Return s' /\ sources_listed s').
  { destruct (enable_wikipedia cfg).
    - apply ensures_source_stage; [apply ensures_safe_fetch_wikipedia|].
      intros _. reflexivity.
    - apply ensures_ret. eexists; split; [reflexivity|]. intros _. reflexivity. }
  2: { intros e (s' & Hs' & _). discriminate. }
  intros s1 (s1' & Heq & Hs1). injection Heq as <-.
  eapply ensures_bind
    with (P := fun o => exists s', o = Return s' /\ sources_listed s').
  { destruct (enable_google_search cfg).
    - eapply ensures_bind; [apply ensures_google_queries | |].
      + intros [google_results info] _. destruct google_results.
        * apply ensures_ret. eexists; split; [reflexivity | exact Hs1].
        * apply ensures_ret. eexists; split; [reflexivity|].
          intros Hnil. simpl in Hnil. destruct (data_sources_used s1); discriminate.
      + intros e He. destruct (returns_not_raise _ He).
    - apply ensures_ret. eexists; split; [reflexivity | exact Hs1]. }
  2: { intros e (s' & Hs' & _). discriminate. }
  intros s2 (s2' & Heq & Hs2). injection Heq as <-.
  eapply ensures_bind
    with (P := fun o => exists s', o = Return s' /\ sources_listed s').
  { destruct (enable_webometrics cfg).
    - apply ensures_source_stage; [apply ensures_safe_fetch_webometrics | exact Hs2].
    - apply ensures_ret. eexists; split; [reflexivity | exact Hs2]. }
  2: { intros e (s' & Hs' & _). discriminate. }
  intros s3 (s3' & Heq & Hs3). injection Heq as <-.
  apply ensures_ret. do 2 eexists. split; [reflexivity|].
  destruct (data_sources_used s3) as [|x l] eqn:Hused.
  - rewrite (Hs3 Hused). split; reflexivity.
  - split.
    + unfold sources_of. rewrite lookup_insert_eq. discriminate.
    + intros Hempty. apply (f_equal (fun m => m !! "data_sources_used")) in Hempty.
      rewrite lookup_insert_eq, lookup_empty in Hempty. discriminate.
Qed.


(** ** The aggregator and the result cache *)
Lemma dict_truthy_empty (d : gmap string value) : dict_truthy d = false <-> d = ∅.
Proof.
  unfold dict_truthy. rewrite negb_false_iff, Nat.eqb_eq. apply map_size_empty_iff.
Qed.

Lemma dict_truthy_insert (k : string) (v : value) (d : gmap string value) :
  dict_truthy (<[k := v]> d) = true.
Proof.
  destruct (dict_truthy (<[k := v]> d)) eqn:E; [reflexivity|].
  apply dict_truthy_empty in E. destruct (insert_non_empty _ _ _ E).
Qed.

Lemma sources_of_merged (name_lower : string) (data : gmap string value) :
  sources_of (merged name_lower data) = sources_of data.
Proof.
  unfold merged.
  destruct (Py.assoc name_lower qs_rankings), (Py.assoc name_lower the_rankings);
    repeat (rewrite sources_of_insert_other; [|discriminate]); reflexivity.
Qed.

Lemma merged_empty (name_lower : string) (data : gmap string value) :
  merged name_lower data = ∅
  <-> data = ∅ /\ Py.assoc name_lower qs_rankings = None
      /\ Py.assoc name_lower the_rankings = None.
Proof.
  unfold merged.
  destruct (Py.assoc name_lower qs_rankings), (Py.assoc name_lower the_rankings);
    split; intros H;
    try (destruct (insert_non_empty _ _ _ H));
    try (destruct H as (_ & H1 & H2); discriminate);
    [repeat split; exact H | destruct H as (H & _); exact H].
Qed.

(** A first request for a key: [fetch_real_data] returns the merged payload
    of [fetch_all_data] and stores it, with its rate information, when it
    is not empty. *)
Lemma fetch_real_data_miss (university_name country : string)
    (uid : option string) (user_config : option UserConfiguration) (w : World) :
  real_data_cache w !! cache_key university_name country = None ->
  exists fetched info w1,
    fetch_all_data university_name country uid user_config w
    = (Return (fetched, info), w1)
    /\ same_env w w1
    /\ (sources_of fetched = [] <-> fetched = ∅)
    /\ let data := merged (Py.lower university_name) fetched in
       let info := merged_info (Py.lower university_name) info in
       fetch_real_data university_name country uid user_config w
       = (Return (data, info),
          if dict_truthy data
          then set_real_data_cache
                 (<[cache_key university_name country := (data, info)]>
                    (real_data_cache w1)) w1
          else w1).
Proof.
  intros Hmiss.
  destruct (ensures_fetch_all_data university_name country uid user_config w)
    as [(fetched & info & Hout & Hsrc) Henv].
  destruct (fetch_all_data university_name country uid user_config w)
    as [o w1] eqn:Hfetch.
  simpl in Hout, Henv. subst o.
  exists fetched, info, w1.
  split; [reflexivity|]. split; [exact Henv|]. split; [exact Hsrc|].
  unfold fetch_real_data. rewrite bind_run. unfold get at 1.
  rewrite Hmiss. rewrite bind_run, Hfetch. unfold merged, merged_info.
  destruct (Py.assoc (Py.lower university_name) qs_rankings),
    (Py.assoc (Py.lower university_name) the_rankings);
    rewrite bind_run;
    match goal with
    | |- context [dict_truthy ?d] => destruct (dict_truthy d)
    end; reflexivity.
Qed.

(** A request whose key is in the cache is served from it: the stored
    payload, the stored rate information with a cache-hit entry, one reading
    of the clock and nothing else. *)
Lemma fetch_real_data_hit (university_name country : string)
    (uid : option string) (user_config : option UserConfiguration) (w : World)
    (data : gmap string value) (info : list rate_info) :
  real_data_cache w !! cache_key university_name country = Some (data, info) ->
  fetch_real_data university_name country uid user_config w
  = (Return (data, info ++ [CacheHit (str_datetime (clock w (reads w)))]),
     set_reads (S (reads w)) w).
Proof.
  intros Hhit. unfold fetch_real_data. rewrite bind_run. unfold get at 1.
  rewrite Hhit. destruct info; reflexivity.
Qed.

(** After a first request that stored its payload, any request with the
    same key gets that payload. *)
Lemma fetch_real_data_again (name country name' country' : string)
    (uid uid' : option string) (cfg cfg' : option UserConfiguration) (w w1 : World)
    (data : gmap string value) (info : list rate_info) :
  cache_key name country = cache_key name' country' ->
  real_data_cache w !! cache_key name country = None ->
  fetch_real_data name country uid cfg w = (Return (data, info), w1) ->
  is_Some (real_data_cache w1 !! cache_key name country) ->
  fetch_real_data name' country' uid' cfg' w1
  = (Return (data, info ++ [CacheHit (str_datetime (clock w1 (reads w1)))]),
     set_reads (S (reads w1)) w1).
Proof.
  intros Hkey Hmiss Hfirst Hcached.
  destruct (fetch_real_data_miss name country uid cfg w Hmiss)
    as (fetched & info0 & w0 & Hfetch & Henv & _ & Hreal).
  simpl in Hreal. rewrite Hfirst in Hreal. injection Hreal as -> -> ->.
  destruct Henv as (Hcache & _).
  apply fetch_real_data_hit. rewrite <- Hkey.
  destruct (dict_truthy (merged (Py.lower name) fetched)); simpl in *.
  - apply lookup_insert_eq.
  - rewrite Hcache, Hmiss in Hcached. destruct Hcached as [x Hx]. discriminate.
Qed.

(** C5, as amended. On a first request for a key, [fetch_real_data]
    returns a payload and stores it in the cache, with its rate
    information, exactly when the payload is not empty; the payload is not
    empty exactly when it lists a source or the lowercased name is in the
    QS table or in the THE table. An empty payload leaves the cache as it
    was. *)
Theorem fetch_real_data_caches_nonempty (university_name country : string)
    (uid : option string) (user_config : option UserConfiguration) (w : World) :
  real_data_cache w !! cache_key university_name country = None ->
  let r := fetch_real_data university_name country uid user_config w in
  exists data info,
    fst r = Return (data, info)
    /\ (data <> ∅ ->
        real_data_cache (snd r)
        = <[cache_key university_name country := (data, info)]> (real_data_cache w))
    /\ (data = ∅ -> real_data_cache (snd r) = real_data_cache w)
    /\ (data <> ∅ <->
        sources_of data <> []
        \/ is_Some (Py.assoc (Py.lower university_name) qs_rankings)
        \/ is_Some (Py.assoc (Py.lower university_name) the_rankings)).
Proof.
  intros Hmiss r.
  destruct (fetch_real_data_miss university_name country uid user_config w Hmiss)
    as (fetched & info & w1 & _ & (Hcache & _) & Hsrc & Hreal).
  cbv zeta in Hreal. subst r. rewrite Hreal. cbn [fst snd].
  exists (merged (Py.lower university_name) fetched),
    (merged_info (Py.lower university_name) info).
  split; [reflexivity|].
  destruct (dict_truthy (merged (Py.lower university_name) fetched)) eqn:Htruthy.
  - assert (Hne : merged (Py.lower university_name) fetched <> ∅).
    { intros Hempty. apply dict_truthy_empty in Hempty. congruence. }
    split; [intros _; cbn [real_data_cache set_real_data_cache];
            rewrite Hcache; reflexivity|].
    split; [intros Hempty; contradiction|].
    split; [intros _ | intros _; exact Hne].
    rewrite sources_of_merged.
    destruct (Py.assoc (Py.lower university_name) qs_rankings) eqn:Hqs;
      [right; left; eexists; reflexivity|].
    destruct (Py.assoc (Py.lower university_name) the_rankings) eqn:Hthe;
      [right; right; eexists; reflexivity|].
    left. intros Hnil. apply Hne. apply merged_empty.
    split; [apply Hsrc; exact Hnil | split; assumption].
  - apply dict_truthy_empty in Htruthy.
    split; [intros Hne; contradiction|].
    split; [intros _; exact Hcache|].
    split; [intros Hne; contradiction|].
    apply merged_empty in Htruthy as Hparts. destruct Hparts as (Hf & Hqs & Hthe).
    rewrite sources_of_merged, Hqs, Hthe.
    intros [Hs|[[x Hx]|[x Hx]]]; try discriminate.
    exfalso. apply Hs. apply Hsrc. exact Hf.
Qed.

(** Harvard University with no page on Wikipedia: the payload holds the two
    table ranks and is stored. *)
Lemma fetch_real_data_caches_nonempty_witness :
  let r := fetch_real_data "Harvard University" "USA" None None Scenario.quiet in
  exists data info,
    fst r = Return (data, info)
    /\ (data <> ∅ ->
        real_data_cache (snd r)
        = <[cache_key "Harvard University" "USA" := (data, info)]>
            (real_data_cache Scenario.quiet))
    /\ (data = ∅ -> real_data_cache (snd r) = real_data_cache Scenario.quiet)
    /\ (data <> ∅ <->
        sources_of data <> []
        \/ is_Some (Py.assoc (Py.lower "Harvard University") qs_rankings)
        \/ is_Some (Py.assoc (Py.lower "Harvard University") the_rankings)).
Proof.
  apply (fetch_real_data_caches_nonempty "Harvard University" "USA" None None
           Scenario.quiet).
  vm_compute. reflexivity.
Defined.

(** C5, as stated, fails: a request for Harvard University in a world where
    Wikipedia has no page gets a payload that lists no source (it holds the
    QS and THE ranks only), and that payload is written to the cache. *)
Lemma rankings_only_payload_is_cached :
  let r := fetch_real_data "Harvard University" "USA" None None Scenario.quiet in
  exists data info,
    fst r = Return (data, info)
    /\ sources_of data = []
    /\ data = {[ "qs_ranking" := VRanking 4; "the_ranking" := VRanking 2 ]}
    /\ real_data_cache (snd r) !! cache_key "Harvard University" "USA"
       = Some (data, info).
Proof.
  exists {[ "qs_ranking" := VRanking 4; "the_ranking" := VRanking 2 ]},
    [Internal "qs_rankings"; Internal "the_rankings"].
  split; [vm_compute; reflexivity|].
  split; [vm_compute; reflexivity|].
  split; [reflexivity | vm_compute; reflexivity].
Qed.

(** That payload is then served to the next request, which makes no new
    attempt. *)
Example rankings_only_payload_is_served :
  let first := fetch_real_data "Harvard University" "USA" None None Scenario.quiet in
  let second := fetch_real_data "Harvard University" "USA" None None (snd first) in
  requests (snd first) = [WikipediaPageCall "Harvard University university" true]
  /\ requests (snd second) = requests (snd first)
  /\ sources_of (fst (Scenario.returned (∅, []) second)) = [].
Proof.
  split; [vm_compute; reflexivity|].
  split; vm_compute; reflexivity.
Qed.

(** C7. After a first aggregation for a key that stored its payload, a
    second call with the same name and country returns that payload and the
    first rate information with one cache-hit entry appended; it makes no
    request, records no call and leaves the call logs and the cache as they
    were. *)
Theorem cache_round_trip (university_name country : string)
    (uid uid' : option string) (cfg cfg' : option UserConfiguration) (w w1 : World)
    (data : gmap string value) (info : list rate_info) :
  real_data_cache w !! cache_key university_name country = None ->
  fetch_real_data university_name country uid cfg w = (Return (data, info), w1) ->
  is_Some (real_data_cache w1 !! cache_key university_name country) ->
  let second := fetch_real_data university_name country uid' cfg' w1 in
  fst second = Return (data, info ++ [CacheHit (str_datetime (clock w1 (reads w1)))])
  /\ requests (snd second) = requests w1
  /\ recorded (snd second) = recorded w1
  /\ calls (snd second) = calls w1
  /\ real_data_cache (snd second) = real_data_cache w1.
Proof.
  intros Hmiss Hfirst Hcached second. subst second.
  rewrite (fetch_real_data_again university_name country university_name country
             uid uid' cfg cfg' w w1 data info eq_refl Hmiss Hfirst Hcached).
  repeat split.
Qed.

(** A university with a page on Wikipedia, asked for twice. *)
Lemma cache_round_trip_witness :
  let first := fetch_real_data "Example University" "USA" None None Scenario.library in
  let data := fst (Scenario.returned (∅, []) first) in
  let info := snd (Scenario.returned (∅, []) first) in
  let second := fetch_real_data "Example University" "USA" None None (snd first) in
  fst second
  = Return (data, info ++ [CacheHit (str_datetime (clock (snd first) (reads (snd first))))])
  /\ requests (snd second) = requests (snd first)
  /\ recorded (snd second) = recorded (snd first)
  /\ calls (snd second) = calls (snd first)
  /\ real_data_cache (snd second) = real_data_cache (snd first).
Proof.
  intros first data info.
  apply (cache_round_trip "Example University" "USA" None None None None
           Scenario.library (snd first) data info).
  - vm_compute. reflexivity.
  - vm_compute. reflexivity.
  - vm_compute. eexists. reflexivity.
Defined.

(** C10. The cache key is the lowercased name, an underscore and the
    lowercased country; the requests ("a_b", "c") and ("a", "b_c") differ
    and have the same key, and once the first has stored its payload the
    second is served that payload, with a cache-hit entry, without any
    request of its own. *)
Theorem cache_key_collision :
  (forall name country : string,
      cache_key name country = Py.lower name +:+ "_" +:+ Py.lower country)
  /\ ("a_b", "c") <> ("a", "b_c")
  /\ cache_key "a_b" "c" = cache_key "a" "b_c"
  /\ (forall (uid uid' : option string) (cfg cfg' : option UserConfiguration)
        (w w1 : World) (data : gmap string value) (info : list rate_info),
         real_data_cache w !! cache_key "a_b" "c" = None ->
         fetch_real_data "a_b" "c" uid cfg w = (Return (data, info), w1) ->
         is_Some (real_data_cache w1 !! cache_key "a_b" "c") ->
         let second := fetch_real_data "a" "b_c" uid' cfg' w1 in
         fst second
         = Return (data, info ++ [CacheHit (str_datetime (clock w1 (reads w1)))])
         /\ requests (snd second) = requests w1).
Proof.
  split; [reflexivity|]. split; [discriminate|]. split; [reflexivity|].
  intros uid uid' cfg cfg' w w1 data info Hmiss Hfirst Hcached second. subst second.
  rewrite (fetch_real_data_again "a_b" "c" "a" "b_c"
             uid uid' cfg cfg' w w1 data info eq_refl Hmiss Hfirst Hcached).
  split; reflexivity.
Qed.

(** The two requests, one after the other, where Wikipedia has a page. *)
Lemma cache_key_collision_witness :
  let first := fetch_real_data "a_b" "c" None None Scenario.library in
  let data := fst (Scenario.returned (∅, []) first) in
  let info := snd (Scenario.returned (∅, []) first) in
  let second := fetch_real_data "a" "b_c" None None (snd first) in
  fst second
  = Return (data, info ++ [CacheHit (str_datetime (clock (snd first) (reads (snd first))))])
  /\ requests (snd second) = requests (snd first).
Proof.
  intros first data info.
  destruct cache_key_collision as (_ & _ & _ & Hserved).
  apply (Hserved None None None None Scenario.library (snd first) data info).
  - vm_compute. reflexivity.
  - vm_compute. reflexivity.
  - vm_compute. eexists. reflexivity.
Defined.


(** ** The fetchers and the budget *)

Lemma check_rate_limit_cases (a : APIType) (w : World) :
  exists n : nat,
    check_rate_limit a w = (Return true, set_reads n w)
    \/ exists e, check_rate_limit a w = (Raise (RateLimitExceeded e), set_reads n w).
Proof.
  destruct (check_rate_limit_world a w) as [n Hn]. exists n.
  destruct (ensures_check_rate_limit a w) as [[[[] Hr]|[e He]] _].
  - left. rewrite <- Hr, <- Hn. apply surjective_pairing.
  - pose proof (check_rate_limit_outcome a w) as Hout. cbv zeta in Hout.
    rewrite Hr in Hout.
    repeat match type of Hout with
           | context [if ?b then _ else _] => destruct b
           end; discriminate.
  - right. exists e. rewrite <- He, <- Hn. apply surjective_pairing.
Qed.

(** C3 (the code departs from the claim). The claim: every attempt records
    exactly one call, also when the external call fails with an error. In
    [safe_fetch_wikipedia], when the limiter lets the call through and
    [wikipedia.page] raises anything but its disambiguation and page errors
    (a connection error, say), the request has been made, the function
    returns [None], and no call is recorded: the handler of [Exception]
    only logs. *)
Theorem wikipedia_failure_is_not_recorded
    (university_name what : string) (w : World) :
  fst (check_rate_limit WIKIPEDIA w) = Return true ->
  wikipedia_site w (length (requests w)) (university_name +:+ " university") true
  = WikipediaFailure what ->
  let r := safe_fetch_wikipedia university_name w in
  fst r = Return None
  /\ requests (snd r)
     = requests w ++ [WikipediaPageCall (university_name +:+ " university") true]
  /\ recorded (snd r) = recorded w
  /\ calls (snd r) = calls w.
Proof.
  intros Hcheck Hsite r. subst r.
  destruct (check_rate_limit_cases WIKIPEDIA w) as [n [Hc|[e Hc]]];
    rewrite Hc in Hcheck; [clear Hcheck | discriminate].
  unfold safe_fetch_wikipedia, try_except, time_time, datetime_now, wikipedia_page.
  rewrite bind_run, Hc. unfold mbind, M_bind. simpl. rewrite Hsite. simpl.
  repeat split.
Qed.

(** Wikipedia unreachable, in the quiet world otherwise. *)
Lemma wikipedia_failure_is_not_recorded_witness :
  let w := Scenario.with_wikipedia
             (fun _ _ _ => WikipediaFailure "ConnectionError") Scenario.quiet in
  let r := safe_fetch_wikipedia "Example" w in
  fst r = Return None
  /\ requests (snd r) = requests w ++ [WikipediaPageCall ("Example" +:+ " university") true]
  /\ recorded (snd r) = recorded w
  /\ calls (snd r) = calls w.
Proof.
  intros w.
  apply (wikipedia_failure_is_not_recorded "Example" "ConnectionError" w).
  - vm_compute. reflexivity.
  - vm_compute. reflexivity.
Defined.

(** Where Wikipedia has no page, the attempt is recorded. *)
Example wikipedia_page_error_is_recorded :
  let r := safe_fetch_wikipedia "Example" Scenario.quiet in
  fst r = Return None /\ recorded (snd r) = [WIKIPEDIA].
Proof. split; vm_compute; reflexivity. Qed.

(** [safe_google_search] records one call on every path, the refusal by
    the limiter included. *)
Lemma safe_google_search_records (query : string) (w : World) :
  recorded (snd (safe_google_search query w)) = recorded w ++ [GOOGLE_SEARCH].
Proof.
  unfold safe_google_search, try_except, http_get.
  destruct (check_rate_limit_cases GOOGLE_SEARCH w) as [n [Hc|[e Hc]]];
    rewrite bind_run, Hc; [|reflexivity].
  rewrite bind_run.
  cbn [set_reads reads clock web requests recorded calls fst snd].
  destruct (web w _ _); reflexivity.
Qed.

(** [safe_fetch_webometrics] records the attempt once the request is made;
    on the status 429 with a [Retry-After] that is not a number (a date,
    as HTTP allows), [int] raises inside the guarded block and the handler
    of [Exception] records the same attempt a second time. *)
Example webometrics_429_is_recorded_twice :
  let busy :=
    {| clock := clock Scenario.quiet; reads := 0;
       wikipedia_site := wikipedia_site Scenario.quiet;
       web := fun _ _ =>
                Responded {| status_code := 429; text := "";
                             anchors := [];
                             retry_after := Some "Wed, 21 Oct 2026 07:28:00 GMT" |};
       requests := []; rng := rng Scenario.quiet; draws := 0;
       calls := fun _ => []; recorded := []; real_data_cache := ∅ |} in
  let r := safe_fetch_webometrics "Example" busy in
  fst r = Return None /\ recorded (snd r) = [WEBOMETRICS; WEBOMETRICS].
Proof. split; vm_compute; reflexivity. Qed.

(** C4 (the code departs from the claim). The claim: when the check fails,
    the fetcher makes no request and passes the failure on to the
    aggregator. In [safe_google_search] the check is inside the block whose
    handler catches [Exception], of which the rate-limit exception is a
    subclass: when the check fails the function makes no request, but it
    records a call and returns the empty list, and no exception reaches
    [fetch_all_data]. *)
Theorem google_rate_limit_is_swallowed
    (query : string) (w : World) (e : RateLimitExceededException) :
  fst (check_rate_limit GOOGLE_SEARCH w) = Raise (RateLimitExceeded e) ->
  let r := safe_google_search query w in
  fst r = Return []
  /\ requests (snd r) = requests w
  /\ recorded (snd r) = recorded w ++ [GOOGLE_SEARCH].
Proof.
  intros Hcheck r. subst r.
  destruct (check_rate_limit_cases GOOGLE_SEARCH w) as [n [Hc|[e' Hc]]];
    rewrite Hc in Hcheck; [discriminate | clear Hcheck].
  unfold safe_google_search, try_except. rewrite bind_run, Hc.
  repeat split.
Qed.

(** Ten searches in the last ten seconds. *)
Lemma google_rate_limit_is_swallowed_witness :
  let w := Scenario.with_calls GOOGLE_SEARCH (Scenario.recent_calls 10) Scenario.quiet in
  let r := safe_google_search "Example ARWU ranking" w in
  fst r = Return []
  /\ requests (snd r) = requests w
  /\ recorded (snd r) = recorded w ++ [GOOGLE_SEARCH].
Proof.
  intros w.
  apply (google_rate_limit_is_swallowed "Example ARWU ranking" w
           {| api_type := GOOGLE_SEARCH;
              reset_time := Scenario.new_year + 1000 + 60000000;
              limit_details := "Minute limit: 10 calls" |}).
  vm_compute. reflexivity.
Defined.

(** In that world the aggregator goes through its three queries: none is
    sent, each is recorded, and the rate information holds three status
    entries and no "rate_limited" note. *)
Example google_queries_are_not_abandoned :
  let w := Scenario.with_calls GOOGLE_SEARCH (Scenario.recent_calls 10) Scenario.quiet in
  let r := fetch_all_data "Example" "USA" None (Some (Scenario.user false true false)) w in
  requests (snd r) = []
  /\ recorded (snd r) = [GOOGLE_SEARCH; GOOGLE_SEARCH; GOOGLE_SEARCH]
  /\ map (fun i => match i with Status s => calls_last_minute s | _ => -1 end)
         (snd (Scenario.returned (∅, []) r))
     = [11; 12; 13].
Proof.
  split; [vm_compute; reflexivity|].
  split; vm_compute; reflexivity.
Qed.

(** The two other fetchers do pass the refusal on: no request, no record,
    the exception of the check. *)
Lemma wikipedia_rate_limit_is_raised
    (university_name : string) (w : World) (e : RateLimitExceededException) :
  fst (check_rate_limit WIKIPEDIA w) = Raise (RateLimitExceeded e) ->
  let r := safe_fetch_wikipedia university_name w in
  fst r = Raise (RateLimitExceeded e)
  /\ requests (snd r) = requests w
  /\ recorded (snd r) = recorded w.
Proof.
  intros Hcheck r. subst r.
  destruct (check_rate_limit_cases WIKIPEDIA w) as [n [Hc|[e' Hc]]];
    rewrite Hc in Hcheck; [discriminate | injection Hcheck as ->].
  unfold safe_fetch_wikipedia, try_except. rewrite bind_run, Hc.
  repeat split.
Qed.

Lemma webometrics_rate_limit_is_raised
    (university_name : string) (w : World) (e : RateLimitExceededException) :
  fst (check_rate_limit WEBOMETRICS w) = Raise (RateLimitExceeded e) ->
  let r := safe_fetch_webometrics university_name w in
  fst r = Raise (RateLimitExceeded e)
  /\ requests (snd r) = requests w
  /\ recorded (snd r) = recorded w.
Proof.
  intros Hcheck r. subst r.
  destruct (check_rate_limit_cases WEBOMETRICS w) as [n [Hc|[e' Hc]]];
    rewrite Hc in Hcheck; [discriminate | injection Hcheck as ->].
  unfold safe_fetch_webometrics, try_except. rewrite bind_run, Hc.
  repeat split.
Qed.

(** ** Numbers *)
Section Numbers.
Local Open Scope Q_scope.

Lemma Qltb_true (a b : Q) : Py.Qltb a b = true <-> a < b.
Proof. unfold Py.Qltb. rewrite negb_true_iff. apply Qle_bool_false. Qed.

Lemma Qltb_false (a b : Q) : Py.Qltb a b = false <-> b <= a.
Proof. unfold Py.Qltb. rewrite negb_false_iff. apply Qle_bool_iff. Qed.

Lemma py_min_between (lo hi a b : Q) :
  lo <= a -> lo <= b -> (a <= hi \/ b <= hi) -> lo <= Py.min a b <= hi.
Proof.
  intros Ha Hb Hhi. unfold Py.min.
  destruct (Py.Qltb b a) eqn:E;
    [apply Qltb_true in E | apply Qltb_false in E]; destruct Hhi; lra.
Qed.

Lemma py_max_between (lo hi a b : Q) :
  a <= hi -> b <= hi -> (lo <= a \/ lo <= b) -> lo <= Py.max a b <= hi.
Proof.
  intros Ha Hb Hlo. unfold Py.max.
  destruct (Py.Qltb a b) eqn:E;
    [apply Qltb_true in E | apply Qltb_false in E]; destruct Hlo; lra.
Qed.

Lemma round_half_even_ge (q : Q) (n : Z) :
  inject_Z n <= q -> (n <= Py.round_half_even q)%Z.
Proof.
  intros Hn.
  assert (Hf : (n <= Qfloor q)%Z).
  { pose proof (Qlt_floor q) as Hlt.
    assert (Hlt' : inject_Z n < inject_Z (Qfloor q + 1)) by lra.
    rewrite <- Zlt_Qlt in Hlt'. lia. }
  unfold Py.round_half_even.
  repeat match goal with
         | |- context [if ?b then _ else _] => destruct b
         end; lia.
Qed.

Lemma round_half_even_le (q : Q) (n : Z) :
  q <= inject_Z n -> (Py.round_half_even q <= n)%Z.
Proof.
  intros Hn. pose proof (Qfloor_le q) as Hfl.
  assert (Hf : (Qfloor q <= n)%Z).
  { rewrite Zle_Qle. lra. }
  unfold Py.round_half_even.
  destruct (Z.eq_dec (Qfloor q) n) as [Heq|Hne].
  - assert (Hd : Py.Qltb (q - inject_Z (Qfloor q)) (1 # 2) = true).
    { apply Qltb_true. rewrite Heq in *. lra. }
    rewrite Hd. lia.
  - repeat match goal with
           | |- context [if ?b then _ else _] => destruct b
           end; lia.
Qed.

(** Rounding to one decimal keeps a number between two bounds that have
    one decimal. *)
Lemma round1_between (lo hi : Z) (v : Q) :
  lo # 10 <= v -> v <= hi # 10 -> lo # 10 <= Py.round1 v <= hi # 10.
Proof.
  intros Hlo Hhi. unfold Py.round1.
  assert (H1 : (lo <= Py.round_half_even (v * 10))%Z).
  { apply round_half_even_ge. unfold Qle in *. simpl in *. lia. }
  assert (H2 : (Py.round_half_even (v * 10) <= hi)%Z).
  { apply round_half_even_le. unfold Qle in *. simpl in *. lia. }
  unfold Qle. simpl. lia.
Qed.

End Numbers.

(** ** The error margin *)
Section ErrorMargin.
Local Open Scope Q_scope.

Lemma py_max_ge_l (a b : Q) : a <= Py.max a b.
Proof.
  unfold Py.max.
  destruct (Py.Qltb a b) eqn:E; [apply Qltb_true in E | apply Qltb_false in E]; lra.
Qed.

Lemma lowered_between (data_sources_used : list string) (e : Q) :
  1 <= e <= 15 -> 1 <= lowered data_sources_used e <= 15.
Proof.
  intros He. destruct data_sources_used as [|x l]; [exact He|].
  unfold lowered. apply py_max_between; [lra | lra | left; lra].
Qed.

(** [calculate_error_margin] takes one draw and returns a margin between 1
    and 15: between 1 and 3 for a name of the database, between 3 and 15
    otherwise. *)
Lemma calculate_error_margin_run (university_name country : string)
    (data_sources_used : list string) (w : World) :
  0 <= rng w (draws w) <= 1 ->
  exists e,
    calculate_error_margin university_name country data_sources_used w
    = (Return e, set_draws (S (draws w)) w)
    /\ 1 <= e <= 15.
Proof.
  intros Hr. unfold calculate_error_margin.
  destruct (Py.assoc (Py.lower university_name) university_db) as [entry|].
  - eexists. split; [reflexivity|].
    assert (H : 10 # 10 <= Py.round1 (1 + (3 - 1) * rng w (draws w)) <= 30 # 10).
    { apply round1_between; lra. }
    lra.
  - match goal with
    | |- context [np_random_uniform (-2) 2 ≫= (fun u => mret (Py.round1 (Py.min 15 (Py.max 3 (?b + u)))))] =>
        generalize b
    end.
    intros base_error. eexists. split; [reflexivity|].
    assert (H : 30 # 10
                <= Py.round1 (Py.min 15 (Py.max 3
                     (base_error + (-2 + (2 - -2) * rng w (draws w)))))
                <= 150 # 10).
    { pose proof (py_max_ge_l 3 (base_error + (-2 + (2 - -2) * rng w (draws w))))
        as Hmax.
      destruct (py_min_between 3 15 15 _ ltac:(lra) Hmax ltac:(left; lra)).
      apply round1_between; lra. }
    lra.
Qed.

End ErrorMargin.

(** [fetch_real_data] always returns, and leaves the generator alone. *)
Lemma fetch_real_data_total (university_name country : string)
    (uid : option string) (user_config : option UserConfiguration) (w : World) :
  exists data info w1,
    fetch_real_data university_name country uid user_config w
    = (Return (data, info), w1)
    /\ rng w1 = rng w /\ draws w1 = draws w.
Proof.
  destruct (real_data_cache w !! cache_key university_name country)
    as [[data info]|] eqn:Hcache.
  - rewrite (fetch_real_data_hit _ _ _ _ _ _ _ Hcache).
    do 3 eexists. repeat split.
  - destruct (fetch_real_data_miss university_name country uid user_config w Hcache)
      as (fetched & info & w1 & _ & (_ & Hrng & Hdraws & _) & _ & Hreal).
    cbv zeta in Hreal. rewrite Hreal. do 3 eexists. split; [reflexivity|].
    destruct (dict_truthy _); split; assumption.
Qed.

(** [rank_university] always returns; its scores, country and estimation
    flag are those of [choose_scores] on the payload of [fetch_real_data],
    and its error margin is the lowered margin of
    [calculate_error_margin]. *)
Lemma rank_university_run (university_name country : string)
    (uid : option string) (user_config : option UserConfiguration) (w : World) :
  (0 <= rng w (draws w) <= 1)%Q ->
  exists real_data e ud w1,
    rank_university university_name country uid user_config w = (Return ud, w1)
    /\ (ud_scores ud, ud_country ud, ud_is_estimated ud)
       = choose_scores university_name country real_data
    /\ ud_composite ud = calculate_composite_score (ud_scores ud)
    /\ ud_tier ud = fst (get_tier (ud_composite ud))
    /\ ud_error_margin ud = lowered (sources_of real_data) e
    /\ (1 <= e <= 15)%Q.
Proof.
  intros Hr. unfold rank_university. rewrite bind_run.
  assert (Hcfg : exists c w0,
             match user_config with
             | Some c => mret c
             | None => UserConfiguration_init uid
             end w = (Return c, w0) /\ rng w0 = rng w /\ draws w0 = draws w).
  { destruct user_config; do 2 eexists; repeat split. }
  destruct Hcfg as (c & w0 & -> & Hrng0 & Hdraws0).
  rewrite bind_run.
  destruct (fetch_real_data_total university_name country uid (Some c) w0)
    as (real_data & info & w1 & -> & Hrng1 & Hdraws1).
  destruct (choose_scores university_name country real_data)
    as [[scores country'] is_estimated] eqn:Hchoose.
  destruct (get_tier (calculate_composite_score scores)) as [t d] eqn:Htier.
  rewrite bind_run.
  destruct (calculate_error_margin_run university_name country'
              (sources_of real_data) w1) as (e & -> & He).
  { rewrite Hrng1, Hdraws1, Hrng0, Hdraws0. exact Hr. }
  exists real_data, e. do 2 eexists. split; [reflexivity|].
  cbn [ud_scores ud_country ud_is_estimated ud_composite ud_tier ud_error_margin].
  rewrite Htier. split; [symmetry; exact Hchoose|].
  repeat split; try reflexivity; apply He.
Qed.

(** C9. With the draw of the generator in the unit interval, the error
    margin of [calculate_error_margin] is between 1 and 15 for every name,
    country and list of contributing sources, it stays there when it is
    lowered (times 0.7, at least 1) for a list that is not empty, and the
    error margin of the result of [rank_university] is between 1 and 15. *)
Theorem error_margin_between_1_and_15 (university_name country : string)
    (data_sources_used : list string) (uid : option string)
    (user_config : option UserConfiguration) (w : World) :
  (0 <= rng w (draws w) <= 1)%Q ->
  (exists e,
      fst (calculate_error_margin university_name country data_sources_used w)
      = Return e
      /\ (1 <= e <= 15)%Q
      /\ (1 <= lowered data_sources_used e <= 15)%Q)
  /\ (exists ud,
        fst (rank_university university_name country uid user_config w) = Return ud
        /\ (1 <= ud_error_margin ud <= 15)%Q).
Proof.
  intros Hr. split.
  - destruct (calculate_error_margin_run university_name country data_sources_used
                w Hr) as (e & -> & He).
    exists e. split; [reflexivity|]. split; [exact He|].
    apply lowered_between. exact He.
  - destruct (rank_university_run university_name country uid user_config w Hr)
      as (real_data & e & ud & w1 & -> & _ & _ & _ & Hem & He).
    exists ud. split; [reflexivity|]. rewrite Hem. apply lowered_between. exact He.
Qed.

(** A college that is in no table and has a page on Wikipedia. *)
Lemma error_margin_between_1_and_15_witness :
  (exists e,
      fst (calculate_error_margin "Example College" "India" ["wikipedia"]
             Scenario.library) = Return e
      /\ (1 <= e <= 15)%Q
      /\ (1 <= lowered ["wikipedia"] e <= 15)%Q)
  /\ (exists ud,
        fst (rank_university "Example College" "India" None None Scenario.library)
        = Return ud
        /\ (1 <= ud_error_margin ud <= 15)%Q).
Proof.
  apply (error_margin_between_1_and_15 "Example College" "India" ["wikipedia"]
           None None Scenario.library).
  vm_compute. split; discriminate.
Defined.

Example error_margin_values :
  fst (calculate_error_margin "Example College" "India" ["wikipedia"] Scenario.library)
  = Return 6.5%Q
  /\ ud_error_margin
       (Scenario.returned
          {| ud_name := ""; ud_country := ""; ud_type := TEACHING_UNIVERSITY;
             ud_scores := mkScores 0 0 0 0 0 0; ud_composite := 0; ud_tier := D;
             ud_error_margin := 0; ud_timestamp := ""; ud_is_estimated := true;
             ud_rate_limit_info := []; ud_data_sources_used := [] |}
          (rank_university "Example College" "India" None None Scenario.library))
     = 4.55%Q.
Proof. split; vm_compute; reflexivity. Qed.

(** ** The score vector *)
Section ScoreBounds.
Local Open Scope Q_scope.

(** The six maxima add up to 100. *)
Lemma parameters_max_sum : sum_scores parameters_max == 100.
Proof. reflexivity. Qed.

Lemma clamp_round_between (hi : Z) (v : Q) :
  (0 <= hi)%Z ->
  0 <= Py.round1 (Py.max 0 (Py.min (inject_Z hi) v)) <= inject_Z hi.
Proof.
  intros Hhi.
  assert (Hq : 0 <= inject_Z hi) by (rewrite Zle_Qle in Hhi; exact Hhi).
  assert (Hmin : Py.min (inject_Z hi) v <= inject_Z hi).
  { unfold Py.min.
    destruct (Py.Qltb v (inject_Z hi)) eqn:E;
      [apply Qltb_true in E | apply Qltb_false in E]; lra. }
  destruct (py_max_between 0 (inject_Z hi) 0 _ Hq Hmin ltac:(left; lra)) as [H0 H1].
  assert (H : 0 # 10 <= Py.round1 (Py.max 0 (Py.min (inject_Z hi) v)) <= (hi * 10) # 10).
  { apply round1_between; [lra|].
    assert (Heq : (hi * 10) # 10 == inject_Z hi).
    { unfold Qeq, inject_Z. simpl. lia. }
    rewrite Heq. exact H1. }
  assert (Heq : (hi * 10) # 10 == inject_Z hi).
  { unfold Qeq, inject_Z. simpl. lia. }
  rewrite Heq in H. lra.
Qed.

(** Six values, each cut to the bounds of its field and rounded. *)
Lemma clamped_in_bounds (a g r f t v : Q) :
  in_bounds
    (mkScores (Py.round1 (Py.max 0 (Py.min 25 a))) (Py.round1 (Py.max 0 (Py.min 25 g)))
              (Py.round1 (Py.max 0 (Py.min 20 r))) (Py.round1 (Py.max 0 (Py.min 15 f)))
              (Py.round1 (Py.max 0 (Py.min 10 t))) (Py.round1 (Py.max 0 (Py.min 5 v)))).
Proof.
  exact (conj (clamp_round_between 25 a ltac:(lia))
        (conj (clamp_round_between 25 g ltac:(lia))
        (conj (clamp_round_between 20 r ltac:(lia))
        (conj (clamp_round_between 15 f ltac:(lia))
        (conj (clamp_round_between 10 t ltac:(lia))
              (clamp_round_between 5 v ltac:(lia))))))).
Qed.

(** What [_ensure_score_bounds] is for: after it and the rounding, every
    field is within its bounds. *)
Lemma ensure_score_bounds_in_bounds (s : Scores) :
  in_bounds (map_scores Py.round1 (_ensure_score_bounds s)).
Proof. apply clamped_in_bounds. Qed.

(** The heuristic path of [pkUniRankBot.py] keeps every field within its
    bounds, for every name and country. *)
Lemma estimate_scores_in_bounds (name country : string) :
  in_bounds (estimate_scores name country).
Proof. unfold estimate_scores. apply ensure_score_bounds_in_bounds. Qed.

(** So does the heuristic path of [pkWAUniRankBot.py], for every state of
    the generator. *)
Lemma wa_estimate_scores_in_bounds (name country : string) (w : World) :
  exists s, fst (WA.estimate_scores name country w) = Return s /\ in_bounds s.
Proof.
  unfold WA.estimate_scores, WA.perturb, np_random_uniform, mbind, M_bind, mret, M_ret.
  eexists. split; [reflexivity|]. apply clamped_in_bounds.
Qed.

(** The known-institution path returns the stored scores as they are. *)
Lemma choose_scores_database (university_name country : string)
    (real_data : gmap string value) (entry : db_entry) :
  sources_of real_data = [] ->
  Py.assoc (Py.lower university_name) university_db = Some entry ->
  choose_scores university_name country real_data
  = (db_scores entry, db_country entry, false).
Proof.
  intros Hsrc Hdb. unfold choose_scores. rewrite Hsrc, Hdb.
  rewrite andb_false_r. reflexivity.
Qed.

(** C6 (the code departs from the claim). The claim: every field of the
    scores is within its maximum on every path, and the maxima add up to
    100. The maxima do add up to 100 and the heuristic path clamps, but the
    known-institution path returns the scores of the database without a
    check, and the database gives the Massachusetts Institute of Technology
    a return-on-investment score of 22, above the declared maximum of 20
    (Stanford University has 21, the California Institute of Technology
    23): ranked where Wikipedia has no page for it, the result has that
    score. *)
Theorem database_scores_exceed_maximum :
  sum_scores parameters_max == 100
  /\ let r := rank_university "Massachusetts Institute of Technology" "USA"
                None None Scenario.quiet in
     exists ud,
       fst r = Return ud
       /\ ud_data_sources_used ud = []
       /\ ud_scores ud = mkScores 25 24 22 14 9 5
       /\ roi parameters_max < roi (ud_scores ud)
       /\ ~ in_bounds (ud_scores ud).
Proof.
  split; [reflexivity|].
  eexists. split; [vm_compute; reflexivity|].
  cbn [ud_data_sources_used ud_scores].
  split; [reflexivity|]. split; [reflexivity|]. split; [reflexivity|].
  unfold in_bounds. cbn. intros (_ & _ & (_ & H) & _). apply H. reflexivity.
Qed.

(** The entries of the database that are out of bounds. *)
Example database_entries_out_of_bounds :
  map fst
      (List.filter
         (fun e => negb (Qle_bool (roi (db_scores (snd e))) (roi parameters_max)))
         university_db)
  = ["massachusetts institute of technology"; "stanford university";
     "california institute of technology"]
  /\ map fst
       (List.filter
          (fun e => negb (Qle_bool (roi (db_scores (snd e))) (roi parameters_max)))
          WA.university_db)
     = ["massachusetts institute of technology"; "stanford university"].
Proof. split; reflexivity. Qed.

(** The real-data path has an unclamped step too, on a Times Higher
    Education rank from 11 to 100; the static table holds no such rank, so
    no payload of [fetch_real_data] reaches it. *)
Example real_data_scores_unclamped_step :
  academic
    (calculate_scores_from_real_data "Example" ""
       {[ "qs_ranking" := VRanking 5; "the_ranking" := VRanking 50;
          "data_sources_used" := VSources ["webometrics"] ]})
  = 27.5.
Proof. vm_compute. reflexivity. Qed.

End ScoreBounds.

(** ** The heuristic path *)

(** In [pkUniRankBot.py] the estimated scores are a function of the name
    and the country: two rankings that take the heuristic path, in any two
    worlds, have the same scores. *)
Lemma heuristic_scores_repeatable (university_name country : string)
    (uid uid' : option string) (cfg cfg' : option UserConfiguration) (w w' : World) :
  (0 <= rng w (draws w) <= 1)%Q ->
  (0 <= rng w' (draws w') <= 1)%Q ->
  exists ud ud',
    fst (rank_university university_name country uid cfg w) = Return ud
    /\ fst (rank_university university_name country uid' cfg' w') = Return ud'
    /\ (ud_is_estimated ud = true -> ud_is_estimated ud' = true ->
        ud_scores ud = estimate_scores university_name country
        /\ ud_scores ud' = ud_scores ud).
Proof.
  intros Hr Hr'.
  destruct (rank_university_run university_name country uid cfg w Hr)
    as (real_data & e & ud & w1 & -> & Hchoose & _).
  destruct (rank_university_run university_name country uid' cfg' w' Hr')
    as (real_data' & e' & ud' & w1' & -> & Hchoose' & _).
  exists ud, ud'. split; [reflexivity|]. split; [reflexivity|].
  intros Hest Hest'.
  assert (Hpath : forall d s c,
             (s, c, true) = choose_scores university_name country d ->
             s = estimate_scores university_name country).
  { intros d s c. unfold choose_scores.
    destruct (dict_truthy d && _); [intros H; discriminate|].
    destruct (Py.assoc _ university_db); intros H; [discriminate|].
    injection H as -> _. reflexivity. }
  rewrite Hest in Hchoose. rewrite Hest' in Hchoose'.
  apply Hpath in Hchoose. apply Hpath in Hchoose'. split; congruence.
Qed.

(** The offset of a field depends on four bits of the hash only. *)
Lemma variation_nibble (hash_int i : Z) :
  variation hash_int i
  = (inject_Z (Z.land (Z.shiftr hash_int (i * 4)) 15) / 15 * 6 - 3)%Q.
Proof. reflexivity. Qed.

(** C8 (the code departs from the claim). The claim: two heuristic
    evaluations of the same name and country give the same scores, the
    perturbation being a function of the name. That holds for
    [pkUniRankBot.py]; in [pkWAUniRankBot.py], [estimate_scores] draws its
    perturbation from numpy's global generator, and two evaluations of
    ("Generic University", "USA"), one after the other, differ. *)
Theorem wa_estimate_scores_not_repeatable :
  let w := Scenario.with_rng Scenario.two_phase Scenario.quiet in
  let first := WA.estimate_scores "Generic University" "USA" w in
  let second := WA.estimate_scores "Generic University" "USA" (snd first) in
  fst first = Return (mkScores 20.6 17.0 15.8 12.2 7.8 3.8)
  /\ fst second = Return (mkScores 22.6 19.0 17.8 14.2 8.2 4.2)
  /\ fst first <> fst second.
Proof.
  split; [vm_compute; reflexivity|].
  split; [vm_compute; reflexivity|].
  vm_compute. discriminate.
Qed.

(** The same request on the heuristic path of [pkUniRankBot.py], where the
    offsets come from the MD5 digest of "generic university". *)
Example estimate_scores_generic_university :
  estimate_scores "Generic University" "USA" = mkScores 17.1 17.7 14.2 15.0 7.1 4.3.
Proof. vm_compute. reflexivity. Qed.

(** ** Every path of the fetchers, and what it records *)

(** [safe_fetch_wikipedia]: once the limiter lets the call through, every
    path but the one of C3 records the attempt once. *)
Lemma wikipedia_attempt_recorded_once (university_name : string) (w : World) :
  fst (check_rate_limit WIKIPEDIA w) = Return true ->
  (forall what,
      wikipedia_site w (length (requests w)) (university_name +:+ " university") true
      <> WikipediaFailure what) ->
  recorded (snd (safe_fetch_wikipedia university_name w)) = recorded w ++ [WIKIPEDIA].
Proof.
  intros Hcheck Hsite.
  destruct (check_rate_limit_cases WIKIPEDIA w) as [n [Hc|[e Hc]]];
    rewrite Hc in Hcheck; [clear Hcheck | discriminate].
  unfold safe_fetch_wikipedia, try_except, time_time, datetime_now, wikipedia_page,
    first_item.
  rewrite bind_run, Hc. unfold mbind, M_bind. simpl.
  destruct (wikipedia_site w (length (requests w))
              (university_name +:+ " university") true) as [p|options| |what];
    simpl; try reflexivity.
  - destruct options as [|first_option rest]; simpl; [reflexivity|].
    match goal with
    | |- context [wikipedia_site w ?k first_option true] =>
        destruct (wikipedia_site w k first_option true)
    end; reflexivity.
  - destruct (Hsite what eq_refl).
Qed.

(** [safe_fetch_webometrics]: once the limiter lets the call through, the
    attempt is recorded once, unless the answer is a 429 whose [Retry-After]
    is not a number. *)
Lemma webometrics_attempt_recorded_once (university_name : string) (w : World) :
  fst (check_rate_limit WEBOMETRICS w) = Return true ->
  (forall r,
      web w (length (requests w))
          ("https://www.webometrics.info/en/search/site/" +:+ quote university_name)
      = Responded r ->
      status_code r = 429 ->
      parse_int (default "60" (retry_after r)) <> None) ->
  recorded (snd (safe_fetch_webometrics university_name w)) = recorded w ++ [WEBOMETRICS].
Proof.
  intros Hcheck Hretry.
  destruct (check_rate_limit_cases WEBOMETRICS w) as [n [Hc|[e Hc]]];
    rewrite Hc in Hcheck; [clear Hcheck | discriminate].
  unfold safe_fetch_webometrics, try_except, http_get, int.
  rewrite bind_run, Hc. unfold mbind, M_bind. simpl.
  destruct (web w (length (requests w)) _) as [r|what] eqn:Hweb; simpl;
    [|reflexivity].
  destruct (status_code r =? 200) eqn:H200; simpl; [reflexivity|].
  destruct (status_code r =? 429) eqn:H429; simpl; [|reflexivity].
  specialize (Hretry r eq_refl ltac:(apply Z.eqb_eq; exact H429)).
  destruct (parse_int (default "60" (retry_after r))); [reflexivity | contradiction].
Qed.

(** [safe_google_search] always returns. *)
Lemma safe_google_search_run (query : string) (w : World) :
  exists results w1,
    safe_google_search query w = (Return results, w1)
    /\ recorded w1 = recorded w ++ [GOOGLE_SEARCH].
Proof.
  pose proof (safe_google_search_records query w) as Hrec.
  destruct (ensures_safe_google_search query w) as [[results Hres] _].
  destruct (safe_google_search query w) as [o w1]. simpl in *. subst o.
  exists results, w1. split; [reflexivity | exact Hrec].
Qed.

(** The loop over the search queries never takes its [break]: whatever the
    limiter says, every query is tried and recorded, and each adds a status
    entry to the rate information. *)
Lemma google_queries_all_tried (queries : list string)
    (google_results : list (string * list string)) (info : list rate_info) (w : World) :
  exists google_results' statuses,
    fst (google_queries queries google_results info w)
    = Return (google_results', info ++ map Status statuses)
    /\ length statuses = length queries
    /\ recorded (snd (google_queries queries google_results info w))
       = recorded w ++ List.repeat GOOGLE_SEARCH (length queries).
Proof.
  revert google_results info w.
  induction queries as [|query rest IH]; intros google_results info w.
  - exists google_results, []. simpl. rewrite !app_nil_r. repeat split.
  - destruct (safe_google_search_run query w) as (results & w1 & Hrun & Hrec).
    set (g1 := match results with
               | [] => google_results
               | _ :: _ => dict_set query results google_results
               end).
    destruct (get_api_status GOOGLE_SEARCH w1) as [o w2] eqn:Hst.
    assert (Ho : exists st, o = Return st /\ recorded w2 = recorded w1).
    { unfold get_api_status, get_recent_calls, get_hourly_calls, get_daily_calls,
        datetime_now, get, mbind, M_bind, mret, M_ret in Hst.
      injection Hst as <- <-. eexists. split; reflexivity. }
    destruct Ho as (st & -> & Hrec2).
    assert (Hstep : google_queries (query :: rest) google_results info w
                    = google_queries rest g1 (info ++ [Status st]) w2).
    { cbn [google_queries]. rewrite bind_run. unfold try_except.
      rewrite bind_run, Hrun. rewrite bind_run, Hst. reflexivity. }
    rewrite Hstep.
    destruct (IH g1 (info ++ [Status st]) w2) as (g' & statuses & Hout & Hlen & Hrec3).
    exists g', (st :: statuses).
    split; [|split].
    + rewrite Hout. cbn [map]. rewrite <- app_assoc. reflexivity.
    + simpl. rewrite Hlen. reflexivity.
    + rewrite Hrec3, Hrec2, Hrec. cbn [length List.repeat].
      rewrite <- app_assoc. reflexivity.
Qed.

(** The reset time reported for the day window is 24 days after the check:
    [reset_interval_days] is 24 and is given to [timedelta] as days. *)
Example daily_reset_after_24_days :
  forall a, timedelta_days (reset_interval_days (limits a)) = 24 * 86400 * 1000000.
Proof. intros []; reflexivity. Qed.


(** * Further properties *)
Import UniRankMore Harness.

(** ** The rate limiter: recording and checking together *)

(** The world after [record_call]: two clock readings, the call appended
    to the log of its interface and the log pruned at 24 hours, one line
    in the record log. *)
Lemma record_call_fields (a : APIType) (w : World) :
  let w' := snd (record_call a w) in
  fst (record_call a w) = Return tt
  /\ reads w' = S (S (reads w))
  /\ clock w' = clock w
  /\ requests w' = requests w
  /\ recorded w' = recorded w ++ [a]
  /\ calls w' a
     = newer (clock w (S (reads w)) - timedelta_hours 24)
             (calls w a ++ [clock w (reads w)])
  /\ (forall b, b <> a -> calls w' b = calls w b).
Proof.
  unfold record_call, add_call, datetime_now, modify, mbind, M_bind, mret, M_ret.
  cbn [fst snd reads clock requests recorded calls set_reads set_calls set_recorded].
  split; [reflexivity|]. split; [reflexivity|]. split; [reflexivity|].
  split; [reflexivity|]. split; [reflexivity|]. split.
  - unfold update_calls. destruct (decide (a = a)); [reflexivity | contradiction].
  - intros b Hb. unfold update_calls. destruct (decide (b = a)); [contradiction | reflexivity].
Qed.

Lemma newer_all (c : Z) (l : list Z) :
  Forall (fun x => c < x) l -> newer c l = l.
Proof.
  induction 1 as [|x l Hx Hl IH]; [reflexivity|]. unfold newer in *. simpl.
  destruct (Z.ltb_spec c x); [|lia]. rewrite IH. reflexivity.
Qed.

(** Calls recorded one after the other while no reading of the clock is
    24 hours after a logged call: the log grows by the first reading of
    each call. *)
Lemma record_n_log (a : APIType) (k : nat) (w : World) :
  (forall j, (reads w <= j < reads w + 2 * k)%nat ->
     Forall (fun x => clock w j - timedelta_hours 24 < x) (calls w a)) ->
  (forall i j, (reads w <= i < reads w + 2 * k)%nat ->
     (reads w <= j < reads w + 2 * k)%nat ->
     clock w j - timedelta_hours 24 < clock w i) ->
  let w' := snd (record_n a k w) in
  fst (record_n a k w) = Return tt
  /\ reads w' = (2 * k + reads w)%nat
  /\ clock w' = clock w
  /\ calls w' a
     = calls w a ++ List.map (fun i => clock w (2 * i + reads w)%nat) (seq 0 k).
Proof.
  revert w. induction k as [|k IH]; intros w Hold Hclock.
  - simpl. rewrite app_nil_r. repeat split.
  - cbn [record_n]. cbv zeta.
    destruct (record_call_fields a w) as (Hret & Hreads & Hclk & _ & _ & Hcalls & _).
    rewrite bind_run.
    destruct (record_call a w) as [o w1] eqn:Hrun. cbn [fst snd] in *. subst o.
    assert (Hlog : calls w1 a = calls w a ++ [clock w (reads w)]).
    { rewrite Hcalls. apply newer_all. apply Forall_app. split.
      - apply Hold. lia.
      - constructor; [|constructor]. apply Hclock; lia. }
    destruct (IH w1) as (Hret' & Hreads' & Hclk' & Hcalls').
    + intros j Hj. rewrite Hclk, Hlog. apply Forall_app. split.
      * apply Hold. lia.
      * constructor; [|constructor]. apply Hclock; lia.
    + intros i j Hi Hj. rewrite Hclk. apply Hclock; lia.
    + split; [exact Hret'|]. split; [rewrite Hreads', Hreads; lia|].
      split; [congruence|].
      rewrite Hcalls', Hlog, Hclk, Hreads, <- app_assoc. f_equal.
      cbn [seq List.map app]. f_equal.
      rewrite <- seq_shift, List.map_map. apply List.map_ext.
      intros i. f_equal. lia.
Qed.

Lemma limits_ordered (a : APIType) :
  requests_per_minute (limits a) <= requests_per_hour (limits a)
  /\ requests_per_hour (limits a) <= requests_per_day (limits a).
Proof. destruct a; vm_compute; split; discriminate. Qed.

(** X1. A limiter whose logged calls of an interface are all less than a
    minute old, during a stretch in which any two readings of the clock
    are less than a minute apart: after [k] more calls are recorded,
    [check_rate_limit] passes exactly when the logged calls and the [k]
    new ones together are fewer than the minute ceiling, and otherwise
    it raises the minute-limit exception, whose reset time is the reading
    after the count plus the minute interval. *)
Theorem quota_is_enforced (a : APIType) (k : nat) (w : World) :
  let stretch (i : nat) := (reads w <= i < reads w + 2 * k + 3)%nat in
  (forall j, stretch j ->
     Forall (fun x => clock w j - timedelta_minutes 1 < x) (calls w a)) ->
  (forall i j, stretch i -> stretch j ->
     clock w j - timedelta_minutes 1 < clock w i) ->
  fst ((record_n a k;; check_rate_limit a) w)
  = if Z.of_nat (length (calls w a) + k) <? requests_per_minute (limits a)
    then Return true
    else Raise (RateLimitExceeded
                  {| api_type := a;
                     reset_time :=
                       clock w (2 * k + 1 + reads w)%nat
                       + timedelta_minutes (reset_interval_minutes (limits a));
                     limit_details :=
                       "Minute limit: " +:+ pretty (requests_per_minute (limits a))
                       +:+ " calls" |}).
Proof.
  intros stretch Hold Hclock. unfold stretch in *. clear stretch.
  assert (Hmin : timedelta_minutes 1 < timedelta_hours 1) by (vm_compute; reflexivity).
  assert (Hhour : timedelta_hours 1 < timedelta_hours 24) by (vm_compute; reflexivity).
  destruct (record_n_log a k w) as (Hret & Hreads & Hclk & Hcalls).
  { intros j Hj. eapply Forall_impl; [apply (Hold j); lia|]. simpl. intros; lia. }
  { intros i j Hi Hj. specialize (Hclock i j ltac:(lia) ltac:(lia)). lia. }
  rewrite bind_run.
  destruct (record_n a k w) as [o w'] eqn:Hrun. cbn [fst snd] in *. subst o.
  rewrite check_rate_limit_outcome. cbv zeta. rewrite Hclk, Hreads, Hcalls.
  assert (Hall : forall j span, (reads w <= j < reads w + 2 * k + 3)%nat ->
            timedelta_minutes 1 <= span ->
            Z.of_nat (length (newer (clock w j - span)
              (calls w a ++ List.map (fun i => clock w (2 * i + reads w)%nat) (seq 0 k))))
            = Z.of_nat (length (calls w a) + k)).
  { intros j span Hj Hspan. rewrite newer_all.
    - rewrite length_app, length_map, length_seq. reflexivity.
    - apply Forall_app. split.
      + eapply Forall_impl; [apply (Hold j); exact Hj|]. simpl. intros; lia.
      + apply List.Forall_forall. intros x Hx. apply List.in_map_iff in Hx.
        destruct Hx as (i & <- & Hi). apply in_seq in Hi.
        specialize (Hclock (2 * i + reads w)%nat j ltac:(lia) Hj). lia. }
  rewrite !Hall by lia.
  destruct (limits_ordered a) as [Hmh Hhd].
  replace (1 + (2 * k + reads w))%nat with (2 * k + 1 + reads w)%nat by lia.
  destruct (Z.ltb_spec (Z.of_nat (length (calls w a) + k)) (requests_per_minute (limits a))).
  - destruct (Z.leb_spec (requests_per_minute (limits a)) (Z.of_nat (length (calls w a) + k)));
      [lia|].
    destruct (Z.leb_spec (requests_per_hour (limits a)) (Z.of_nat (length (calls w a) + k)));
      [lia|].
    destruct (Z.leb_spec (requests_per_day (limits a)) (Z.of_nat (length (calls w a) + k)));
      [lia|]. reflexivity.
  - destruct (Z.leb_spec (requests_per_minute (limits a)) (Z.of_nat (length (calls w a) + k)));
      [reflexivity | lia].
Qed.

(** The Government API with two calls in the last two seconds: after
    three more the sixth is refused. *)
Lemma quota_is_enforced_witness :
  let w := Scenario.with_calls GOVERNMENT_API (Scenario.recent_calls 2) Scenario.quiet in
  fst ((record_n GOVERNMENT_API 3;; check_rate_limit GOVERNMENT_API) w)
  = Raise (RateLimitExceeded
             {| api_type := GOVERNMENT_API;
                reset_time := Scenario.new_year + 7000 + 60000000;
                limit_details := "Minute limit: 5 calls" |}).
Proof.
  intros w.
  refine (eq_trans (quota_is_enforced GOVERNMENT_API 3 w _ _) _).
  - intros j Hj. change (reads w) with 0%nat in Hj.
    do 9 (destruct j as [|j]; [vm_compute; repeat constructor|]). lia.
  - intros i j Hi Hj. change (reads w) with 0%nat in Hi, Hj.
    do 9 (destruct i as [|i];
          [do 9 (destruct j as [|j]; [vm_compute; reflexivity|]); lia|]). lia.
  - vm_compute. reflexivity.
Defined.

(** X2. The quotas are separate: recording a call of one interface
    changes nothing for another one, whose check gives what it would have
    given two clock readings later without the recording. *)
Theorem record_call_leaves_other_quotas (a b : APIType) (w : World) :
  b <> a ->
  calls (snd (record_call a w)) b = calls w b
  /\ fst ((record_call a;; check_rate_limit b) w)
     = fst (check_rate_limit b (set_reads (2 + reads w) w)).
Proof.
  intros Hb.
  destruct (record_call_fields a w) as (Hret & Hreads & Hclk & _ & _ & _ & Hother).
  split; [apply Hother; exact Hb|].
  rewrite bind_run.
  destruct (record_call a w) as [o w1] eqn:Hrun. cbn [fst snd] in *. subst o.
  rewrite !check_rate_limit_outcome. cbv zeta.
  rewrite Hclk, Hreads, (Hother b Hb). reflexivity.
Qed.

Lemma record_call_leaves_other_quotas_witness :
  calls (snd (record_call WIKIPEDIA Scenario.quiet)) GOOGLE_SEARCH = []
  /\ fst ((record_call WIKIPEDIA;; check_rate_limit GOOGLE_SEARCH) Scenario.quiet)
     = fst (check_rate_limit GOOGLE_SEARCH (set_reads 2 Scenario.quiet)).
Proof.
  apply (record_call_leaves_other_quotas WIKIPEDIA GOOGLE_SEARCH Scenario.quiet).
  discriminate.
Defined.

(** X3. [get_next_reset_time] and [check_rate_limit] agree, reading for
    reading: the first returns [None] where the second returns [True], and
    where the second raises, the first returns the reset time that the
    exception carries. Both leave the same world. *)
Theorem get_next_reset_time_agrees (a : APIType) (w : World) :
  snd (get_next_reset_time a w) = snd (check_rate_limit a w)
  /\ match fst (check_rate_limit a w) with
     | Return _ => fst (get_next_reset_time a w) = Return None
     | Raise (RateLimitExceeded e) =>
         fst (get_next_reset_time a w) = Return (Some (reset_time e))
     | Raise _ => False
     end.
Proof.
  unfold get_next_reset_time, check_rate_limit, get_recent_calls, get_hourly_calls,
    get_daily_calls, get_reset_time, datetime_now, get, raise, mbind, M_bind, mret, M_ret.
  cbn [reads set_reads clock calls fst snd String.eqb Ascii.eqb Bool.eqb].
  repeat match goal with
         | |- context [if ?b then _ else _] =>
             destruct b; cbn [reads set_reads clock calls fst snd reset_time]
         end; split; reflexivity.
Qed.

(** X4. [get_api_status] and [check_rate_limit] agree, reading for
    reading: the check passes exactly when the status shows calls
    available in the minute, the hour and the day; each availability is
    between 0 and its ceiling, and is the ceiling less the count when that
    is not negative. *)
Theorem get_api_status_agrees (a : APIType) (w : World) :
  exists st, fst (get_api_status a w) = Return st
    /\ (fst (check_rate_limit a w) = Return true
        <-> 0 < available_minute st /\ 0 < available_hour st /\ 0 < available_day st)
    /\ 0 <= available_minute st <= minute_limit st
    /\ 0 <= available_hour st <= hourly_limit st
    /\ 0 <= available_day st <= daily_limit st
    /\ (calls_last_minute st <= minute_limit st ->
        calls_last_minute st + available_minute st = minute_limit st)
    /\ (calls_last_hour st <= hourly_limit st ->
        calls_last_hour st + available_hour st = hourly_limit st)
    /\ (calls_last_day st <= daily_limit st ->
        calls_last_day st + available_day st = daily_limit st).
Proof.
  eexists. split; [reflexivity|].
  cbn [available_minute available_hour available_day minute_limit hourly_limit
       daily_limit calls_last_minute calls_last_hour calls_last_day].
  cbn [reads set_reads clock calls fst snd].
  split.
  - rewrite check_rate_limit_outcome. cbv zeta.
    change (0 + reads w)%nat with (reads w).
    change (1 + reads w)%nat with (S (reads w)).
    change (2 + reads w)%nat with (S (S (reads w))).
    destruct (Z.leb_spec (requests_per_minute (limits a))
                (Z.of_nat (length (newer (clock w (reads w) - timedelta_minutes 1)
                                         (calls w a))))).
    { split; [discriminate | lia]. }
    destruct (Z.leb_spec (requests_per_hour (limits a))
                (Z.of_nat (length (newer (clock w (S (reads w)) - timedelta_hours 1)
                                         (calls w a))))).
    { split; [discriminate | lia]. }
    destruct (Z.leb_spec (requests_per_day (limits a))
                (Z.of_nat (length (newer (clock w (S (S (reads w))) - timedelta_hours 24)
                                         (calls w a))))).
    { split; [discriminate | lia]. }
    split; [lia | reflexivity].
  - assert (H : 0 <= requests_per_minute (limits a)
                /\ 0 <= requests_per_hour (limits a)
                /\ 0 <= requests_per_day (limits a)).
    { destruct a; vm_compute; repeat split; discriminate. }
    lia.
Qed.

(** ** What the fetchers record and request *)
Lemma within_refl (P : APIType -> Prop) (R : request -> Prop) (w : World) :
  within P R w w.
Proof.
  split; [exists []; rewrite app_nil_r; split; [reflexivity | constructor]|].
  split; [exists []; rewrite app_nil_r; split; [reflexivity | constructor]|].
  reflexivity.
Qed.

Lemma within_same (P : APIType -> Prop) (R : request -> Prop) (w w' : World) :
  recorded w' = recorded w -> requests w' = requests w -> calls w' = calls w ->
  within P R w w'.
Proof.
  intros Hrec Hreq Hcalls.
  split; [exists []; rewrite app_nil_r; split; [exact Hrec | constructor]|].
  split; [exists []; rewrite app_nil_r; split; [exact Hreq | constructor]|].
  intros a _. rewrite Hcalls. reflexivity.
Qed.

Lemma within_trans (P : APIType -> Prop) (R : request -> Prop) (w1 w2 w3 : World) :
  within P R w1 w2 -> within P R w2 w3 -> within P R w1 w3.
Proof.
  intros ((l1 & Hl1 & HP1) & (r1 & Hr1 & HR1) & Hc1)
         ((l2 & Hl2 & HP2) & (r2 & Hr2 & HR2) & Hc2).
  split; [exists (l1 ++ l2); split; [rewrite Hl2, Hl1, app_assoc; reflexivity|]|].
  { apply Forall_app; split; assumption. }
  split; [exists (r1 ++ r2); split; [rewrite Hr2, Hr1, app_assoc; reflexivity|]|].
  { apply Forall_app; split; assumption. }
  intros a Ha. rewrite (Hc2 a Ha). apply Hc1. exact Ha.
Qed.

Lemma within_weaken (P P' : APIType -> Prop) (R R' : request -> Prop) (w w' : World) :
  (forall a, P a -> P' a) -> (forall r, R r -> R' r) ->
  within P R w w' -> within P' R' w w'.
Proof.
  intros HP HR ((l & Hl & Hl') & (rs & Hrs & Hrs') & Hc).
  split; [exists l; split; [exact Hl | eapply Forall_impl; [exact Hl' | exact HP]]|].
  split; [exists rs; split; [exact Hrs | eapply Forall_impl; [exact Hrs' | exact HR]]|].
  intros a Ha. apply Hc. intros HPa. apply Ha, HP, HPa.
Qed.

Section Touches.
Variable P : APIType -> Prop.
Variable R : request -> Prop.

Lemma touches_ret {A : Type} (a : A) : touches_only P R (mret a).
Proof. intros w. apply within_refl. Qed.

Lemma touches_raise {A : Type} (e : exn) : touches_only P R (@raise A e).
Proof. intros w. apply within_refl. Qed.

Lemma touches_bind {A B : Type} (m : M A) (f : A -> M B) :
  touches_only P R m -> (forall a, touches_only P R (f a)) ->
  touches_only P R (m ≫= f).
Proof.
  intros Hm Hf w. rewrite bind_run. specialize (Hm w).
  destruct (m w) as [[a|e] w']; simpl in *; [|exact Hm].
  eapply within_trans; [exact Hm | apply Hf].
Qed.

Lemma touches_try {A : Type} (body : M A) (handler : exn -> M A) :
  touches_only P R body -> (forall e, touches_only P R (handler e)) ->
  touches_only P R (try_except body handler).
Proof.
  intros Hm Hh w. unfold try_except. specialize (Hm w).
  destruct (body w) as [[a|e] w']; simpl in *; [exact Hm|].
  eapply within_trans; [exact Hm | apply Hh].
Qed.

Lemma touches_datetime_now : touches_only P R datetime_now.
Proof. intros w. apply within_same; reflexivity. Qed.

Lemma touches_check_rate_limit (a : APIType) : touches_only P R (check_rate_limit a).
Proof.
  intros w. destruct (check_rate_limit_world a w) as [n ->].
  apply within_same; reflexivity.
Qed.

Lemma touches_get_api_status (a : APIType) : touches_only P R (get_api_status a).
Proof. intros w. apply within_same; reflexivity. Qed.

Lemma touches_int (s : string) : touches_only P R (int s).
Proof. unfold int. destruct (parse_int s); [apply touches_ret | apply touches_raise]. Qed.

Lemma touches_record_call (a : APIType) : P a -> touches_only P R (record_call a).
Proof.
  intros Ha w.
  destruct (record_call_fields a w) as (_ & _ & _ & Hreq & Hrec & _ & Hother).
  split; [exists [a]; split; [exact Hrec | constructor; [exact Ha | constructor]]|].
  split; [exists []; rewrite app_nil_r; split; [exact Hreq | constructor]|].
  intros b Hb. apply Hother. intros ->. exact (Hb Ha).
Qed.

Lemma touches_wikipedia_page (title : string) (auto_suggest : bool) :
  R (WikipediaPageCall title auto_suggest) ->
  touches_only P R (wikipedia_page title auto_suggest).
Proof.
  intros Hr w. unfold wikipedia_page.
  assert (H : within P R w
                (set_requests (requests w ++ [WikipediaPageCall title auto_suggest]) w)).
  { split; [exists []; rewrite app_nil_r; split; [reflexivity | constructor]|].
    split; [eexists; split; [reflexivity | constructor; [exact Hr | constructor]]|].
    reflexivity. }
  destruct (wikipedia_site w _ title auto_suggest); exact H.
Qed.

Lemma touches_http_get (url : string) :
  R (HttpGet url) -> touches_only P R (http_get url).
Proof.
  intros Hr w. unfold http_get.
  assert (H : within P R w (set_requests (requests w ++ [HttpGet url]) w)).
  { split; [exists []; rewrite app_nil_r; split; [reflexivity | constructor]|].
    split; [eexists; split; [reflexivity | constructor; [exact Hr | constructor]]|].
    reflexivity. }
  destruct (web w _ url); exact H.
Qed.

End Touches.

(** What a term of the monad touches, whatever its outcome. *)
Ltac touches :=
  repeat first
    [ apply touches_ret
    | apply touches_raise
    | apply touches_datetime_now
    | apply touches_check_rate_limit
    | apply touches_get_api_status
    | apply touches_int
    | match goal with
      | |- touches_only _ _ (record_call _) => apply touches_record_call
      | |- touches_only _ _ (wikipedia_page _ _) => apply touches_wikipedia_page
      | |- touches_only _ _ (http_get _) => apply touches_http_get
      end
    | apply touches_bind; [| intros ?]
    | apply touches_try; [| intros ?]
    | match goal with
      | |- touches_only _ _ (match ?x with _ => _ end) => destruct x
      | |- touches_only _ _ (if ?x then _ else _) => destruct x
      end ].

Lemma prefix_app (p s : string) : String.prefix p (p +:+ s) = true.
Proof.
  induction p as [|c p IH]; simpl; [destruct s; reflexivity|].
  destruct (ascii_dec c c); [exact IH | contradiction].
Qed.

Lemma touches_safe_fetch_wikipedia (university_name : string) :
  touches_only (fun a => a = WIKIPEDIA)
    (fun r => match r with WikipediaPageCall _ _ => True | HttpGet _ => False end)
    (safe_fetch_wikipedia university_name).
Proof.
  unfold safe_fetch_wikipedia, time_time, first_item.
  touches; first [reflexivity | exact I].
Qed.

Lemma touches_safe_google_search (query : string) :
  touches_only (fun a => a = GOOGLE_SEARCH)
    (fun r => match r with
              | WikipediaPageCall _ _ => False
              | HttpGet url => Py.startswith url "https://www.google.com/search?q=" = true
              end)
    (safe_google_search query).
Proof.
  unfold safe_google_search.
  touches; first [reflexivity | apply prefix_app].
Qed.

Lemma touches_safe_fetch_webometrics (university_name : string) :
  touches_only (fun a => a = WEBOMETRICS)
    (fun r => match r with
              | WikipediaPageCall _ _ => False
              | HttpGet url =>
                  Py.startswith url "https://www.webometrics.info/en/search/site/" = true
              end)
    (safe_fetch_webometrics university_name).
Proof.
  unfold safe_fetch_webometrics.
  touches; first [reflexivity | apply prefix_app].
Qed.

Lemma touches_weaken {A : Type} (P P' : APIType -> Prop) (R R' : request -> Prop)
    (m : M A) :
  (forall a, P a -> P' a) -> (forall r, R r -> R' r) ->
  touches_only P R m -> touches_only P' R' m.
Proof. intros HP HR Hm w. eapply within_weaken; [exact HP | exact HR | apply Hm]. Qed.

Lemma touches_google_queries (P : APIType -> Prop) (R : request -> Prop)
    (queries : list string) (google_results : list (string * list string))
    (info : list rate_info) :
  (forall q, touches_only P R (safe_google_search q)) ->
  touches_only P R (google_queries queries google_results info).
Proof.
  intros Hq. revert google_results info.
  induction queries as [|query rest IH]; intros google_results info; simpl.
  - apply touches_ret.
  - apply touches_bind.
    + apply touches_try; [apply touches_bind; [apply Hq|] |]; intros; touches.
    + intros [[g i]|i]; [apply IH | apply touches_ret].
Qed.

Lemma touches_bind_value {A B : Type} (P : APIType -> Prop) (R : request -> Prop)
    (m : M A) (f : A -> M B) (Q : A -> Prop) :
  touches_only P R m ->
  (forall w a, fst (m w) = Return a -> Q a) ->
  (forall a, Q a -> touches_only P R (f a)) ->
  touches_only P R (m ≫= f).
Proof.
  intros Hm HQ Hf w. rewrite bind_run. specialize (Hm w). specialize (HQ w).
  destruct (m w) as [[a|e] w']; simpl in *; [|exact Hm].
  eapply within_trans; [exact Hm | apply Hf, HQ; reflexivity].
Qed.

(** X5. [fetch_all_data] goes only to the sources that the configuration
    enables (the default one, Wikipedia alone, when none is given): every
    call it records is of the interface of an enabled source, every
    request it sends goes to the site of an enabled source, and the call
    logs of the other interfaces are left as they were. *)
Theorem fetch_all_data_only_enabled_sources (university_name country : string)
    (uid : option string) (user_config : option UserConfiguration) :
  touches_only (enabled_api (enabled user_config)) (enabled_request (enabled user_config))
    (fetch_all_data university_name country uid user_config).
Proof.
  unfold fetch_all_data.
  apply touches_bind_value
    with (Q := fun c => (enable_wikipedia c, enable_google_search c, enable_webometrics c)
                        = enabled user_config).
  { destruct user_config; [apply touches_ret|].
    unfold UserConfiguration_init. touches. }
  { intros w c. destruct user_config as [c'|]; simpl.
    - intros [= ->]. reflexivity.
    - intros [= <-]. reflexivity. }
  intros cfg Hcfg. rewrite <- Hcfg. clear Hcfg.
  apply touches_bind.
  { destruct (enable_wikipedia cfg) eqn:Hw; [|apply touches_ret].
    apply touches_try; [apply touches_bind|]; [| intros; touches | intros; touches].
    eapply touches_weaken; [| |apply touches_safe_fetch_wikipedia].
    - intros a ->. left. split; reflexivity.
    - intros [t s|url]; [reflexivity | contradiction]. }
  intros s1. apply touches_bind.
  { destruct (enable_google_search cfg) eqn:Hg; [|apply touches_ret].
    apply touches_bind.
    - apply touches_google_queries. intros q.
      eapply touches_weaken; [| |apply touches_safe_google_search].
      + intros a ->. right. left. split; reflexivity.
      + intros [t s|url]; [contradiction|]. intros Hurl.
        destruct (enable_wikipedia cfg); left; split; [reflexivity | exact Hurl
                                                     | reflexivity | exact Hurl].
    - intros [g i]. touches. }
  intros s2. apply touches_bind.
  { destruct (enable_webometrics cfg) eqn:Hm; [|apply touches_ret].
    apply touches_try; [apply touches_bind|]; [| intros; touches | intros; touches].
    eapply touches_weaken; [| |apply touches_safe_fetch_webometrics].
    - intros a ->. right. right. split; reflexivity.
    - intros [t s|url]; [contradiction|]. intros Hurl.
      destruct (enable_wikipedia cfg), (enable_google_search cfg);
        right; split; first [reflexivity | exact Hurl]. }
  intros s3. touches.
Qed.

(** ** What the fetchers return *)
Lemma substring_length (n : nat) (s : string) :
  (String.length (String.substring 0 n s) <= n)%nat.
Proof.
  revert s. induction n as [|n IH]; intros [|c s]; simpl; try lia.
  specialize (IH s). lia.
Qed.

Lemma ranking_lines_bounded (content : string) :
  (length (ranking_lines content) <= 5)%nat
  /\ Forall (fun line => (String.length line <= 200)%nat) (ranking_lines content).
Proof.
  unfold ranking_lines. split; [rewrite length_firstn; lia|].
  apply Forall_take. apply List.Forall_forall. intros line Hin.
  apply List.in_map_iff in Hin.
  destruct Hin as (l & <- & _). apply substring_length.
Qed.

(** The data of each fetcher is one entry under the name of its source. *)
Lemma safe_fetch_wikipedia_key (university_name : string) (w : World)
    (d : gmap string value) :
  fst (safe_fetch_wikipedia university_name w) = Return (Some d) ->
  exists v, d = {[ "wikipedia" := v ]}.
Proof.
  destruct (check_rate_limit_cases WIKIPEDIA w) as [n [Hc|[e Hc]]];
    unfold safe_fetch_wikipedia, try_except, time_time, datetime_now, wikipedia_page,
      first_item;
    rewrite bind_run, Hc; [|discriminate].
  unfold mbind, M_bind. simpl.
  destruct (wikipedia_site w (length (requests w))
              (university_name +:+ " university") true) as [p|options| |what];
    simpl; try discriminate.
  - intros [= <-]. eexists. reflexivity.
  - destruct options as [|first_option rest]; simpl; [discriminate|].
    match goal with
    | |- context [wikipedia_site w ?k first_option true] =>
        destruct (wikipedia_site w k first_option true)
    end; simpl; try discriminate.
    intros [= <-]. eexists. reflexivity.
Qed.

(** X6. Whatever Wikipedia answers, the data that [safe_fetch_wikipedia]
    returns is one entry under the key "wikipedia", whose summary has at
    most 500 characters and whose ranking lines, when it has them, are at
    most five, of at most 200 characters each; and when it returns data
    it has recorded one call. *)
Theorem safe_fetch_wikipedia_payload (university_name : string) (w : World)
    (d : gmap string value) :
  fst (safe_fetch_wikipedia university_name w) = Return (Some d) ->
  wikipedia_payload d
  /\ recorded (snd (safe_fetch_wikipedia university_name w)) = recorded w ++ [WIKIPEDIA].
Proof.
  destruct (check_rate_limit_cases WIKIPEDIA w) as [n [Hc|[e Hc]]];
    unfold safe_fetch_wikipedia, try_except, time_time, datetime_now, wikipedia_page,
      first_item;
    rewrite bind_run, Hc; [|discriminate].
  unfold mbind, M_bind. simpl.
  destruct (wikipedia_site w (length (requests w))
              (university_name +:+ " university") true) as [p|options| |what];
    simpl; try discriminate.
  - intros [= <-]. split; [|reflexivity]. eexists. split; [reflexivity|]. simpl.
    split; [apply substring_length | apply ranking_lines_bounded].
  - destruct options as [|first_option rest]; simpl; [discriminate|].
    match goal with
    | |- context [wikipedia_site w ?k first_option true] =>
        destruct (wikipedia_site w k first_option true)
    end; simpl; try discriminate.
    intros [= <-]. split; [|reflexivity]. eexists. split; [reflexivity|]. simpl.
    split; [apply substring_length | exact I].
Qed.

Lemma safe_fetch_wikipedia_payload_witness :
  wikipedia_payload
    {[ "wikipedia" :=
         VWikipedia
           {| wd_summary := "A public research university with a large faculty.";
              wd_url := "https://en.wikipedia.org/wiki/Example";
              wd_categories := ["Universities"];
              wd_fetch_time := 1000;
              wd_rankings := Some [];
              wd_note := None |} ]}
  /\ recorded (snd (safe_fetch_wikipedia "Example" Scenario.library))
     = recorded Scenario.library ++ [WIKIPEDIA].
Proof.
  apply (safe_fetch_wikipedia_payload "Example" Scenario.library).
  vm_compute. reflexivity.
Defined.

Lemma safe_fetch_webometrics_key (university_name : string) (w : World)
    (d : gmap string value) :
  fst (safe_fetch_webometrics university_name w) = Return (Some d) ->
  exists v, d = {[ "webometrics" := v ]}.
Proof.
  destruct (check_rate_limit_cases WEBOMETRICS w) as [n [Hc|[e Hc]]];
    unfold safe_fetch_webometrics, try_except, http_get, int;
    rewrite bind_run, Hc; [|discriminate].
  unfold mbind, M_bind. simpl.
  destruct (web w (length (requests w)) _) as [r|what]; simpl; [|discriminate].
  destruct (status_code r =? 200); simpl.
  - intros [= <-]. eexists. reflexivity.
  - destruct (status_code r =? 429); simpl; [|discriminate].
    destruct (parse_int (default "60" (retry_after r))); simpl; discriminate.
Qed.

(** ** The payload of the aggregator *)

(** A stage of [fetch_all_data] for one source keeps an invariant of its
    locals that the three ways out of the stage keep. *)
Lemma ensures_source_stage_inv (fetch : M (option (gmap string value)))
    (a : APIType) (label : string) (s : fetch_state)
    (D : gmap string value -> Prop) (I : fetch_state -> Prop) :
  ensures fetch returns_or_limited ->
  (forall w d, fst (fetch w) = Return (Some d) -> D d) ->
  I s ->
  (forall d st, D d ->
     I {| all_data := d ∪ all_data s;
          rate_limit_info := rate_limit_info s ++ [Status st];
          data_sources_used := data_sources_used s ++ [label] |}) ->
  (forall e, I {| all_data := all_data s;
                  rate_limit_info := rate_limit_info s ++ [rate_limited_note label e];
                  data_sources_used := data_sources_used s |}) ->
  ensures
    (try_except
       (found ← fetch;
        match found with
        | Some d =>
            st ← get_api_status a;
            mret {| all_data := d ∪ all_data s;
                    rate_limit_info := rate_limit_info s ++ [Status st];
                    data_sources_used := data_sources_used s ++ [label] |}
        | None => mret s
        end)
       (fun e =>
          match e with
          | RateLimitExceeded e' =>
              mret {| all_data := all_data s;
                      rate_limit_info := rate_limit_info s ++ [rate_limited_note label e'];
                      data_sources_used := data_sources_used s |}
          | _ => raise e
          end))
    (fun o => exists s', o = Return s' /\ I s').
Proof.
  intros Hfetch HD Hs Hadd Hnote.
  assert (Hfetch' : ensures fetch
            (fun o => returns_or_limited o /\ forall d, o = Return (Some d) -> D d)).
  { intros w. destruct (Hfetch w) as [Ho Henv]. split; [|exact Henv].
    split; [exact Ho|]. intros d Hd. apply (HD w d Hd). }
  eapply ensures_try
    with (P := fun o => (exists s', o = Return s' /\ I s')
                        \/ exists e, o = Raise (RateLimitExceeded e)).
  - eapply ensures_bind; [exact Hfetch' | |].
    + intros [d|] [_ Hd].
      * eapply ensures_bind; [apply ensures_get_api_status | |].
        -- intros st _. apply ensures_ret. left. eexists; split; [reflexivity|].
           apply Hadd, Hd. reflexivity.
        -- intros e He. destruct (returns_not_raise _ He).
      * apply ensures_ret. left. eexists; split; [reflexivity | exact Hs].
    + intros e [[[x Hx]|[e' He']] _]; [discriminate|].
      injection He' as ->. right. eexists; reflexivity.
  - intros s' [(s'' & Hs'' & Hl)|(e & He)]; [|discriminate].
    exists s''. split; [exact Hs'' | exact Hl].
  - intros e [(s'' & Hs'' & Hl)|(e' & He')]; [discriminate|].
    injection He' as ->. apply ensures_ret. eexists; split; [reflexivity | apply Hnote].
Qed.

Lemma tagged_skip (flags : bool * bool * bool) (order : list string) (label : string)
    (s s' : fetch_state) :
  tagged flags order s ->
  all_data s' = all_data s ->
  data_sources_used s' = data_sources_used s ->
  tagged flags (order ++ [label]) s'.
Proof.
  intros (Hkeys & Hsub & Hen) Hdata Hused. unfold tagged. rewrite Hdata, Hused.
  split; [exact Hkeys|]. split; [|exact Hen].
  apply sublist_inserts_r. exact Hsub.
Qed.

Lemma tagged_add (flags : bool * bool * bool) (order : list string) (label : string)
    (s s' : fetch_state) :
  tagged flags order s ->
  enabled_source flags label ->
  (forall k, is_Some (all_data s' !! k) <-> k = label \/ is_Some (all_data s !! k)) ->
  data_sources_used s' = data_sources_used s ++ [label] ->
  tagged flags (order ++ [label]) s'.
Proof.
  intros (Hkeys & Hsub & Hen) Hlabel Hdata Hused. unfold tagged. rewrite Hused.
  split; [|split].
  - intros k. rewrite Hdata, in_app_iff, Hkeys. simpl. intuition congruence.
  - apply sublist_app; [exact Hsub | reflexivity].
  - apply Forall_app. split; [exact Hen | constructor; [exact Hlabel | constructor]].
Qed.

Lemma union_singleton_is_Some (label k : string) (v : value) (m : gmap string value) :
  is_Some (({[ label := v ]} ∪ m) !! k) <-> k = label \/ is_Some (m !! k).
Proof.
  rewrite lookup_union_is_Some. destruct (decide (k = label)) as [->|Hne].
  - rewrite lookup_singleton_eq. split; [left; reflexivity | left; eexists; reflexivity].
  - rewrite lookup_singleton_ne by congruence.
    split; intros [H|H]; try (right; exact H); [destruct H; discriminate | contradiction].
Qed.

Lemma insert_is_Some (label k : string) (v : value) (m : gmap string value) :
  is_Some (<[ label := v ]> m !! k) <-> k = label \/ is_Some (m !! k).
Proof.
  rewrite lookup_insert_is_Some. destruct (decide (label = k)); intuition congruence.
Qed.

(** The sources that the payload of [fetch_all_data] lists are enabled
    ones, in the order Wikipedia, Google search, Webometrics; the keys of
    the payload are these sources and, when there is one, the key of the
    list itself. *)
Lemma ensures_fetch_all_data_payload (university_name country : string)
    (uid : option string) (user_config : option UserConfiguration) :
  ensures (fetch_all_data university_name country uid user_config)
    (fun o => exists data info,
       o = Return (data, info)
       /\ sublist (sources_of data) ["wikipedia"; "google_search"; "webometrics"]
       /\ Forall (enabled_source (enabled user_config)) (sources_of data)
       /\ forall k, is_Some (data !! k)
                    <-> In k (sources_of data)
                        \/ (k = "data_sources_used" /\ sources_of data <> [])).
Proof.
  unfold fetch_all_data.
  eapply ensures_bind
    with (P := fun o => exists c, o = Return c
                 /\ (enable_wikipedia c, enable_google_search c, enable_webometrics c)
                    = enabled user_config).
  { destruct user_config; [apply ensures_ret; eexists; split; reflexivity|].
    unfold UserConfiguration_init.
    eapply ensures_bind; [apply ensures_datetime_now | |].
    - intros now _. apply ensures_ret. eexists; split; reflexivity.
    - intros e He. destruct (returns_not_raise _ He). }
  2: { intros e (c & Hc & _). discriminate. }
  intros cfg (c & [= <-] & Hflags). rewrite <- Hflags. clear Hflags.
  set (flags := (enable_wikipedia cfg, enable_google_search cfg, enable_webometrics cfg)).
  eapply ensures_bind
    with (P := fun o => exists s', o = Return s' /\ tagged flags ["wikipedia"] s').
  { set (s0 := {| all_data := ∅; rate_limit_info := []; data_sources_used := [] |}).
    assert (H0 : tagged flags [] s0).
    { split; [|split; [reflexivity | constructor]].
      intros k. simpl. rewrite lookup_empty. split; [intros [x Hx]; discriminate | tauto]. }
    destruct (enable_wikipedia cfg) eqn:Hw.
    - apply (ensures_source_stage_inv _ _ _ _ (fun d => exists v, d = {[ "wikipedia" := v ]})).
      + apply ensures_safe_fetch_wikipedia.
      + apply safe_fetch_wikipedia_key.
      + apply (tagged_skip flags [] "wikipedia" s0 _ H0); reflexivity.
      + intros d st (data & ->).
        apply (tagged_add flags [] "wikipedia" s0 _ H0); [| |reflexivity].
        * unfold flags. rewrite ?Hw. left. split; reflexivity.
        * intros k. apply union_singleton_is_Some.
      + intros e. apply (tagged_skip flags [] "wikipedia" s0 _ H0); reflexivity.
    - apply ensures_ret. eexists; split; [reflexivity|].
      apply (tagged_skip flags [] "wikipedia" s0 _ H0); reflexivity. }
  2: { intros e (s' & Hs' & _). discriminate. }
  intros s1 (s1' & [= <-] & Hs1).
  eapply ensures_bind
    with (P := fun o => exists s', o = Return s'
                 /\ tagged flags ["wikipedia"; "google_search"] s').
  { destruct (enable_google_search cfg) eqn:Hg.
    - eapply ensures_bind; [apply ensures_google_queries | |].
      + intros [google_results info] _. destruct google_results.
        * apply ensures_ret. eexists; split; [reflexivity|].
          apply (tagged_skip flags ["wikipedia"] "google_search" s1 _ Hs1); reflexivity.
        * apply ensures_ret. eexists; split; [reflexivity|].
          apply (tagged_add flags ["wikipedia"] "google_search" s1 _ Hs1);
            [| |reflexivity].
          -- unfold flags. rewrite ?Hg. right. left. split; reflexivity.
          -- intros k. apply insert_is_Some.
      + intros e He. destruct (returns_not_raise _ He).
    - apply ensures_ret. eexists; split; [reflexivity|].
      apply (tagged_skip flags ["wikipedia"] "google_search" s1 _ Hs1); reflexivity. }
  2: { intros e (s' & Hs' & _). discriminate. }
  intros s2 (s2' & [= <-] & Hs2).
  eapply ensures_bind
    with (P := fun o => exists s', o = Return s'
                 /\ tagged flags ["wikipedia"; "google_search"; "webometrics"] s').
  { destruct (enable_webometrics cfg) eqn:Hm.
    - apply (ensures_source_stage_inv _ _ _ _ (fun d => exists v, d = {[ "webometrics" := v ]})).
      + apply ensures_safe_fetch_webometrics.
      + apply safe_fetch_webometrics_key.
      + apply (tagged_skip flags ["wikipedia"; "google_search"] "webometrics" s2 _ Hs2);
          reflexivity.
      + intros d st (data & ->).
        apply (tagged_add flags ["wikipedia"; "google_search"] "webometrics" s2 _ Hs2);
          [| |reflexivity].
        * unfold flags. rewrite ?Hm. right. right. split; reflexivity.
        * intros k. apply union_singleton_is_Some.
      + intros e.
        apply (tagged_skip flags ["wikipedia"; "google_search"] "webometrics" s2 _ Hs2);
          reflexivity.
    - apply ensures_ret. eexists; split; [reflexivity|].
      apply (tagged_skip flags ["wikipedia"; "google_search"] "webometrics" s2 _ Hs2);
        reflexivity. }
  2: { intros e (s' & Hs' & _). discriminate. }
  intros s3 (s3' & [= <-] & (Hkeys & Hsub & Hen)).
  apply ensures_ret. do 2 eexists. split; [reflexivity|].
  assert (Hno : ~ In "data_sources_used" (data_sources_used s3)).
  { intros Hin. rewrite List.Forall_forall in Hen. specialize (Hen _ Hin).
    unfold flags, enabled_source in Hen.
    destruct Hen as [[? _]|[[? _]|[? _]]]; discriminate. }
  destruct (data_sources_used s3) as [|x l] eqn:Hused.
  - assert (Hsrc : sources_of (all_data s3) = []).
    { unfold sources_of.
      destruct (all_data s3 !! "data_sources_used") eqn:Hl; [|reflexivity].
      destruct (proj1 (Hkeys "data_sources_used") ltac:(eexists; exact Hl)). }
    rewrite Hsrc. split; [apply sublist_nil_l|]. split; [constructor|].
    intros k. rewrite Hkeys. simpl. intuition congruence.
  - assert (Hsrc : sources_of (<["data_sources_used" := VSources (x :: l)]> (all_data s3))
                   = x :: l).
    { unfold sources_of. rewrite lookup_insert_eq. reflexivity. }
    rewrite Hsrc. split; [exact Hsub|]. split; [exact Hen|].
    intros k. rewrite insert_is_Some, Hkeys. split.
    + intros [->|Hin]; [right; split; [reflexivity | discriminate] | left; exact Hin].
    + intros [Hin|[-> _]]; [right; exact Hin | left; reflexivity].
Qed.

(** X7. [fetch_all_data] always returns, and leaves the cache as it was.
    The sources that its payload lists are enabled ones (those of the
    default configuration when none is given), in the order Wikipedia,
    Google search, Webometrics; the keys of the payload are these sources
    and, when it is not empty, the key "data_sources_used" of the list
    itself. *)
Theorem fetch_all_data_payload (university_name country : string)
    (uid : option string) (user_config : option UserConfiguration) (w : World) :
  exists data info,
    fst (fetch_all_data university_name country uid user_config w) = Return (data, info)
    /\ real_data_cache (snd (fetch_all_data university_name country uid user_config w))
       = real_data_cache w
    /\ sublist (sources_of data) ["wikipedia"; "google_search"; "webometrics"]
    /\ Forall (enabled_source (enabled user_config)) (sources_of data)
    /\ (forall k, is_Some (data !! k)
                  <-> In k (sources_of data)
                      \/ (k = "data_sources_used" /\ sources_of data <> [])).
Proof.
  destruct (ensures_fetch_all_data_payload university_name country uid user_config w)
    as [(data & info & Hout & Hsub & Hen & Hkeys) (Hcache & _)].
  exists data, info. split; [exact Hout|]. split; [exact Hcache|].
  split; [exact Hsub|]. split; [exact Hen | exact Hkeys].
Qed.

(** ** Refusals *)




Lemma try_run {A : Type} (body : M A) (handler : exn -> M A) (w : World) :
  try_except body handler w
  = match body w with
    | (Return a, w') => (Return a, w')
    | (Raise e, w') => handler e w'
    end.
Proof. reflexivity. Qed.

Lemma safe_fetch_wikipedia_refused (university_name : string) (w w1 : World)
    (e : RateLimitExceededException) :
  check_rate_limit WIKIPEDIA w = (Raise (RateLimitExceeded e), w1) ->
  safe_fetch_wikipedia university_name w = (Raise (RateLimitExceeded e), w1).
Proof.
  intros Hc. unfold safe_fetch_wikipedia. rewrite try_run, bind_run, Hc. reflexivity.
Qed.

(** X9. With Wikipedia the only source enabled, as in the default
    configuration, a refusal by the limiter ends [fetch_all_data] with an
    empty payload and one "rate_limited" note that carries the reset time
    and the message of the exception; nothing is requested and nothing is
    recorded. *)
Theorem refused_wikipedia_is_noted (university_name country : string)
    (uid : option string) (c : UserConfiguration) (w : World)
    (e : RateLimitExceededException) :
  enable_wikipedia c = true ->
  enable_google_search c = false ->
  enable_webometrics c = false ->
  fst (check_rate_limit WIKIPEDIA w) = Raise (RateLimitExceeded e) ->
  let out := fetch_all_data university_name country uid (Some c) w in
  fst out = Return (∅, [RateLimited "wikipedia" (reset_time e) (message e)])
  /\ requests (snd out) = requests w
  /\ recorded (snd out) = recorded w
  /\ calls (snd out) = calls w.
Proof.
  intros Hw Hg Hm Hcheck out. subst out.
  destruct (check_rate_limit_cases WIKIPEDIA w) as [n [Hc|[e' Hc]]];
    rewrite Hc in Hcheck; [discriminate | injection Hcheck as ->].
  apply (safe_fetch_wikipedia_refused university_name) in Hc.
  unfold fetch_all_data. rewrite bind_run.
  change ((mret c : M UserConfiguration) w) with (Return c, w). cbv iota beta.
  rewrite Hw, Hg, Hm. rewrite bind_run, try_run, bind_run, Hc.
  split; [reflexivity|]. split; [reflexivity|]. split; reflexivity.
Qed.

(** A hundred calls of Wikipedia in the last second. *)
Lemma refused_wikipedia_is_noted_witness :
  let w := Scenario.with_calls WIKIPEDIA
             (List.repeat (Scenario.new_year - 1000000) 100) Scenario.quiet in
  let e := {| api_type := WIKIPEDIA;
              reset_time := Scenario.new_year + 1000 + 60000000;
              limit_details := "Minute limit: 100 calls" |} in
  let out := fetch_all_data "Example" "USA" None (Some (Scenario.user true false false)) w in
  fst out = Return (∅, [RateLimited "wikipedia" (reset_time e) (message e)])
  /\ requests (snd out) = requests w
  /\ recorded (snd out) = recorded w
  /\ calls (snd out) = calls w.
Proof.
  intros w e.
  apply (refused_wikipedia_is_noted "Example" "USA" None
           (Scenario.user true false false) w e);
    [reflexivity | reflexivity | reflexivity |].
  vm_compute. reflexivity.
Defined.

(** ** The cache *)

(** X10. The result cache only grows: whatever the request, an entry that
    is in the cache before [fetch_real_data] is in it afterwards with the
    same payload and rate information, and no key other than the one of
    the request changes. *)
Theorem fetch_real_data_keeps_entries (university_name country : string)
    (uid : option string) (user_config : option UserConfiguration) (w : World) :
  let w' := snd (fetch_real_data university_name country uid user_config w) in
  (forall k entry,
      real_data_cache w !! k = Some entry -> real_data_cache w' !! k = Some entry)
  /\ (forall k, k <> cache_key university_name country ->
        real_data_cache w' !! k = real_data_cache w !! k).
Proof.
  intros w'. subst w'.
  destruct (real_data_cache w !! cache_key university_name country)
    as [[data info]|] eqn:Hcache.
  - rewrite (fetch_real_data_hit _ _ _ _ _ _ _ Hcache). split; intros; assumption || reflexivity.
  - destruct (fetch_real_data_miss university_name country uid user_config w Hcache)
      as (fetched & info & w1 & _ & (Hsame & _) & _ & Hreal).
    cbv zeta in Hreal. rewrite Hreal. cbn [snd].
    destruct (dict_truthy _); cbn [real_data_cache set_real_data_cache]; rewrite Hsame.
    + split.
      * intros k entry Hk. rewrite lookup_insert_ne; [exact Hk|].
        intros <-. rewrite Hcache in Hk. discriminate.
      * intros k Hk. apply lookup_insert_ne. congruence.
    + split; intros; assumption || reflexivity.
Qed.

(** ** Scores, composite and tier *)
Section MoreScores.
Local Open Scope Q_scope.

Lemma composite_one_decimal (s : Scores) :
  in_bounds s ->
  exists n, (0 <= n <= 1000)%Z /\ calculate_composite_score s = n # 10.
Proof.
  intros (Ha & Hg & Hr & Hf & Ht & Hv).
  change (academic parameters_max) with 25 in Ha.
  change (graduate parameters_max) with 25 in Hg.
  change (roi parameters_max) with 20 in Hr.
  change (fsr parameters_max) with 15 in Hf.
  change (transparency parameters_max) with 10 in Ht.
  change (visibility parameters_max) with 5 in Hv.
  assert (H : 0 # 10 <= Py.round1 (sum_scores s) <= 1000 # 10).
  { apply round1_between; unfold sum_scores; lra. }
  unfold calculate_composite_score, Py.round1 in *.
  revert H. generalize (Py.round_half_even (sum_scores s * 10)). intros n [H0 H1].
  exists n. split; [|reflexivity].
  unfold Qle in H0, H1. simpl in H0, H1. lia.
Qed.

(** X11. For scores that are within their bounds, the composite is between
    0 and 100, and the range table of [get_tier] gives it the tier of the
    thresholds 85, 75, 65, 55 and 45: no composite of such scores falls
    into a gap of the table. *)
Theorem composite_of_bounded_scores (s : Scores) :
  in_bounds s ->
  let c := calculate_composite_score s in
  0 <= c <= 100 /\ fst (get_tier c) = Rank.get_tier c.
Proof.
  intros Hs c. subst c. destruct (composite_one_decimal s Hs) as (n & Hn & ->).
  split; [|apply get_tier_one_decimal; exact Hn].
  unfold Qle. simpl. lia.
Qed.

(** The scores of [test_composite_score_calculation]. *)
Lemma composite_of_bounded_scores_witness :
  let c := calculate_composite_score (mkScores 20 18 16 12 8 4) in
  0 <= c <= 100 /\ fst (get_tier c) = Rank.get_tier c.
Proof.
  apply (composite_of_bounded_scores (mkScores 20 18 16 12 8 4)).
  unfold in_bounds.
  split; [vm_compute; split; discriminate|].
  split; [vm_compute; split; discriminate|].
  split; [vm_compute; split; discriminate|].
  split; [vm_compute; split; discriminate|].
  split; vm_compute; split; discriminate.
Defined.

(** X12. The heuristic scores are within their bounds in both programs:
    those of [estimate_scores] of [pkUniRankBot.py] for every name and
    country, those of [pkWAUniRankBot.py] also for every state of the
    generator. *)
Theorem heuristic_scores_within_bounds (name country : string) (w : World) :
  in_bounds (estimate_scores name country)
  /\ exists s, fst (WA.estimate_scores name country w) = Return s /\ in_bounds s.
Proof.
  split; [apply estimate_scores_in_bounds | apply wa_estimate_scores_in_bounds].
Qed.

Lemma assoc_Forall {V : Type} (P : V -> Prop) (k : string) (l : list (string * V)) (v : V) :
  Forall (fun kv => P (snd kv)) l -> Py.assoc k l = Some v -> P v.
Proof.
  induction 1 as [|[k' v'] l Hkv Hl IH]; simpl; [discriminate|].
  destruct (String.eqb k k'); [intros [= <-]; exact Hkv | exact IH].
Qed.

Lemma partial_match_Forall (P : Q -> Prop) (c : string) (l : list (string * Q)) (m : Q) :
  Forall (fun kv => P (snd kv)) l -> partial_match c l = Some m -> P m.
Proof.
  induction 1 as [|[k' v'] l Hkv Hl IH]; simpl; [discriminate|].
  destruct (_ || _); [intros [= <-]; exact Hkv | exact IH].
Qed.

Lemma country_multipliers_table_range :
  Forall (fun kv : string * Q => 0.85 <= snd kv <= 1.2) country_multipliers.
Proof. repeat (constructor; [split; discriminate|]). constructor. Qed.

(** X13. Whatever the country string, the multiplier that
    [_get_country_multiplier] finds, by the exact match, by the first
    partial match or by default, is between 0.85 and 1.2. *)
Theorem country_multiplier_range (country_upper : string) :
  0.85 <= _get_country_multiplier country_upper <= 1.2.
Proof.
  unfold _get_country_multiplier.
  destruct (Py.assoc country_upper country_multipliers) as [m|] eqn:Hexact.
  - exact (assoc_Forall (fun m => 0.85 <= m <= 1.2) _ _ _ country_multipliers_table_range Hexact).
  - destruct (partial_match country_upper country_multipliers) as [m|] eqn:Hpartial.
    + exact (partial_match_Forall (fun m => 0.85 <= m <= 1.2) _ _ _ country_multipliers_table_range Hpartial).
    + split; discriminate.
Qed.

End MoreScores.

(** ** The paths of [rank_university] *)
Lemma sources_truthy (d : gmap string value) :
  sources_of d <> [] -> dict_truthy d = true.
Proof.
  intros Hs. destruct (dict_truthy d) eqn:E; [reflexivity|].
  apply dict_truthy_empty in E. subst d. destruct Hs. reflexivity.
Qed.

Lemma rank_university_fields (university_name country : string)
    (uid : option string) (user_config : option UserConfiguration) (w : World) :
  (0 <= rng w (draws w) <= 1)%Q ->
  exists real_data ud,
    fst (rank_university university_name country uid user_config w) = Return ud
    /\ (ud_scores ud, ud_country ud, ud_is_estimated ud)
       = choose_scores university_name country real_data
    /\ ud_composite ud = calculate_composite_score (ud_scores ud)
    /\ ud_tier ud = fst (get_tier (ud_composite ud))
    /\ ud_data_sources_used ud = sources_of real_data
    /\ ud_name ud = university_name
    /\ ud_type ud = classify_university_type university_name.
Proof.
  intros Hr. unfold rank_university. rewrite bind_run.
  assert (Hcfg : exists c w0,
             match user_config with
             | Some c => mret c
             | None => UserConfiguration_init uid
             end w = (Return c, w0) /\ rng w0 = rng w /\ draws w0 = draws w).
  { destruct user_config; do 2 eexists; repeat split. }
  destruct Hcfg as (c & w0 & -> & Hrng0 & Hdraws0).
  rewrite bind_run.
  destruct (fetch_real_data_total university_name country uid (Some c) w0)
    as (real_data & info & w1 & -> & Hrng1 & Hdraws1).
  destruct (choose_scores university_name country real_data)
    as [[scores country'] is_estimated] eqn:Hchoose.
  destruct (get_tier (calculate_composite_score scores)) as [t d] eqn:Htier.
  rewrite bind_run.
  destruct (calculate_error_margin_run university_name country'
              (sources_of real_data) w1) as (e & -> & He).
  { rewrite Hrng1, Hdraws1, Hrng0, Hdraws0. exact Hr. }
  exists real_data. eexists. split; [reflexivity|].
  cbn [ud_scores ud_country ud_is_estimated ud_composite ud_tier ud_data_sources_used
       ud_name ud_type].
  rewrite Htier. split; [symmetry; exact Hchoose|].
  split; [reflexivity|]. split; [reflexivity|]. split; [reflexivity|].
  split; reflexivity.
Qed.

(** X14. [rank_university] always returns, and the path it took shows in
    its result. The result is marked as estimated exactly when no source
    contributed and the lowercased name is not in the database; then the
    scores are those of [estimate_scores], within their bounds, and the
    tier is the one of the threshold check. When no source contributed and
    the name is in the database, the scores and the country are the stored
    ones, whatever country was asked for. When a source contributed, the
    country is the one asked for. *)
Theorem rank_university_paths (university_name country : string)
    (uid : option string) (user_config : option UserConfiguration) (w : World) :
  (0 <= rng w (draws w) <= 1)%Q ->
  exists ud,
    fst (rank_university university_name country uid user_config w) = Return ud
    /\ ud_name ud = university_name
    /\ ud_type ud = classify_university_type university_name
    /\ ud_composite ud = calculate_composite_score (ud_scores ud)
    /\ (ud_is_estimated ud = true
        <-> ud_data_sources_used ud = []
            /\ Py.assoc (Py.lower university_name) university_db = None)
    /\ (ud_is_estimated ud = true ->
        ud_country ud = country
        /\ ud_scores ud = estimate_scores university_name country
        /\ in_bounds (ud_scores ud)
        /\ ud_tier ud = Rank.get_tier (ud_composite ud))
    /\ (ud_data_sources_used ud = [] ->
        forall entry,
          Py.assoc (Py.lower university_name) university_db = Some entry ->
          ud_scores ud = db_scores entry /\ ud_country ud = db_country entry)
    /\ (ud_data_sources_used ud <> [] -> ud_country ud = country).
Proof.
  intros Hr.
  destruct (rank_university_fields university_name country uid user_config w Hr)
    as (real_data & ud & Hrun & Hchoose & Hcomp & Htier & Hsrc & Hname & Htype).
  exists ud. split; [exact Hrun|]. split; [exact Hname|]. split; [exact Htype|].
  split; [exact Hcomp|].
  unfold choose_scores in Hchoose. rewrite <- Hsrc in Hchoose.
  destruct (ud_data_sources_used ud) as [|x l] eqn:Hused.
  - rewrite andb_false_r in Hchoose.
    destruct (Py.assoc (Py.lower university_name) university_db) as [entry|] eqn:Hdb.
    + injection Hchoose as Hs Hc He.
      split; [rewrite He; split; [discriminate | intros [_ H]; discriminate]|].
      split; [rewrite He; discriminate|].
      split; [|intros H; destruct H; reflexivity].
      intros _ entry' [= <-]. split; assumption.
    + injection Hchoose as Hs Hc He.
      split; [rewrite He; split; [intros _; split; reflexivity | reflexivity]|].
      split; [|split; [intros _ entry H; discriminate | intros H; destruct H; reflexivity]].
      intros _. split; [exact Hc|]. split; [exact Hs|].
      assert (Hb : in_bounds (ud_scores ud))
        by (rewrite Hs; apply estimate_scores_in_bounds).
      split; [exact Hb|].
      rewrite Htier, Hcomp.
      destruct (composite_one_decimal _ Hb) as (n & Hn & ->).
      apply get_tier_one_decimal. exact Hn.
  - rewrite sources_truthy in Hchoose by (rewrite <- Hsrc; discriminate).
    cbn [andb] in Hchoose. injection Hchoose as Hs Hc He.
    split; [rewrite He; split; [discriminate | intros [H _]; discriminate]|].
    split; [rewrite He; discriminate|].
    split; [intros H; discriminate | intros _; exact Hc].
Qed.

(** An unknown college, with and without a page on Wikipedia. *)
Lemma rank_university_paths_witness :
  exists ud,
    fst (rank_university "Example College" "India" None None Scenario.quiet) = Return ud
    /\ ud_name ud = "Example College"
    /\ ud_type ud = classify_university_type "Example College"
    /\ ud_composite ud = calculate_composite_score (ud_scores ud)
    /\ (ud_is_estimated ud = true
        <-> ud_data_sources_used ud = []
            /\ Py.assoc (Py.lower "Example College") university_db = None)
    /\ (ud_is_estimated ud = true ->
        ud_country ud = "India"
        /\ ud_scores ud = estimate_scores "Example College" "India"
        /\ in_bounds (ud_scores ud)
        /\ ud_tier ud = Rank.get_tier (ud_composite ud))
    /\ (ud_data_sources_used ud = [] ->
        forall entry,
          Py.assoc (Py.lower "Example College") university_db = Some entry ->
          ud_scores ud = db_scores entry /\ ud_country ud = db_country entry)
    /\ (ud_data_sources_used ud <> [] -> ud_country ud = "India").
Proof.
  apply (rank_university_paths "Example College" "India" None None Scenario.quiet).
  vm_compute. split; discriminate.
Defined.

(** ** [rank.py]: the ranking of an institution *)
Section RankInstitution.
Import RankMore.
Local Open Scope Q_scope.

Lemma total_of_scores_dict (a g r f t v : Q) :
  total_of parameter_names (scores_dict a g r f t v) 0
  = 0 + a + g + r + f + t + v.
Proof. reflexivity. Qed.

(** X15. [rank_institution] always returns. For a name that is not in its
    table, with the draws of the generator in the unit interval, the six
    scores are within the ranges it draws them from, which are within the
    bounds of the parameters; the composite is the rounded sum of the
    scores, between 54 and 89, so the tier is never D; the type is
    "Teaching University", and six numbers were drawn. *)
Theorem rank_institution_unknown (institution_name country : string) (w : World) :
  Py.assoc (Py.lower institution_name) institution_data = None ->
  (forall i, (i < 6)%nat -> 0 <= rng w (i + draws w)%nat <= 1) ->
  exists res a g r f t v,
    fst (rank_institution institution_name country w) = Return res
    /\ draws (snd (rank_institution institution_name country w)) = (6 + draws w)%nat
    /\ res_scores res = scores_dict a g r f t v
    /\ 10 <= a <= 20 /\ 12 <= g <= 22 /\ 12 <= r <= 18
    /\ 10 <= f <= 14 /\ 7 <= t <= 10 /\ 3 <= v <= 5
    /\ res_composite res = calculate_composite_score (res_scores res)
    /\ 54 <= res_composite res <= 89
    /\ res_tier res = Rank.get_tier (res_composite res)
    /\ res_tier res <> D
    /\ res_type res = "Teaching University".
Proof.
  intros Hdb Hrng.
  unfold rank_institution. rewrite Hdb.
  unfold np_random_uniform, datetime_now, mbind, M_bind, mret, M_ret.
  cbn [fst snd draws rng set_draws set_reads].
  pose proof (Hrng 0%nat ltac:(lia)) as H0. pose proof (Hrng 1%nat ltac:(lia)) as H1.
  pose proof (Hrng 2%nat ltac:(lia)) as H2. pose proof (Hrng 3%nat ltac:(lia)) as H3.
  pose proof (Hrng 4%nat ltac:(lia)) as H4. pose proof (Hrng 5%nat ltac:(lia)) as H5.
  cbn [Nat.add] in H0, H1, H2, H3, H4, H5.
  set (a := Py.round1 (10 + (20 - 10) * rng w (draws w))).
  set (g := Py.round1 (12 + (22 - 12) * rng w (S (draws w)))).
  set (r := Py.round1 (12 + (18 - 12) * rng w (S (S (draws w))))).
  set (f := Py.round1 (10 + (14 - 10) * rng w (S (S (S (draws w)))))).
  set (t := Py.round1 (7 + (10 - 7) * rng w (S (S (S (S (draws w))))))).
  set (v := Py.round1 (3 + (5 - 3) * rng w (S (S (S (S (S (draws w)))))))).
  assert (Ha : 100 # 10 <= a <= 200 # 10)
    by (apply round1_between; [nra | nra]).
  assert (Hg : 120 # 10 <= g <= 220 # 10)
    by (apply round1_between; [nra | nra]).
  assert (Hr : 120 # 10 <= r <= 180 # 10)
    by (apply round1_between; [nra | nra]).
  assert (Hf : 100 # 10 <= f <= 140 # 10)
    by (apply round1_between; [nra | nra]).
  assert (Ht : 70 # 10 <= t <= 100 # 10)
    by (apply round1_between; [nra | nra]).
  assert (Hv : 30 # 10 <= v <= 50 # 10)
    by (apply round1_between; [nra | nra]).
  assert (Hc : 540 # 10 <= calculate_composite_score (scores_dict a g r f t v) <= 890 # 10).
  { unfold calculate_composite_score. rewrite total_of_scores_dict.
    apply round1_between; lra. }
  exists {| res_institution := institution_name;
            res_country := if Py.truthy country then country else "Unknown";
            res_type := "Teaching University";
            res_scores := scores_dict a g r f t v;
            res_composite := calculate_composite_score (scores_dict a g r f t v);
            res_tier := Rank.get_tier (calculate_composite_score (scores_dict a g r f t v));
            res_timestamp := str_datetime (clock w (reads w)) |}, a, g, r, f, t, v.
  cbn [res_scores res_composite res_tier res_type].
  split; [reflexivity|]. split; [reflexivity|]. split; [reflexivity|].
  split; [lra|]. split; [lra|]. split; [lra|]. split; [lra|]. split; [lra|].
  split; [lra|]. split; [reflexivity|]. split; [lra|]. split; [reflexivity|].
  split; [|reflexivity].
  intros HD. apply (rank_get_tier_bands _) in HD. lra.
Qed.

Lemma rank_institution_unknown_witness :
  exists res a g r f t v,
    fst (rank_institution "Example College" "" Scenario.quiet) = Return res
    /\ draws (snd (rank_institution "Example College" "" Scenario.quiet))
       = (6 + draws Scenario.quiet)%nat
    /\ res_scores res = scores_dict a g r f t v
    /\ 10 <= a <= 20 /\ 12 <= g <= 22 /\ 12 <= r <= 18
    /\ 10 <= f <= 14 /\ 7 <= t <= 10 /\ 3 <= v <= 5
    /\ res_composite res = calculate_composite_score (res_scores res)
    /\ 54 <= res_composite res <= 89
    /\ res_tier res = Rank.get_tier (res_composite res)
    /\ res_tier res <> D
    /\ res_type res = "Teaching University".
Proof.
  apply (rank_institution_unknown "Example College" "" Scenario.quiet).
  - vm_compute. reflexivity.
  - intros i _. vm_compute. split; discriminate.
Defined.

(** X16. Whatever the name and the world, the composite in the result of
    [rank_institution] equals the rounded sum of the scores in it, also
    for the four institutions of the table, whose composite is stored; the
    tier is the one of the composite, and an empty country is reported as
    "Unknown". *)
Theorem rank_institution_composite (institution_name country : string) (w : World) :
  exists res,
    fst (rank_institution institution_name country w) = Return res
    /\ res_composite res == calculate_composite_score (res_scores res)
    /\ res_tier res = Rank.get_tier (res_composite res)
    /\ res_institution res = institution_name
    /\ res_country res = (if Py.truthy country then country else "Unknown").
Proof.
  unfold rank_institution.
  destruct (Py.assoc (Py.lower institution_name) institution_data) as [data|] eqn:Hdb.
  - eexists. split; [reflexivity|]. cbn [res_composite res_scores res_tier
                                         res_institution res_country].
    split; [|split; [reflexivity | split; reflexivity]].
    unfold institution_data in Hdb. cbn [Py.assoc] in Hdb.
    repeat match type of Hdb with
           | (if ?b then _ else _) = _ => destruct b
           end; try discriminate; injection Hdb as <-; vm_compute; reflexivity.
  - eexists. split; [reflexivity|]. cbn [res_composite res_scores res_tier
                                         res_institution res_country].
    split; [reflexivity|]. split; [reflexivity | split; reflexivity].
Qed.

End RankInstitution.

(** ** The links of a search *)
Lemma result_links_kept (hrefs : list (option string)) :
  Forall (fun h => Py.truthy h = true /\ Py.startswith h "http" = true
                   /\ Py.contains "google.com" h = false)
         (result_links hrefs).
Proof.
  unfold result_links. induction hrefs as [|[h|] l IH]; simpl; [constructor | | exact IH].
  destruct (Py.truthy h) eqn:Ht; simpl; [|exact IH].
  destruct (Py.startswith h "http") eqn:Hs; simpl; [|exact IH].
  destruct (Py.contains "google.com" h) eqn:Hc; simpl; [exact IH|].
  constructor; [repeat split; assumption | exact IH].
Qed.

(** X17. [safe_google_search] never raises, whatever the limiter and the
    network do. It returns at most three links, each of which starts with
    "http" and does not contain "google.com", and it records one call. *)
Theorem safe_google_search_links (query : string) (w : World) :
  exists links,
    fst (safe_google_search query w) = Return links
    /\ (length links <= 3)%nat
    /\ Forall (fun h => Py.startswith h "http" = true
                        /\ Py.contains "google.com" h = false) links
    /\ recorded (snd (safe_google_search query w)) = recorded w ++ [GOOGLE_SEARCH].
Proof.
  unfold safe_google_search, http_get.
  destruct (check_rate_limit_cases GOOGLE_SEARCH w) as [n [Hc|[e Hc]]];
    rewrite try_run, bind_run, Hc.
  2: { exists []. split; [reflexivity|]. split; [simpl; lia|].
       split; [constructor | reflexivity]. }
  rewrite bind_run.
  cbn [set_reads reads clock web requests recorded calls fst snd].
  destruct (web w _ _) as [r|what].
  2: { exists []. split; [reflexivity|]. split; [simpl; lia|].
       split; [constructor | reflexivity]. }
  eexists. split; [reflexivity|]. split; [rewrite length_firstn; lia|].
  split; [|reflexivity].
  apply Forall_take. destruct (status_code r =? 200); [|constructor].
  eapply Forall_impl; [apply result_links_kept|]. simpl. tauto.
Qed.

(** ** The configuration of a user *)

Lemma update_source_run (c : UserConfiguration) (source : string) (enabled : bool)
    (w : World) :
  exists c',
    update_source c source enabled w = (Return c', set_reads (S (reads w)) w)
    /\ user_id c' = user_id c
    /\ timestamp c' = clock w (reads w)
    /\ enable_wikipedia c'
       = (if String.eqb source "wikipedia" then enabled else enable_wikipedia c)
    /\ enable_google_search c'
       = (if String.eqb source "google_search" then enabled else enable_google_search c)
    /\ enable_webometrics c'
       = (if String.eqb source "webometrics" then enabled else enable_webometrics c).
Proof.
  unfold update_source. eexists. split; [reflexivity|].
  cbn [user_id timestamp enable_wikipedia enable_google_search enable_webometrics].
  destruct (String.eqb source "wikipedia") eqn:Hw.
  { apply String.eqb_eq in Hw. subst source. repeat split. }
  destruct (String.eqb source "google_search") eqn:Hg.
  { apply String.eqb_eq in Hg. subst source. repeat split. }
  destruct (String.eqb source "webometrics") eqn:Hm; repeat split.
Qed.

Lemma get_enabled_sources_In (c : UserConfiguration) (source : string) :
  In source (get_enabled_sources c)
  <-> (source = "wikipedia" /\ enable_wikipedia c = true)
      \/ (source = "google_search" /\ enable_google_search c = true)
      \/ (source = "webometrics" /\ enable_webometrics c = true).
Proof.
  unfold get_enabled_sources.
  destruct (enable_wikipedia c), (enable_google_search c), (enable_webometrics c);
    simpl; intuition congruence.
Qed.

(** X18. After [update_user_config] has set a source for a user, created
    with the default configuration if the user had none, [get_user_config]
    gives that user the configuration that was returned, without creating
    one or reading the clock. In it the source, when it is one of the
    three names, is enabled as asked and the two others are as they
    were (by default Wikipedia alone), so that [get_enabled_sources] lists
    the source exactly when it was enabled; a name that is none of the
    three changes no source. The configurations of the other users are as
    they were. *)
Theorem update_user_config_round_trip
    (user_configurations : gmap string UserConfiguration)
    (uid source : string) (enabled : bool) (w : World) :
  let before :=
    default {| user_id := Some uid; enable_wikipedia := true;
               enable_google_search := false; enable_webometrics := false;
               timestamp := clock w (reads w) |}
            (user_configurations !! uid) in
  exists config configs w1,
    update_user_config user_configurations uid source enabled w
    = (Return (config, configs), w1)
    /\ get_user_config configs uid w1 = (Return (config, configs), w1)
    /\ (forall other, other <> uid -> configs !! other = user_configurations !! other)
    /\ enable_wikipedia config
       = (if String.eqb source "wikipedia" then enabled else enable_wikipedia before)
    /\ enable_google_search config
       = (if String.eqb source "google_search" then enabled
          else enable_google_search before)
    /\ enable_webometrics config
       = (if String.eqb source "webometrics" then enabled
          else enable_webometrics before)
    /\ (In source (get_enabled_sources config)
        <-> enabled = true /\ In source ["wikipedia"; "google_search"; "webometrics"]).
Proof.
  intros before. unfold update_user_config. rewrite bind_run.
  assert (Hget : exists c0 w0,
             get_user_config user_configurations uid w
             = (Return (c0, <[uid := c0]> user_configurations), w0)
             /\ enable_wikipedia c0 = enable_wikipedia before
             /\ enable_google_search c0 = enable_google_search before
             /\ enable_webometrics c0 = enable_webometrics before).
  { unfold get_user_config, before.
    destruct (user_configurations !! uid) as [c0|] eqn:Hc0.
    - exists c0, w. rewrite insert_id by exact Hc0. repeat split.
    - do 2 eexists. split; [reflexivity|]. repeat split. }
  destruct Hget as (c0 & w0 & -> & Hw0 & Hg0 & Hm0). cbv iota beta.
  rewrite bind_run.
  destruct (update_source_run c0 source enabled w0) as (c' & -> & _ & _ & Hw & Hg & Hm).
  exists c', (<[uid := c']> (<[uid := c0]> user_configurations)), (set_reads (S (reads w0)) w0).
  split; [reflexivity|].
  split; [unfold get_user_config; rewrite lookup_insert_eq; reflexivity|].
  split; [intros other Hother; rewrite !lookup_insert_ne by congruence; reflexivity|].
  rewrite <- Hw0, <- Hg0, <- Hm0.
  split; [exact Hw|]. split; [exact Hg|]. split; [exact Hm|].
  rewrite get_enabled_sources_In, Hw, Hg, Hm, Hw0, Hg0, Hm0. simpl.
  destruct (String.eqb_spec source "wikipedia") as [->|H1]; [simpl; intuition congruence|].
  destruct (String.eqb_spec source "google_search") as [->|H2];
    [simpl; intuition congruence|].
  destruct (String.eqb_spec source "webometrics") as [->|H3];
    [simpl; intuition congruence|].
  intuition congruence.
Qed.

(** ** The conversation states of [pkWAUniRankBot.py] *)
Section UserStates.
Import WAMore.

(** X19. The state that [set_user_state] stores for a user is the one that
    [get_user_state] then returns, with an empty dict where no data (or
    an empty one) was given, and the look-up changes nothing. After
    [clear_user_state] the user is idle again with no data, and the
    look-up stores that state. None of the three touches the state of
    another user. *)
Theorem user_state_round_trip (user_states : gmap string user_state)
    (uid st : string) (d : option (gmap string string)) :
  get_user_state (set_user_state user_states uid st d) uid
  = ({| state := st; data := default ∅ d |}, set_user_state user_states uid st d)
  /\ (let '(s, states) := get_user_state (clear_user_state user_states uid) uid in
      s = {| state := "idle"; data := ∅ |} /\ states !! uid = Some s)
  /\ (forall other, other <> uid ->
        set_user_state user_states uid st d !! other = user_states !! other
        /\ clear_user_state user_states uid !! other = user_states !! other
        /\ snd (get_user_state user_states uid) !! other = user_states !! other).
Proof.
  split; [|split].
  - unfold get_user_state, set_user_state. rewrite lookup_insert_eq. reflexivity.
  - unfold get_user_state.
    assert (Hgone : clear_user_state user_states uid !! uid = None).
    { unfold clear_user_state. destruct (user_states !! uid) eqn:Hu;
        [apply lookup_delete_eq | exact Hu]. }
    rewrite Hgone. split; [reflexivity | apply lookup_insert_eq].
  - intros other Hother. split; [|split].
    + unfold set_user_state. apply lookup_insert_ne. congruence.
    + unfold clear_user_state. destruct (user_states !! uid);
        [apply lookup_delete_ne; congruence | reflexivity].
    + unfold get_user_state. destruct (user_states !! uid); simpl;
        [reflexivity | apply lookup_insert_ne; congruence].
Qed.

End UserStates.

(** ** The text of a duration *)
Section FormatTime.
Local Open Scope Q_scope.

Lemma Qfloor_unique (x : Q) (z : Z) :
  inject_Z z <= x -> x < inject_Z (z + 1) -> Qfloor x = z.
Proof.
  intros Hlo Hhi.
  pose proof (Qfloor_le x) as H1. pose proof (Qlt_floor x) as H2.
  assert (Ha : inject_Z z < inject_Z (Qfloor x + 1)) by lra.
  assert (Hb : inject_Z (Qfloor x) < inject_Z (z + 1)) by lra.
  rewrite <- Zlt_Qlt in Ha, Hb. lia.
Qed.

Lemma Qfloor_div (x : Q) (m : Z) :
  (0 < m)%Z -> Qfloor (x / inject_Z m) = (Qfloor x / m)%Z.
Proof.
  intros Hm.
  pose proof (Qfloor_le x) as H1. pose proof (Qlt_floor x) as H2.
  assert (Hq : 0 < inject_Z m) by (rewrite Zlt_Qlt in Hm; exact Hm).
  pose proof (Z.div_mod (Qfloor x) m ltac:(lia)) as Hdm.
  pose proof (Z.mod_pos_bound (Qfloor x) m Hm) as Hbound.
  set (q := (Qfloor x / m)%Z) in *. set (r := (Qfloor x mod m)%Z) in *.
  assert (Hx : inject_Z (Qfloor x) == inject_Z m * inject_Z q + inject_Z r).
  { rewrite Hdm, inject_Z_plus, inject_Z_mult. reflexivity. }
  assert (Hr : 0 <= inject_Z r /\ inject_Z r + 1 <= inject_Z m).
  { split.
    - rewrite Zle_Qle in Hbound. apply Hbound.
    - assert (Hle : (r + 1 <= m)%Z) by lia.
      rewrite Zle_Qle, inject_Z_plus in Hle. exact Hle. }
  rewrite inject_Z_plus in H2. change (inject_Z 1) with 1 in H2.
  apply Qfloor_unique.
  - apply Qle_shift_div_l; [exact Hq|]. nra.
  - apply Qlt_shift_div_r; [exact Hq|]. rewrite inject_Z_plus.
    change (inject_Z 1) with 1. nra.
Qed.

Lemma Qfloor_minus_Z (x : Q) (k : Z) :
  Qfloor (x - inject_Z k) = (Qfloor x - k)%Z.
Proof.
  pose proof (Qfloor_le x) as H1. pose proof (Qlt_floor x) as H2.
  rewrite inject_Z_plus in H2. change (inject_Z 1) with 1 in H2.
  apply Qfloor_unique.
  - unfold Z.sub. rewrite inject_Z_plus, inject_Z_opp. lra.
  - replace (Qfloor x - k + 1)%Z with (Qfloor x + 1 + - k)%Z by lia.
    rewrite !inject_Z_plus, inject_Z_opp. change (inject_Z 1) with 1. lra.
Qed.

Lemma int_of_nonneg (x : Q) : 0 <= x -> UniRankMore.int_of x = Qfloor x.
Proof.
  intros Hx. unfold UniRankMore.int_of.
  destruct (Qle_bool 0 x) eqn:E; [reflexivity|].
  apply Qle_bool_false in E. lra.
Qed.

Lemma Qltb_floor (x : Q) (k : Z) :
  Py.Qltb x (inject_Z k) = (Qfloor x <? k)%Z.
Proof.
  pose proof (Qfloor_le x) as H1. pose proof (Qlt_floor x) as H2.
  destruct (Z.ltb_spec (Qfloor x) k) as [Hlt|Hge].
  - apply Qltb_true.
    assert (H : (Qfloor x + 1 <= k)%Z) by lia. rewrite Zle_Qle in H. lra.
  - apply Qltb_false. rewrite Zle_Qle in Hge. lra.
Qed.

(** X20. The text that [_format_time] (and [format_time] of the Excel
    thread) gives for a duration that is not negative depends on its whole
    seconds [n] only: "n seconds" under a minute; under an hour, the whole
    minutes and the seconds that remain, which are fewer than 60; from an
    hour on, the whole hours and the whole minutes that remain, fewer than
    60, and no seconds. *)
Theorem format_time_whole_seconds (seconds : Q) :
  0 <= seconds ->
  let n := Qfloor seconds in
  UniRankMore._format_time seconds
  = (if (n <? 60)%Z then pretty n +:+ " seconds"
     else if (n <? 3600)%Z
     then pretty (n / 60)%Z +:+ "m " +:+ pretty (n mod 60)%Z +:+ "s"
     else pretty (n / 3600)%Z +:+ "h " +:+ pretty (n mod 3600 / 60)%Z +:+ "m")
  /\ (0 <= n mod 60 < 60)%Z
  /\ (0 <= n mod 3600 / 60 < 60)%Z
  /\ ((60 <= n < 3600)%Z -> (1 <= n / 60 < 60)%Z).
Proof.
  intros Hs n.
  assert (Hn : (0 <= n)%Z).
  { unfold n. change 0%Z with (Qfloor 0). apply Qfloor_resp_le. exact Hs. }
  split.
  - unfold UniRankMore._format_time, UniRankMore.fmod.
    change (60 : Q) with (inject_Z 60). change (3600 : Q) with (inject_Z 3600).
    rewrite !Qltb_floor. rewrite !(Qfloor_div seconds) by lia. fold n.
    destruct (Z.ltb_spec n 60) as [H60|H60]; [rewrite int_of_nonneg by exact Hs; reflexivity|].
    assert (Hdiv : forall m, (0 < m)%Z -> 0 <= seconds / inject_Z m).
    { intros m Hm. apply Qle_shift_div_l; [rewrite Zlt_Qlt in Hm; exact Hm | lra]. }
    assert (Hmod : forall m, (0 < m)%Z ->
              Qfloor (seconds - inject_Z (m * (n / m))) = (n mod m)%Z).
    { intros m Hm. rewrite Qfloor_minus_Z. fold n. rewrite Z.mod_eq by lia. reflexivity. }
    assert (Hrem : forall m, (0 < m)%Z -> 0 <= seconds - inject_Z (m * (n / m))).
    { intros m Hm. pose proof (Qfloor_le seconds) as Hfl. fold n in Hfl.
      pose proof (Z.mul_div_le n m Hm) as Hle. rewrite Zle_Qle in Hle. lra. }
    destruct (Z.ltb_spec n 3600) as [H3600|H3600].
    + rewrite (int_of_nonneg (seconds / inject_Z 60)) by (apply Hdiv; lia).
      rewrite (int_of_nonneg (seconds - _)) by (apply Hrem; lia).
      rewrite (Hmod 60%Z) by lia. rewrite Qfloor_div by lia. reflexivity.
    + rewrite (int_of_nonneg (seconds / inject_Z 3600)) by (apply Hdiv; lia).
      rewrite int_of_nonneg.
      * rewrite !Qfloor_div by lia. rewrite (Hmod 3600%Z) by lia. reflexivity.
      * apply Qle_shift_div_l; [reflexivity|]. specialize (Hrem 3600%Z ltac:(lia)). lra.
  - split; [apply Z.mod_pos_bound; lia|].
    split.
    + pose proof (Z.mod_pos_bound n 3600 ltac:(lia)).
      split; [apply Z.div_pos; lia | apply Z.div_lt_upper_bound; lia].
    + intros [Hlo Hhi].
      split; [apply Z.div_le_lower_bound; lia | apply Z.div_lt_upper_bound; lia].
Qed.

(** An hour, a minute and a second and a half. *)
Lemma format_time_whole_seconds_witness :
  let n := Qfloor 3661.5 in
  UniRankMore._format_time 3661.5
  = (if (n <? 60)%Z then pretty n +:+ " seconds"
     else if (n <? 3600)%Z
     then pretty (n / 60)%Z +:+ "m " +:+ pretty (n mod 60)%Z +:+ "s"
     else pretty (n / 3600)%Z +:+ "h " +:+ pretty (n mod 3600 / 60)%Z +:+ "m")
  /\ (0 <= n mod 60 < 60)%Z
  /\ (0 <= n mod 3600 / 60 < 60)%Z
  /\ ((60 <= n < 3600)%Z -> (1 <= n / 60 < 60)%Z).
Proof.
  apply (format_time_whole_seconds 3661.5). vm_compute. discriminate.
Defined.

End FormatTime.

(** ** The scores from fetched data *)
Section RealDataScores.
Import Stages.
Local Open Scope Q_scope.

Lemma py_min_cap (hi v : Q) : 0 <= hi -> 0 <= v -> 0 <= Py.min hi v <= hi.
Proof.
  intros Hhi Hv. unfold Py.min.
  destruct (Py.Qltb v hi) eqn:E; [apply Qltb_true in E | apply Qltb_false in E]; lra.
Qed.

Lemma py_max_cap (lo hi a b : Q) :
  lo <= a <= hi -> lo <= b <= hi -> lo <= Py.max a b <= hi.
Proof.
  intros Ha Hb. unfold Py.max.
  destruct (Py.Qltb a b) eqn:E; [exact Hb | exact Ha].
Qed.

Lemma round1_cap (hi : Z) (v : Q) :
  0 <= v <= inject_Z hi -> 0 <= Py.round1 v <= inject_Z hi.
Proof.
  intros [H0 H1].
  assert (Heq : (hi * 10) # 10 == inject_Z hi).
  { unfold Qeq, inject_Z. simpl. lia. }
  assert (H : 0 # 10 <= Py.round1 v <= (hi * 10) # 10).
  { apply round1_between; [lra | rewrite Heq; exact H1]. }
  rewrite Heq in H. lra.
Qed.

Lemma in_bounds_intro (a g r f t v : Q) :
  0 <= a <= 25 -> 0 <= g <= 25 -> 0 <= r <= 20 -> 0 <= f <= 15 ->
  0 <= t <= 10 -> 0 <= v <= 5 ->
  in_bounds (mkScores a g r f t v).
Proof. intros. repeat split; tauto. Qed.

Lemma in_bounds_elim (s : Scores) :
  in_bounds s ->
  0 <= academic s <= 25 /\ 0 <= graduate s <= 25 /\ 0 <= roi s <= 20
  /\ 0 <= fsr s <= 15 /\ 0 <= transparency s <= 10 /\ 0 <= visibility s <= 5.
Proof. intros H. exact H. Qed.


(** [calculate_scores_from_real_data], stage by stage. *)
Lemma calculate_scores_stages (university_name country : string)
    (real_data : gmap string value) :
  calculate_scores_from_real_data university_name country real_data
  = map_scores Py.round1
      (type_stage university_name
         (country_stage country
            (wikipedia_stage real_data
               (the_stage real_data
                  (qs_stage real_data (mkScores 12 15 14 11 7 3)))))).
Proof. reflexivity. Qed.

Lemma qs_stage_in_bounds (real_data : gmap string value) (s : Scores) :
  in_bounds s -> in_bounds (qs_stage real_data s).
Proof.
  intros Hs. unfold qs_stage. apply in_bounds_elim in Hs.
  destruct (real_data !! "qs_ranking") as [[| | | |qs_rank]|]; try exact Hs.
  destruct (qs_rank <=? 10)%Z;
    [apply in_bounds_intro; first [tauto | split; discriminate]|].
  destruct (qs_rank <=? 50)%Z;
    [apply in_bounds_intro; first [tauto | split; discriminate]|].
  destruct (qs_rank <=? 100)%Z;
    [apply in_bounds_intro; first [tauto | split; discriminate]|].
  destruct (qs_rank <=? 200)%Z;
    [apply in_bounds_intro; first [tauto | split; discriminate] | exact Hs].
Qed.

Lemma the_stage_in_bounds (real_data : gmap string value) (s : Scores) :
  (forall rank, real_data !! "the_ranking" = Some (VRanking rank) ->
                (rank <= 10)%Z \/ (100 < rank)%Z) ->
  in_bounds s -> in_bounds (the_stage real_data s).
Proof.
  intros Hthe Hs. unfold the_stage. apply in_bounds_elim in Hs.
  destruct (real_data !! "the_ranking") as [[| | | |the_rank]|] eqn:Hrank; try exact Hs.
  destruct (Z.leb_spec the_rank 10) as [H10|H10].
  - apply in_bounds_intro; try tauto.
    + apply py_max_cap; [tauto | split; discriminate].
    + apply py_max_cap; [tauto | split; discriminate].
  - destruct (Z.leb_spec the_rank 100) as [H100|H100]; [|exact Hs].
    destruct (Hthe the_rank eq_refl); lia.
Qed.

Lemma wikipedia_stage_in_bounds (real_data : gmap string value) (s : Scores) :
  in_bounds s -> in_bounds (wikipedia_stage real_data s).
Proof.
  intros Hs. unfold wikipedia_stage.
  destruct (real_data !! "wikipedia") as [[wiki_data| | | |]|]; try exact Hs.
  cbv zeta.
  match goal with
  | |- context [(3 <=? ?c)%Z] => generalize c
  end.
  match goal with
  | |- context [(2 <=? ?c)%Z] => generalize c
  end.
  intros employ_count research_count.
  assert (H1 : in_bounds
                 (if (3 <=? research_count)%Z
                  then mkScores (Py.min 25 (academic s + 3)) (graduate s) (roi s)
                                (fsr s) (transparency s) (visibility s)
                  else s)).
  { apply in_bounds_elim in Hs. destruct (3 <=? research_count)%Z; [|exact Hs].
    apply in_bounds_intro; try tauto. apply py_min_cap; [discriminate | lra]. }
  revert H1.
  generalize (if (3 <=? research_count)%Z
              then mkScores (Py.min 25 (academic s + 3)) (graduate s) (roi s)
                            (fsr s) (transparency s) (visibility s)
              else s).
  intros s' Hs'. apply in_bounds_elim in Hs'.
  destruct (2 <=? employ_count)%Z; [|exact Hs'].
  apply in_bounds_intro; try tauto. apply py_min_cap; [discriminate | lra].
Qed.

Lemma country_stage_in_bounds (country : string) (s : Scores) :
  in_bounds s -> in_bounds (country_stage country s).
Proof.
  intros Hs. unfold country_stage.
  destruct (Py.truthy country); [|exact Hs].
  apply in_bounds_elim in Hs.
  assert (Hm : 0.85 <= default 1 (Py.assoc (Py.upper country) country_multipliers) <= 1.2).
  { destruct (Py.assoc (Py.upper country) country_multipliers) as [m|] eqn:Hexact.
    - exact (assoc_Forall (fun m => 0.85 <= m <= 1.2) _ _ _
               country_multipliers_table_range Hexact).
    - split; discriminate. }
  cbv zeta. revert Hm.
  generalize (default 1 (Py.assoc (Py.upper country) country_multipliers)).
  intros m Hm. unfold apply_country_multiplier.
  change (academic parameters_max) with 25. change (graduate parameters_max) with 25.
  change (roi parameters_max) with 20. change (fsr parameters_max) with 15.
  apply in_bounds_intro; try tauto; apply py_min_cap; first [discriminate | nra].
Qed.

Lemma type_stage_in_bounds (university_name : string) (s : Scores) :
  in_bounds s -> in_bounds (type_stage university_name s).
Proof.
  intros Hs. unfold type_stage. apply in_bounds_elim in Hs.
  destruct (classify_university_type university_name); try exact Hs;
    apply in_bounds_intro; try tauto; apply py_min_cap; first [discriminate | lra].
Qed.

Lemma round_in_bounds (s : Scores) : in_bounds s -> in_bounds (map_scores Py.round1 s).
Proof.
  intros Hs. apply in_bounds_elim in Hs. unfold map_scores.
  apply in_bounds_intro.
  - apply (round1_cap 25). tauto.
  - apply (round1_cap 25). tauto.
  - apply (round1_cap 20). tauto.
  - apply (round1_cap 15). tauto.
  - apply (round1_cap 10). tauto.
  - apply (round1_cap 5). tauto.
Qed.

Lemma real_data_scores_in_bounds (university_name country : string)
    (real_data : gmap string value) :
  (forall rank, real_data !! "the_ranking" = Some (VRanking rank) ->
                (rank <= 10)%Z \/ (100 < rank)%Z) ->
  in_bounds (calculate_scores_from_real_data university_name country real_data).
Proof.
  intros Hthe. rewrite calculate_scores_stages.
  apply round_in_bounds, type_stage_in_bounds, country_stage_in_bounds,
    wikipedia_stage_in_bounds, the_stage_in_bounds; [exact Hthe|].
  apply qs_stage_in_bounds. apply in_bounds_intro; split; discriminate.
Qed.

End RealDataScores.

(** ** A first ranking *)
Section FreshRanking.
Local Open Scope Q_scope.

(** X21. For every name, country and payload that has no Times Higher
    Education rank from 11 to 100, the scores that
    [calculate_scores_from_real_data] computes are within their bounds,
    their composite is between 0 and 100, and its tier is the one of the
    threshold check. *)
Theorem real_data_scores_within_bounds (university_name country : string)
    (real_data : gmap string value) :
  (forall rank, real_data !! "the_ranking" = Some (VRanking rank) ->
                (rank <= 10)%Z \/ (100 < rank)%Z) ->
  let scores := calculate_scores_from_real_data university_name country real_data in
  in_bounds scores
  /\ 0 <= calculate_composite_score scores <= 100
  /\ fst (get_tier (calculate_composite_score scores))
     = Rank.get_tier (calculate_composite_score scores).
Proof.
  intros Hthe scores. subst scores.
  pose proof (real_data_scores_in_bounds university_name country real_data Hthe) as Hb.
  split; [exact Hb|].
  destruct (composite_one_decimal _ Hb) as (n & Hn & ->).
  split; [unfold Qle; simpl; lia | apply get_tier_one_decimal; exact Hn].
Qed.

(** Harvard University with the two table ranks and a page. *)
Lemma real_data_scores_within_bounds_witness :
  let scores :=
    calculate_scores_from_real_data "Harvard University" "USA"
      {[ "qs_ranking" := VRanking 4; "the_ranking" := VRanking 2 ]} in
  in_bounds scores
  /\ 0 <= calculate_composite_score scores <= 100
  /\ fst (get_tier (calculate_composite_score scores))
     = Rank.get_tier (calculate_composite_score scores).
Proof.
  apply (real_data_scores_within_bounds "Harvard University" "USA"
           {[ "qs_ranking" := VRanking 4; "the_ranking" := VRanking 2 ]}).
  intros rank Hrank. vm_compute in Hrank. injection Hrank as <-. left. discriminate.
Defined.

Lemma the_rankings_top_ten :
  Forall (fun kv : string * Z => (snd kv <= 10)%Z) the_rankings.
Proof. repeat (constructor; [discriminate|]). constructor. Qed.

Lemma merged_the_ranking (name_lower : string) (fetched : gmap string value) (rank : Z) :
  fetched !! "the_ranking" = None ->
  merged name_lower fetched !! "the_ranking" = Some (VRanking rank) ->
  (rank <= 10)%Z.
Proof.
  intros Hnone. unfold merged.
  destruct (Py.assoc name_lower the_rankings) as [r|] eqn:Hthe.
  - rewrite lookup_insert_eq. intros [= <-].
    exact (assoc_Forall (fun r => (r <= 10)%Z) _ _ _ the_rankings_top_ten Hthe).
  - destruct (Py.assoc name_lower qs_rankings).
    + rewrite lookup_insert_ne by discriminate. rewrite Hnone. discriminate.
    + rewrite Hnone. discriminate.
Qed.

Lemma fetched_has_no_rank (university_name country : string)
    (uid : option string) (user_config : option UserConfiguration) (w : World)
    (fetched : gmap string value) (info : list rate_info) :
  fst (fetch_all_data university_name country uid user_config w) = Return (fetched, info) ->
  fetched !! "the_ranking" = None.
Proof.
  intros Hrun.
  destruct (ensures_fetch_all_data_payload university_name country uid user_config w)
    as [(data & info' & Hout & Hsub & Hen & Hkeys) _].
  rewrite Hrun in Hout. injection Hout as <- <-.
  destruct (fetched !! "the_ranking") eqn:Hl; [|reflexivity].
  destruct (proj1 (Hkeys "the_ranking") ltac:(eexists; exact Hl)) as [Hin|[Hk _]];
    [|discriminate].
  rewrite List.Forall_forall in Hen. specialize (Hen _ Hin).
  unfold enabled_source in Hen. destruct (enabled user_config) as [[? ?] ?].
  destruct Hen as [[? _]|[[? _]|[? _]]]; discriminate.
Qed.

(** X22. A first ranking of a name and country, one whose key is not in
    the cache: [rank_university] returns, and unless no source
    contributed and the scores are those that the database stores for the
    name, the scores are within their bounds, the composite is between 0
    and 100 and the tier is the one of the threshold check. *)
Theorem fresh_ranking_within_bounds (university_name country : string)
    (uid : option string) (user_config : option UserConfiguration) (w : World) :
  0 <= rng w (draws w) <= 1 ->
  real_data_cache w !! cache_key university_name country = None ->
  exists ud,
    fst (rank_university university_name country uid user_config w) = Return ud
    /\ ((in_bounds (ud_scores ud)
         /\ 0 <= ud_composite ud <= 100
         /\ ud_tier ud = Rank.get_tier (ud_composite ud))
        \/ (ud_data_sources_used ud = []
            /\ exists entry,
                 Py.assoc (Py.lower university_name) university_db = Some entry
                 /\ ud_scores ud = db_scores entry)).
Proof.
  intros Hr Hmiss. unfold rank_university. rewrite bind_run.
  assert (Hcfg : exists c w0,
             match user_config with
             | Some c => mret c
             | None => UserConfiguration_init uid
             end w = (Return c, w0) /\ rng w0 = rng w /\ draws w0 = draws w
             /\ real_data_cache w0 = real_data_cache w).
  { destruct user_config; do 2 eexists; repeat split. }
  destruct Hcfg as (c & w0 & -> & Hrng0 & Hdraws0 & Hcache0).
  rewrite bind_run.
  destruct (fetch_real_data_miss university_name country uid (Some c) w0)
    as (fetched & info & w1 & Hfetch & (_ & Hrng1 & Hdraws1 & _) & _ & Hreal).
  { rewrite Hcache0. exact Hmiss. }
  cbv zeta in Hreal. rewrite Hreal.
  assert (Hnone : fetched !! "the_ranking" = None).
  { apply (fetched_has_no_rank university_name country uid (Some c) w0 fetched info).
    rewrite Hfetch. reflexivity. }
  set (real_data := merged (Py.lower university_name) fetched) in *.
  set (w2 := if dict_truthy real_data then _ else w1).
  assert (Hw2 : rng w2 = rng w /\ draws w2 = draws w).
  { unfold w2. destruct (dict_truthy real_data);
      cbn [rng draws set_real_data_cache]; split; congruence. }
  destruct (choose_scores university_name country real_data)
    as [[scores country'] is_estimated] eqn:Hchoose.
  destruct (get_tier (calculate_composite_score scores)) as [t d] eqn:Htier.
  rewrite bind_run.
  destruct (calculate_error_margin_run university_name country'
              (sources_of real_data) w2) as (e & -> & He).
  { destruct Hw2 as [-> ->]. exact Hr. }
  eexists. split; [reflexivity|].
  cbn [ud_scores ud_composite ud_tier ud_data_sources_used].
  assert (Hgood : in_bounds scores ->
            in_bounds scores
            /\ 0 <= calculate_composite_score scores <= 100
            /\ t = Rank.get_tier (calculate_composite_score scores)).
  { intros Hb. split; [exact Hb|].
    destruct (composite_one_decimal _ Hb) as (n & Hn & Hc).
    rewrite Hc in Htier |- *.
    split; [unfold Qle; simpl; lia|].
    rewrite <- (get_tier_one_decimal n Hn), Htier. reflexivity. }
  unfold choose_scores in Hchoose.
  destruct (sources_of real_data) as [|x l] eqn:Hsrc.
  - rewrite andb_false_r in Hchoose.
    destruct (Py.assoc (Py.lower university_name) university_db) as [entry|] eqn:Hdb.
    + injection Hchoose as <- _ _. right. split; [reflexivity|].
      exists entry. split; reflexivity.
    + injection Hchoose as <- _ _. left. apply Hgood, estimate_scores_in_bounds.
  - rewrite sources_truthy in Hchoose by (rewrite Hsrc; discriminate).
    cbn [andb] in Hchoose. injection Hchoose as <- _ _. left. apply Hgood.
    apply real_data_scores_in_bounds. intros rank Hrank. left.
    exact (merged_the_ranking _ _ _ Hnone Hrank).
Qed.

Lemma fresh_ranking_within_bounds_witness :
  exists ud,
    fst (rank_university "Harvard University" "USA" None None Scenario.library)
    = Return ud
    /\ ((in_bounds (ud_scores ud)
         /\ 0 <= ud_composite ud <= 100
         /\ ud_tier ud = Rank.get_tier (ud_composite ud))
        \/ (ud_data_sources_used ud = []
            /\ exists entry,
                 Py.assoc (Py.lower "Harvard University") university_db = Some entry
                 /\ ud_scores ud = db_scores entry)).
Proof.
  apply (fresh_ranking_within_bounds "Harvard University" "USA" None None
           Scenario.library).
  - vm_compute. split; discriminate.
  - reflexivity.
Defined.

End FreshRanking.

(** ** The type of an institution, from its name *)

(** X23. [classify_university_type] answers RESEARCH_UNIVERSITY only for a
    name that, in lower case, contains "university" and one of "research",
    "institute" and "tech", and contains none of the words of the
    branches before: "business school", "medical school", "law school",
    "college", "community college", "polytechnic", "technical", "applied",
    "technology". *)
Theorem research_university_by_name (name : string) :
  classify_university_type name = RESEARCH_UNIVERSITY
  <-> Py.any_in ["business school"; "medical school"; "law school";
                 "college"; "community college"; "polytechnic";
                 "technical"; "applied"; "technology"] (Py.lower name) = false
      /\ Py.contains "university" (Py.lower name) = true
      /\ Py.any_in ["research"; "institute"; "tech"] (Py.lower name) = true.
Proof.
  unfold classify_university_type, Py.any_in. cbn [existsb].
  generalize (Py.lower name). intros n.
  repeat match goal with
         | |- context [Py.contains ?k n] =>
             destruct (Py.contains k n); cbn [orb andb];
             try solve [split; [discriminate | intros (H & _); discriminate H]]
         end.
  all: first [ split; [intros _; repeat split | reflexivity]
             | split; [discriminate | intros (_ & _ & H); discriminate H]
             | split; [discriminate | intros (_ & H & _); discriminate H] ].
Qed.

(** ** The country multipliers of [pkWAUniRankBot.py] *)
Section WACountries.
Local Open Scope Q_scope.

Lemma is_lower_upper_ascii (c : ascii) : Py.is_lower (Py.upper_ascii c) = false.
Proof. destruct c as [[] [] [] [] [] [] [] []]; reflexivity. Qed.

Lemma has_lower_upper (s : string) : has_lower (Py.upper s) = false.
Proof.
  induction s as [|c s IH]; [reflexivity|].
  cbn [Py.upper Py.map_string has_lower]. rewrite is_lower_upper_ascii. exact IH.
Qed.

(** X24. In [pkWAUniRankBot.py] the table of the country multipliers is
    read at the country in upper case, and its keys are in mixed case but
    for "USA" and "UK": whatever the country, the look-up finds these two
    entries only, so that every other country, those of the table
    included, gets the default multiplier 1. *)
Theorem wa_multipliers_found (country : string) :
  let found := Py.assoc (Py.upper country) WA.country_multipliers in
  (Py.upper country = "USA" /\ found = Some 1.2)
  \/ (Py.upper country = "UK" /\ found = Some 1.15)
  \/ (Py.upper country <> "USA" /\ Py.upper country <> "UK" /\ found = None).
Proof.
  intros found. subst found.
  pose proof (has_lower_upper country) as Hup.
  revert Hup. generalize (Py.upper country). intros c Hup.
  unfold WA.country_multipliers. cbn [Py.assoc].
  destruct (String.eqb_spec c "USA") as [->|Husa]; [left; split; reflexivity|].
  destruct (String.eqb_spec c "UK") as [->|Huk]; [right; left; split; reflexivity|].
  right. right. split; [exact Husa|]. split; [exact Huk|].
  repeat match goal with
         | |- context [String.eqb c ?k] =>
             destruct (String.eqb_spec c k) as [->|?]; [discriminate Hup|]
         end.
  reflexivity.
Qed.

End WACountries.





(** ** The variation by the hash of the name *)
Section Variation.
Local Open Scope Q_scope.

Lemma variation_between (hash_int i : Z) : -3 <= variation hash_int i <= 3.
Proof.
  unfold variation. cbv zeta.
  assert (Hland : (0 <= Z.land (Z.shiftr hash_int (i * 4)) 15 <= 15)%Z).
  { change 15%Z with (Z.ones 4). rewrite Z.land_ones by lia.
    pose proof (Z.mod_pos_bound (Z.shiftr hash_int (i * 4)) (2 ^ 4) ltac:(lia)).
    change (Z.ones 4) with 15%Z. change (2 ^ 4)%Z with 16%Z in *. lia. }
  revert Hland. generalize (Z.land (Z.shiftr hash_int (i * 4)) 15). intros n [H0 H1].
  rewrite Zle_Qle in H0, H1.
  change (inject_Z 0) with 0 in H0. change (inject_Z 15) with 15 in H1.
  unfold Qdiv. change (/ 15) with (1 # 15). lra.
Qed.

(** X26. [_add_meaningful_variation] moves every score by a bounded
    amount that depends on the name only: at most 4.5 for the academic
    and graduate scores, 3 for the return on investment and the faculty
    ratio, 1.5 for transparency and visibility. *)
Theorem variation_is_bounded (name_lower : string) (s : Scores) :
  let s' := _add_meaningful_variation name_lower s in
  -4.5 <= academic s' - academic s <= 4.5
  /\ -4.5 <= graduate s' - graduate s <= 4.5
  /\ -3 <= roi s' - roi s <= 3
  /\ -3 <= fsr s' - fsr s <= 3
  /\ -1.5 <= transparency s' - transparency s <= 1.5
  /\ -1.5 <= visibility s' - visibility s <= 1.5.
Proof.
  intros s'. subst s'. unfold _add_meaningful_variation. cbv zeta.
  cbn [academic graduate roi fsr transparency visibility].
  generalize (Hashlib.hexdigest8_int (Hashlib.encode name_lower)). intros h.
  pose proof (variation_between h 0). pose proof (variation_between h 1).
  pose proof (variation_between h 2). pose proof (variation_between h 3).
  pose proof (variation_between h 4). pose proof (variation_between h 5).
  repeat split; lra.
Qed.

End Variation.
